(** * Office-Word-MCP-Server: storage adapter, document manager and
    JSON-RPC dispatcher

    A shallow embedding of [storage_adapter.py], [document_manager.py] and
    the request handler of [http_server.py].  Python code that touches the
    file system or the object store is written in a state-and-exception
    monad over an explicit [World]; every raised exception keeps the state
    reached so far, as in Python. *)

From Stdlib.Strings Require Import String Ascii Byte.
From Stdlib Require Import ZArith List Bool.
From stdpp Require Import gmap strings list fin_maps pretty.

Local Open Scope string_scope.

(** ** Python strings *)

Module Str.

Definition is_slash (c : ascii) : bool := Ascii.eqb c "/"%char.

Definition dquote : string := String (ascii_of_nat 34) EmptyString.

(** [s.startswith(p)] *)
Fixpoint startswith (s p : string) {struct p} : bool :=
  match p with
  | EmptyString => true
  | String b p' =>
      match s with
      | EmptyString => false
      | String a s' => Ascii.eqb a b && startswith s' p'
      end
  end.

(** [sub in s] *)
Fixpoint contains (sub s : string) : bool :=
  startswith s sub ||
  match s with
  | EmptyString => false
  | String _ r => contains sub r
  end.

(** [s.endswith(suf)] *)
Fixpoint endswith (s suf : string) : bool :=
  String.eqb s suf ||
  match s with
  | EmptyString => false
  | String _ r => endswith r suf
  end.

(** ['/' in s] *)
Fixpoint has_slash (s : string) : bool :=
  match s with
  | EmptyString => false
  | String c r => is_slash c || has_slash r
  end.

Definition lower_char (c : ascii) : ascii :=
  let n := nat_of_ascii c in
  if (65 <=? n)%nat && (n <=? 90)%nat then ascii_of_nat (n + 32) else c.

(** [s.lower()], on ASCII letters *)
Fixpoint lower (s : string) : string :=
  match s with
  | EmptyString => EmptyString
  | String c r => String (lower_char c) (lower r)
  end.

(** [s.rstrip('/')] *)
Fixpoint rstrip_slash (s : string) : string :=
  match s with
  | EmptyString => EmptyString
  | String c r =>
      match rstrip_slash r with
      | EmptyString => if is_slash c then EmptyString else String c EmptyString
      | r' => String c r'
      end
  end.

(** [s[n:]] *)
Fixpoint drop (n : nat) (s : string) : string :=
  match n, s with
  | O, _ => s
  | S k, String _ r => drop k r
  | S _, EmptyString => EmptyString
  end.

(** [s.replace(old, '')] for a non-empty [old]: occurrences are removed
    from left to right; the fuel bounds the scan by the length of [s]. *)
Fixpoint remove_all_go (fuel : nat) (old s : string) : string :=
  match fuel with
  | O => s
  | S f =>
      match s with
      | EmptyString => EmptyString
      | String c r =>
          if startswith s old
          then remove_all_go f old (drop (String.length old) s)
          else String c (remove_all_go f old r)
      end
  end.

Definition remove_all (old s : string) : string :=
  remove_all_go (S (String.length s)) old s.

(** [c in s] *)
Fixpoint has_char (c : ascii) (s : string) : bool :=
  match s with
  | EmptyString => false
  | String a r => Ascii.eqb a c || has_char c r
  end.

Definition hex_lower (n : nat) : ascii :=
  if (n <? 10)%nat then ascii_of_nat (48 + n) else ascii_of_nat (87 + n).

Definition backslash : ascii := ascii_of_nat 92.

(** One character of [repr(s)] between the quotes [q]: the quote and
    the backslash are escaped, control characters are written [\t],
    [\n], [\r] or [\xNN]; characters beyond ASCII are kept. *)
Definition repr_char (q c : ascii) : string :=
  let n := nat_of_ascii c in
  if Ascii.eqb c q || Ascii.eqb c backslash then String backslash (String c EmptyString)
  else if (n =? 9)%nat then String backslash "t"
  else if (n =? 10)%nat then String backslash "n"
  else if (n =? 13)%nat then String backslash "r"
  else if (n <? 32)%nat || (n =? 127)%nat
  then String backslash
         (String "x" (String (hex_lower (n / 16)) (String (hex_lower (n mod 16)) EmptyString)))
  else String c EmptyString.

Fixpoint repr_chars (q : ascii) (s : string) : string :=
  match s with
  | EmptyString => EmptyString
  | String c r => repr_char q c ++ repr_chars q r
  end.

(** [repr(s)]: in single quotes, or in double quotes when [s] has a
    single quote and no double quote. *)
Definition repr (s : string) : string :=
  let q := if has_char "'" s && negb (has_char (ascii_of_nat 34) s)
           then ascii_of_nat 34 else "'"%char in
  String q (repr_chars q s ++ String q EmptyString).

End Str.

(** ** [posixpath] *)

Module posixpath.

(** [os.path.basename]: [p[p.rfind('/') + 1:]] *)
Fixpoint basename (p : string) : string :=
  match p with
  | EmptyString => EmptyString
  | String c r =>
      if Str.has_slash r then basename r
      else if Str.is_slash c then r else p
  end.

(** [p[:p.rfind('/') + 1]] *)
Fixpoint head_raw (p : string) : string :=
  match p with
  | EmptyString => EmptyString
  | String c r =>
      if Str.has_slash r then String c (head_raw r)
      else if Str.is_slash c then "/" else EmptyString
  end.

(** [os.path.dirname]: the head, without its trailing slashes unless it
    consists of slashes only. *)
Definition dirname (p : string) : string :=
  let head := head_raw p in
  match Str.rstrip_slash head with
  | EmptyString => head
  | h => h
  end.

(** [os.path.join(a, b)] *)
Definition join (a b : string) : string :=
  if Str.startswith b "/" then b
  else if String.eqb a "" || Str.endswith a "/" then a ++ b
  else a ++ "/" ++ b.

(** Path resolution.  A path denotes the list of directory entries
    walked from the root; [""] and ["."] components stay in place and
    [".."] goes one level up (and stays at the root).  The stack is kept
    leaf first while the characters are scanned. *)
Definition push (comp : string) (stack : list string) : list string :=
  if String.eqb comp "" || String.eqb comp "." then stack
  else if String.eqb comp ".." then tail stack
  else comp :: stack.

Fixpoint walk (p : string) (cur : string) (stack : list string)
  : string * list string :=
  match p with
  | EmptyString => (cur, stack)
  | String c r =>
      if Str.is_slash c then walk r "" (push cur stack)
      else walk r (cur ++ String c EmptyString) stack
  end.

Definition finish (st : string * list string) : list string :=
  push (fst st) (snd st).

Definition resolve (cwd : list string) (p : string) : list string :=
  rev (finish (walk p "" (if Str.startswith p "/" then [] else rev cwd))).

(** A plain file name: one directory entry, neither empty nor a dot
    name. *)
Definition plain (n : string) : bool :=
  negb (Str.has_slash n) && negb (String.eqb n "")
  && negb (String.eqb n ".") && negb (String.eqb n "..").

End posixpath.

(** ** Exceptions *)

Inductive exn : Type :=
| FileNotFoundError (msg : string)
| PermissionError (msg : string)
| IsADirectoryError (msg : string)
| NotADirectoryError (msg : string)
| FileExistsError (msg : string)
| SameFileError (msg : string)
| ClientError (code : string) (msg : string)
| TypeError (msg : string)
| AttributeError (msg : string)
| KeyError (msg : string)
| Exception (msg : string).

(** [str(e)]: every exception carries its message; the exceptions of
    the operating system are raised with the message of an [OSError]
    (see [os.strerror]). *)
Definition str_exn (e : exn) : string :=
  match e with
  | FileNotFoundError m | PermissionError m | IsADirectoryError m
  | NotADirectoryError m | FileExistsError m | SameFileError m
  | ClientError _ m | TypeError m | AttributeError m | KeyError m
  | Exception m => m
  end.

(** ** The world: file system and object store *)

Inductive node : Type :=
| File (data : list byte)
| Dir.

(** [fs] maps resolved paths to nodes (the root is always a directory);
    [denied] lists the directories in which the process may not create
    entries (an unattached or read-only mount); [s3_objects] is the
    content of the configured bucket and [s3_fault], when set, is the error
    code with which every call of the client fails. *)
Record World : Type := mkWorld {
  fs : gmap (list string) node;
  denied : gset (list string);
  cwd : list string;
  s3_objects : gmap string (list byte);
  s3_fault : option string
}.

Definition set_fs (f : gmap (list string) node → gmap (list string) node)
  (w : World) : World :=
  mkWorld (f (fs w)) (denied w) (cwd w) (s3_objects w) (s3_fault w).

Definition set_s3 (f : gmap string (list byte) → gmap string (list byte))
  (w : World) : World :=
  mkWorld (fs w) (denied w) (cwd w) (f (s3_objects w)) (s3_fault w).

Definition lookup_node (w : World) (k : list string) : option node :=
  match k with
  | [] => Some Dir
  | _ => fs w !! k
  end.

Definition key (w : World) (p : string) : list string :=
  posixpath.resolve (cwd w) p.

(** ** State and exception monad *)

Inductive Res (A : Type) : Type :=
| Ok (a : A)
| Raise (e : exn).
Arguments Ok {A} a.
Arguments Raise {A} e.

Definition M (A : Type) : Type := World → Res A * World.

Definition ret {A} (a : A) : M A := λ w, (Ok a, w).
Definition raise {A} (e : exn) : M A := λ w, (Raise e, w).
Definition bind {A B} (m : M A) (k : A → M B) : M B :=
  λ w, match m w with
       | (Ok a, w') => k a w'
       | (Raise e, w') => (Raise e, w')
       end.
Definition gets {A} (f : World → A) : M A := λ w, (Ok (f w), w).
Definition modify (f : World → World) : M unit := λ w, (Ok tt, f w).

(** [try: m except: h]; a handler re-raises what its clause does not
    match. *)
Definition try_except {A} (m : M A) (h : exn → M A) : M A :=
  λ w, match m w with
       | (Ok a, w') => (Ok a, w')
       | (Raise e, w') => h e w'
       end.

(** [try: m finally: f]: an exception of [f] replaces the outcome of
    [m]. *)
Definition try_finally {A} (m : M A) (f : M unit) : M A :=
  λ w, match m w with
       | (r, w') =>
           match f w' with
           | (Ok _, w'') => (r, w'')
           | (Raise e, w'') => (Raise e, w'')
           end
       end.

Declare Scope py_scope.
Delimit Scope py_scope with py.
Notation "x <- m ;; k" := (bind m (λ x, k))
  (at level 100, m at next level, right associativity) : py_scope.
Notation "'do' m ;; k" := (bind m (λ _, k))
  (at level 100, m at next level, right associativity) : py_scope.
Local Open Scope py_scope.

(** ** Operating-system primitives *)

Module os.

(** [str(e)] of the [OSError] that a system call raises for [filename]:
    the error number, its text and the [repr] of the name. *)
Definition strerror (errno : nat) (text filename : string) : string :=
  "[Errno " ++ pretty errno ++ "] " ++ text ++ ": " ++ Str.repr filename.

Definition ENOENT (filename : string) : exn :=
  FileNotFoundError (strerror 2 "No such file or directory" filename).
Definition EACCES (filename : string) : exn :=
  PermissionError (strerror 13 "Permission denied" filename).
Definition EEXIST (filename : string) : exn :=
  FileExistsError (strerror 17 "File exists" filename).
Definition ENOTDIR (filename : string) : exn :=
  NotADirectoryError (strerror 20 "Not a directory" filename).
Definition EISDIR (filename : string) : exn :=
  IsADirectoryError (strerror 21 "Is a directory" filename).

(** [os.path.exists] *)
Definition path_exists (p : string) : M bool :=
  gets (λ w, negb (String.eqb p "") && bool_decide (is_Some (lookup_node w (key w p)))).

(** [os.path.isdir] *)
Definition path_isdir (p : string) : M bool :=
  gets (λ w, negb (String.eqb p "")
             && match lookup_node w (key w p) with Some Dir => true | _ => false end).

(** [os.remove] *)
Definition remove (p : string) : M unit :=
  λ w, match lookup_node w (key w p) with
       | Some (File _) => (Ok tt, set_fs (delete (key w p)) w)
       | Some Dir => (Raise (EISDIR p), w)
       | None => (Raise (ENOENT p), w)
       end.

(** [open(p, 'rb').read()] *)
Definition read_file (p : string) : M (list byte) :=
  λ w, match lookup_node w (key w p) with
       | Some (File d) => (Ok d, w)
       | Some Dir => (Raise (EISDIR p), w)
       | None => (Raise (ENOENT p), w)
       end.

(** [open(p, 'wb').write(d)]: the file is created in an existing,
    writable directory, or overwritten. *)
Definition write_file (p : string) (d : list byte) : M unit :=
  λ w, let k := key w p in
       match lookup_node w k with
       | Some (File _) => (Ok tt, set_fs (<[k := File d]>) w)
       | Some Dir => (Raise (EISDIR p), w)
       | None =>
           match lookup_node w (removelast k) with
           | Some Dir =>
               if bool_decide (removelast k ∈ denied w)
               then (Raise (EACCES p), w)
               else (Ok tt, set_fs (<[k := File d]>) w)
           | Some (File _) => (Raise (ENOTDIR p), w)
           | None => (Raise (ENOENT p), w)
           end
       end.

(** The path one level up, as [os.makedirs] takes it: the head of
    [os.path.split], split once more when the tail is empty. *)
Definition makedirs_head (name : string) : string :=
  if String.eqb (posixpath.basename name) ""
  then posixpath.dirname (posixpath.dirname name)
  else posixpath.dirname name.

(** [os.makedirs(p, exist_ok=True)]: every missing directory on the way
    to [p] is created, from the root down.  The exception names the path
    handed to the [mkdir] that failed: [p] cut back by as many levels as
    were still to come ([p] is taken to have no [.] or [..] among
    them). *)
Fixpoint makedirs_go (p : string) (done todo : list string) (w : World)
  : Res unit * World :=
  match todo with
  | [] => (Ok tt, w)
  | c :: rest =>
      let k := (done ++ [c])%list in
      match fs w !! k with
      | Some Dir => makedirs_go p k rest w
      | Some (File _) =>
          (Raise (match rest with
                  | [] => EEXIST p
                  | _ :: below => ENOTDIR (Nat.iter (length below) makedirs_head p)
                  end), w)
      | None =>
          if bool_decide (done ∈ denied w)
          then (Raise (EACCES (Nat.iter (length rest) makedirs_head p)), w)
          else makedirs_go p k rest (set_fs (<[k := Dir]>) w)
      end
  end.

Definition makedirs (p : string) : M unit :=
  λ w, if String.eqb p "" then (Raise (ENOENT p), w)
       else makedirs_go p [] (key w p) w.

End os.

(** A file system without the entry [k] and everything below it. *)
Definition without_tree (k : list string) (m : gmap (list string) node)
  : gmap (list string) node :=
  filter (λ kv, ¬ (k `prefix_of` kv.1)) m.
#[global] Arguments without_tree : simpl never.

Module shutil.

(** [shutil.copy2(src, dst)]: a directory as destination receives the
    file under the source's base name; copying a file onto itself is an
    error; the source is opened before the destination. *)
Definition copy2 (src dst : string) : M string :=
  isdir <- os.path_isdir dst ;;
  let dst := if isdir then posixpath.join dst (posixpath.basename src) else dst in
  same <- gets (λ w, bool_decide (key w src = key w dst)
                     && bool_decide (is_Some (lookup_node w (key w src)))) ;;
  if same
  then raise (SameFileError (Str.repr src ++ " and " ++ Str.repr dst
                             ++ " are the same file"))
  else d <- os.read_file src ;; do os.write_file dst d ;; ret dst.

(** [shutil.rmtree(p)]: the directory and everything below it. *)
Definition rmtree (p : string) : M unit :=
  λ w, let k := key w p in
       match lookup_node w k with
       | Some Dir =>
           (Ok tt, set_fs (without_tree k) w)
       | Some (File _) => (Raise (os.ENOTDIR p), w)
       | None => (Raise (os.ENOENT p), w)
       end.

End shutil.

(** [tempfile.gettempdir()] *)
Definition gettempdir : string := "/tmp".

(** ** The object-store client *)

Module s3_client.

(** Every call fails with the world's fault code when one is set. *)
Definition call : M unit :=
  λ w, match s3_fault w with
       | Some c => (Raise (ClientError c "An error occurred"), w)
       | None => (Ok tt, w)
       end.

Definition head_bucket : M unit := call.

Definition head_object (k : string) : M unit :=
  do call ;;
  o <- gets (λ w, s3_objects w !! k) ;;
  match o with
  | Some _ => ret tt
  | None => raise (ClientError "404" "Not Found")
  end.

Definition download_file (k local_path : string) : M unit :=
  do call ;;
  o <- gets (λ w, s3_objects w !! k) ;;
  match o with
  | Some d => os.write_file local_path d
  | None => raise (ClientError "404" "Not Found")
  end.

Definition upload_file (local_path k : string) : M unit :=
  d <- os.read_file local_path ;;
  do call ;;
  modify (set_s3 (<[k := d]>)).

Definition delete_object (k : string) : M unit :=
  do call ;;
  modify (set_s3 (delete k)).

End s3_client.

(** ** storage_adapter.py *)

(** The process environment, [os.getenv]. *)
Definition getenv (env : gmap string string) (name default : string) : string :=
  match env !! name with
  | Some v => v
  | None => default
  end.

(** Truth value of an optional string: [None] and [""] are false. *)
Definition truthy (o : option string) : bool :=
  match o with
  | Some s => negb (String.eqb s "")
  | None => false
  end.

Definition str_opt (o : option string) : string :=
  match o with
  | Some s => s
  | None => "None"
  end.

Record StorageAdapter : Type := mkStorageAdapter {
  storage_type : string;
  base_url : string;
  s3_bucket : option string;
  s3_region : string;
  s3_access_key : option string;
  s3_secret_key : option string;
  disk_path : string;
  local_path : string
}.

Module StorageAdapter.

Definition with_storage_type (t : string) (self : StorageAdapter) :=
  mkStorageAdapter t (base_url self) (s3_bucket self) (s3_region self)
    (s3_access_key self) (s3_secret_key self) (disk_path self) (local_path self).

Definition with_disk_path (p : string) (self : StorageAdapter) :=
  mkStorageAdapter (storage_type self) (base_url self) (s3_bucket self)
    (s3_region self) (s3_access_key self) (s3_secret_key self) p (local_path self).

Definition with_local_path (p : string) (self : StorageAdapter) :=
  mkStorageAdapter (storage_type self) (base_url self) (s3_bucket self)
    (s3_region self) (s3_access_key self) (s3_secret_key self) (disk_path self) p.

Definition with_s3 (bucket : option string) (region : string)
  (access secret : option string) (self : StorageAdapter) :=
  mkStorageAdapter (storage_type self) (base_url self) bucket region
    access secret (disk_path self) (local_path self).

Section Init.
Variable env : gmap string string.

Definition _init_local (self : StorageAdapter) : M StorageAdapter :=
  let local_path := getenv env "DOCUMENTS_DIR" "./documents" in
  do os.makedirs local_path ;;
  ret (with_local_path local_path self).

Definition _init_s3 (self : StorageAdapter) : M StorageAdapter :=
  let self := with_s3 (env !! "S3_BUCKET_NAME") (getenv env "S3_REGION" "us-east-1")
                (env !! "AWS_ACCESS_KEY_ID") (env !! "AWS_SECRET_ACCESS_KEY") self in
  if negb (truthy (s3_bucket self) && truthy (s3_access_key self)
           && truthy (s3_secret_key self))
  then _init_local (with_storage_type "local" self)
  else
    try_except
      (do s3_client.head_bucket ;; ret self)
      (λ _, _init_local (with_storage_type "local" self)).

Definition _init_disk (self : StorageAdapter) : M StorageAdapter :=
  let disk_path := getenv env "DISK_PATH" "/mnt/disk/documents" in
  try_except
    (do os.makedirs disk_path ;; ret (with_disk_path disk_path self))
    (λ e, match e with
          | PermissionError _ => _init_local (with_storage_type "local" self)
          | _ => raise e
          end).

Definition __init__ : M StorageAdapter :=
  let self :=
    mkStorageAdapter (Str.lower (getenv env "STORAGE_TYPE" "disk"))
      (getenv env "BASE_URL" "") None "" None None "" "" in
  if String.eqb (storage_type self) "s3" then _init_s3 self
  else if String.eqb (storage_type self) "disk" then _init_disk self
  else _init_local self.
End Init.

Section Methods.
Variable self : StorageAdapter.

Definition get_document_path (filename : string) : string :=
  if String.eqb (storage_type self) "s3"
  then "s3://" ++ str_opt (s3_bucket self) ++ "/" ++ filename
  else if String.eqb (storage_type self) "disk"
  then posixpath.join (disk_path self) filename
  else posixpath.join (local_path self) filename.

Definition download_document (filename : string) (local_path_ : option string)
  : M string :=
  if String.eqb (storage_type self) "s3" then
    let local_path_ :=
      match local_path_ with
      | Some p => p
      | None => posixpath.join gettempdir filename
      end in
    try_except
      (do s3_client.download_file filename local_path_ ;; ret local_path_)
      (λ e, match e with
            | ClientError code _ =>
                if String.eqb code "404"
                then raise (FileNotFoundError
                              ("Document " ++ filename ++ " not found in S3"))
                else raise e
            | _ => raise e
            end)
  else if String.eqb (storage_type self) "disk" then
    let source_path := posixpath.join (disk_path self) filename in
    let local_path_ :=
      match local_path_ with
      | Some p => p
      | None => posixpath.join gettempdir filename
      end in
    ex <- os.path_exists source_path ;;
    if negb ex
    then raise (FileNotFoundError ("Document " ++ filename ++ " not found"))
    else do shutil.copy2 source_path local_path_ ;; ret local_path_
  else
    let file_path := posixpath.join (local_path self) filename in
    ex <- os.path_exists file_path ;;
    if negb ex
    then raise (FileNotFoundError ("Document " ++ filename ++ " not found"))
    else ret file_path.

Definition locator (filename dest_path : string) : string :=
  if negb (String.eqb (base_url self) "")
  then base_url self ++ "/documents/" ++ filename
  else dest_path.

Definition upload_document (local_path_ filename : string) : M string :=
  if String.eqb (storage_type self) "s3" then
    try_except
      (do s3_client.upload_file local_path_ filename ;;
       ret (locator filename
              ("s3://" ++ str_opt (s3_bucket self) ++ "/" ++ filename)))
      (λ e, match e with
            | ClientError _ _ =>
                raise (Exception ("Failed to upload to S3: " ++ str_exn e))
            | _ => raise e
            end)
  else if String.eqb (storage_type self) "disk" then
    let dest_path := posixpath.join (disk_path self) filename in
    do shutil.copy2 local_path_ dest_path ;;
    ret (locator filename dest_path)
  else
    let dest_path := posixpath.join (local_path self) filename in
    do shutil.copy2 local_path_ dest_path ;;
    ret (locator filename dest_path).

Definition document_exists (filename : string) : M bool :=
  if String.eqb (storage_type self) "s3" then
    try_except
      (do s3_client.head_object filename ;; ret true)
      (λ e, match e with
            | ClientError code _ =>
                if String.eqb code "404" then ret false else raise e
            | _ => raise e
            end)
  else if String.eqb (storage_type self) "disk" then
    os.path_exists (posixpath.join (disk_path self) filename)
  else
    os.path_exists (posixpath.join (local_path self) filename).

Definition delete_document (filename : string) : M bool :=
  if String.eqb (storage_type self) "s3" then
    try_except
      (do s3_client.delete_object filename ;; ret true)
      (λ e, match e with
            | ClientError _ _ =>
                raise (Exception ("Failed to delete from S3: " ++ str_exn e))
            | _ => raise e
            end)
  else if String.eqb (storage_type self) "disk" then
    let file_path := posixpath.join (disk_path self) filename in
    ex <- os.path_exists file_path ;;
    if ex then do os.remove file_path ;; ret true else ret false
  else
    let file_path := posixpath.join (local_path self) filename in
    ex <- os.path_exists file_path ;;
    if ex then do os.remove file_path ;; ret true else ret false.
End Methods.

Section Url.
Variable self : StorageAdapter.
(** [generate_presigned_url] of the client, for a bucket and a key:
    the signed address, or the exception raised while signing. *)
Variable generate_presigned_url : option string → string → Res string.

(** The bare [except:] of the object-store branch catches whatever the
    signing raises. *)
Definition get_document_url (filename : string) : string :=
  if String.eqb (storage_type self) "s3" then
    match generate_presigned_url (s3_bucket self) filename with
    | Ok url => url
    | Raise _ =>
        "https://" ++ str_opt (s3_bucket self) ++ ".s3." ++ s3_region self
        ++ ".amazonaws.com/" ++ filename
    end
  else if String.eqb (storage_type self) "disk"
          || String.eqb (storage_type self) "local" then
    if negb (String.eqb (base_url self) "")
    then base_url self ++ "/documents/" ++ filename
    else get_document_path self filename
  else filename.
End Url.

End StorageAdapter.

(** ** document_manager.py *)

Record DocumentManager : Type := mkDocumentManager {
  storage : StorageAdapter;
  temp_dir : string
}.

Module DocumentManager.

Section Methods.
Variable self : DocumentManager.

Definition get_local_path (filename : string) (create_if_missing : bool)
  : M string :=
  ex <- StorageAdapter.document_exists (storage self) filename ;;
  if ex then
    let local_path := posixpath.join (temp_dir self) filename in
    do StorageAdapter.download_document (storage self) filename (Some local_path) ;;
    ret local_path
  else if create_if_missing then
    let local_path := posixpath.join (temp_dir self) filename in
    do os.makedirs (posixpath.dirname local_path) ;;
    ret local_path
  else raise (FileNotFoundError ("Document " ++ filename ++ " not found")).

Definition save_document (local_path filename : string) : M string :=
  url <- StorageAdapter.upload_document (storage self) local_path filename ;;
  ret url.

(** [None] and the empty string both take the second branch. *)
Definition cleanup_temp (filename : option string) : M unit :=
  if truthy filename then
    let temp_path := posixpath.join (temp_dir self) (str_opt filename) in
    ex <- os.path_exists temp_path ;;
    if ex then os.remove temp_path else ret tt
  else
    ex <- os.path_exists (temp_dir self) ;;
    if ex then shutil.rmtree (temp_dir self) else ret tt.

Definition get_document_url
  (generate_presigned_url : option string → string → Res string)
  (filename : string) : string :=
  StorageAdapter.get_document_url (storage self) generate_presigned_url filename.
End Methods.

End DocumentManager.

(** ** urllib.parse *)

Module urllib.

Definition hex_value (c : ascii) : option nat :=
  let n := nat_of_ascii c in
  if (48 <=? n)%nat && (n <=? 57)%nat then Some (n - 48)%nat
  else if (65 <=? n)%nat && (n <=? 70)%nat then Some (n - 55)%nat
  else if (97 <=? n)%nat && (n <=? 102)%nat then Some (n - 87)%nat
  else None.

(** [unquote]: every [%XX] with two hexadecimal digits becomes the byte
    it names; anything else is kept. *)
Fixpoint unquote (s : string) : string :=
  match s with
  | EmptyString => EmptyString
  | String c r =>
      if Ascii.eqb c "%" then
        match r with
        | String a (String b r') =>
            match hex_value a, hex_value b with
            | Some x, Some y => String (ascii_of_nat (16 * x + y)) (unquote r')
            | _, _ => String c (unquote r)
            end
        | _ => String c (unquote r)
        end
      else String c (unquote r)
  end.

Definition hex_digit (n : nat) : ascii :=
  if (n <? 10)%nat then ascii_of_nat (48 + n) else ascii_of_nat (55 + n).

Definition always_safe (c : ascii) : bool :=
  let n := nat_of_ascii c in
  ((65 <=? n)%nat && (n <=? 90)%nat) || ((97 <=? n)%nat && (n <=? 122)%nat)
  || ((48 <=? n)%nat && (n <=? 57)%nat)
  || Ascii.eqb c "_" || Ascii.eqb c "." || Ascii.eqb c "-" || Ascii.eqb c "~".

(** [quote(s)], with the default [safe='/'] *)
Fixpoint quote (s : string) : string :=
  match s with
  | EmptyString => EmptyString
  | String c r =>
      if always_safe c || Ascii.eqb c "/" then String c (quote r)
      else
        let n := nat_of_ascii c in
        String "%" (String (hex_digit (n / 16)) (String (hex_digit (n mod 16)) (quote r)))
  end.

End urllib.

(** ** Python values exchanged over JSON *)

#[local] Unset Elimination Schemes.
Inductive json : Type :=
| JNull
| JBool (b : bool)
| JInt (z : Z)
| JStr (s : string)
| JList (l : list json)
| JDict (d : list (string * json)).
#[local] Set Elimination Schemes.

Module py.

Fixpoint dict_get (d : list (string * json)) (k : string) : option json :=
  match d with
  | [] => None
  | (k', v) :: r => if String.eqb k' k then Some v else dict_get r k
  end.

Fixpoint dict_set (d : list (string * json)) (k : string) (v : json)
  : list (string * json) :=
  match d with
  | [] => [(k, v)]
  | (k', v') :: r =>
      if String.eqb k' k then (k, v) :: r else (k', v') :: dict_set r k v
  end.

Definition type_name (v : json) : string :=
  match v with
  | JNull => "NoneType"
  | JBool _ => "bool"
  | JInt _ => "int"
  | JStr _ => "str"
  | JList _ => "list"
  | JDict _ => "dict"
  end.

Definition is_str (v : json) (s : string) : bool :=
  match v with
  | JStr s' => String.eqb s' s
  | _ => false
  end.

(** [bool(v)] *)
Definition truth (v : json) : bool :=
  match v with
  | JNull => false
  | JBool b => b
  | JInt z => negb (Z.eqb z 0)
  | JStr s => negb (String.eqb s "")
  | JList l => match l with [] => false | _ => true end
  | JDict d => match d with [] => false | _ => true end
  end.

(** [v.get(k, default)] *)
Definition get (v : json) (k : string) (default : json) : M json :=
  match v with
  | JDict d => ret (match dict_get d k with Some x => x | None => default end)
  | _ => raise (AttributeError
                  ("'" ++ type_name v ++ "' object has no attribute 'get'"))
  end.

(** [k in v], for a string [k] *)
Definition contains (k : string) (v : json) : M bool :=
  match v with
  | JDict d => ret (bool_decide (is_Some (dict_get d k)))
  | JList l => ret (existsb (λ x, is_str x k) l)
  | JStr s => ret (Str.contains k s)
  | _ => raise (TypeError
                  ("argument of type '" ++ type_name v ++ "' is not iterable"))
  end.

(** [v[k]], for a string [k] *)
Definition getitem (v : json) (k : string) : M json :=
  match v with
  | JDict d =>
      match dict_get d k with
      | Some x => ret x
      | None => raise (KeyError ("'" ++ k ++ "'"))
      end
  | JList _ => raise (TypeError "list indices must be integers or slices, not str")
  | JStr _ => raise (TypeError "string indices must be integers, not 'str'")
  | _ => raise (TypeError ("'" ++ type_name v ++ "' object is not subscriptable"))
  end.

(** [v[k] = x] *)
Definition setitem (v : json) (k : string) (x : json) : M json :=
  match v with
  | JDict d => ret (JDict (dict_set d k x))
  | JList _ => raise (TypeError "list indices must be integers or slices, not str")
  | _ => raise (TypeError
                  ("'" ++ type_name v ++ "' object does not support item assignment"))
  end.

(** [str(v)], as in an f-string: a string is itself; for anything else
    the text is that of [repr]. *)
Definition str (repr : json → string) (v : json) : string :=
  match v with
  | JStr s => s
  | _ => repr v
  end.

(** [registry.get(k)] *)
Fixpoint dict_get_tool {A} (d : list (string * A)) (k : string) : option A :=
  match d with
  | [] => None
  | (k', v) :: r => if String.eqb k' k then Some v else dict_get_tool r k
  end.

(** [os.path.basename(v)] on a Python value *)
Definition basename (v : json) : M string :=
  match v with
  | JStr s => ret (posixpath.basename s)
  | _ => raise (TypeError
                  ("expected str, bytes or os.PathLike object, not " ++ type_name v))
  end.

End py.

(** ** The registered operations *)

(** An operation of the registry: its docstring, the input schema that
    [_get_tool_schema] reads off its signature by reflection, and its
    behaviour when called with keyword arguments.  Every registered
    operation is declared [-> str]. *)
Record ToolFunc : Type := mkToolFunc {
  tool_doc : option string;
  tool_schema : json;
  tool_call : list (string * json) → M string
}.

(** *** The storage-sync decorator of document_manager.py *)

(** [a or b] on two looked-up values, [None] standing for a missing
    key. *)
Definition py_or (a b : option json) : json :=
  match a with
  | Some v => if py.truth v then v else default JNull b
  | None => default JNull b
  end.

(** [manager.get_local_path(filename, ...)] on the value found in the
    keyword arguments.  A value that is not a string is rejected when it
    is joined to the storage directory (on the object store the client
    rejects it instead); either exception is caught by the decorator. *)
Definition get_local_path_of (manager : DocumentManager) (filename : json)
  (create_if_missing : bool) : M string :=
  match filename with
  | JStr s => DocumentManager.get_local_path manager s create_if_missing
  | v => raise (TypeError
                  ("join() argument must be str, bytes, or os.PathLike object, not '"
                   ++ py.type_name v ++ "'"))
  end.

(** [with_storage_sync(tool_func)], called with keyword arguments;
    [name] is [tool_func.__name__]. *)
Definition with_storage_sync (manager : DocumentManager) (name : string)
  (tool_func : ToolFunc) (kwargs : list (string * json)) : M string :=
  let filename :=
    py_or (py.dict_get kwargs "filename") (py.dict_get kwargs "source_filename") in
  if negb (py.truth filename) then tool_call tool_func kwargs
  else
    try_finally
      (try_except
         (let create_if_missing :=
            Str.contains "create" (Str.lower name)
            || Str.contains "add" (Str.lower name) in
          local_path <- get_local_path_of manager filename create_if_missing ;;
          let kwargs :=
            if bool_decide (is_Some (py.dict_get kwargs "filename"))
            then py.dict_set kwargs "filename" (JStr local_path) else kwargs in
          let kwargs :=
            if bool_decide (is_Some (py.dict_get kwargs "source_filename"))
            then py.dict_set kwargs "source_filename" (JStr local_path) else kwargs in
          result <- tool_call tool_func kwargs ;;
          ex <- os.path_exists local_path ;;
          if ex then
            base <- py.basename filename ;;
            doc_url <- DocumentManager.save_document manager local_path base ;;
            ret (result ++ "

Document URL: " ++ doc_url ++ "
Download URL: " ++ doc_url)
          else ret result)
         (λ e, ret ("Error: " ++ str_exn e)))
      (base <- py.basename filename ;;
       DocumentManager.cleanup_temp manager (Some base)).

(** Modelled from the spec: [ensure_docx_extension] of
    [word_document_server/utils/file_utils.py], a module that this
    development does not embed; a document name is "normalized to carry the document-format's
    required extension", as the dispatcher itself does before saving. *)
Definition ensure_docx_extension (filename : string) : string :=
  if negb (Str.endswith filename ".docx") then filename ++ ".docx" else filename.

Module template_tools.

Definition TEMPLATE_FILENAME : string := ".template.docx".

Definition TEMPLATE_DIR (env : gmap string string) : string :=
  getenv env "DISK_PATH" (getenv env "DOCUMENTS_DIR" "/mnt/disk/documents").

Definition get_template_path (env : gmap string string) : string :=
  posixpath.join (TEMPLATE_DIR env) TEMPLATE_FILENAME.

Definition template_exists (env : gmap string string) : M bool :=
  os.path_exists (get_template_path env).

Definition set_template_from_file (env : gmap string string)
  (template_filename : string) : M string :=
  let template_filename := ensure_docx_extension template_filename in
  ex <- os.path_exists template_filename ;;
  if negb ex
  then ret ("Template file " ++ template_filename ++ " does not exist")
  else
    try_except
      (let template_path := get_template_path env in
       do os.makedirs (posixpath.dirname template_path) ;;
       do shutil.copy2 template_filename template_path ;;
       ret ("Template set successfully from " ++ template_filename))
      (λ e, ret ("Failed to set template: " ++ str_exn e)).

Definition clear_template (env : gmap string string) : M string :=
  let template_path := get_template_path env in
  ex <- os.path_exists template_path ;;
  if negb ex then ret "No template to clear"
  else
    try_except
      (do os.remove template_path ;; ret "Template cleared successfully")
      (λ e, ret ("Failed to clear template: " ++ str_exn e)).

End template_tools.

Module document_tools.

Section CreateDocument.
Variable env : gmap string string.
(** [check_file_writeable] of [file_utils.py], left abstract: it
    inspects the file system and answers with a flag and a
    message. *)
Variable check_file_writeable : string → World → bool * string.
(** The document engine: the bytes that [doc.save] writes for a
    document built from the given template bytes (or from scratch)
    with the given keyword arguments, or the exception raised on the
    way. *)
Variable docx_build : list (string * json) → option (list byte) → Res (list byte).
(** [repr] of a value that is not a string. *)
Variable py_repr : json → string.

Definition parameters : list string :=
  ["filename"; "title"; "author"; "use_template"; "document_title";
   "document_subtitle"].

Definition is_given (kwargs : list (string * json)) (k : string) : bool :=
  match py.dict_get kwargs k with
  | Some JNull | None => false
  | Some _ => true
  end.

Definition header_note (kwargs : list (string * json)) : string :=
  if is_given kwargs "document_title" || is_given kwargs "document_subtitle" then
    let title :=
      if is_given kwargs "document_title"
      then ["title: '" ++ py.str py_repr (default JNull (py.dict_get kwargs "document_title")) ++ "'"]
      else [] in
    let subtitle :=
      if is_given kwargs "document_subtitle"
      then ["subtitle: '" ++ py.str py_repr (default JNull (py.dict_get kwargs "document_subtitle")) ++ "'"]
      else [] in
    " (header updated: " ++ String.concat ", " (title ++ subtitle)%list ++ ")"
  else "".

Definition create_document (kwargs : list (string * json)) : M string :=
  if negb (forallb (λ kv, bool_decide (kv.1 ∈ parameters)) kwargs)
  then raise (TypeError "create_document() got an unexpected keyword argument")
  else
    match py.dict_get kwargs "filename" with
    | None =>
        raise (TypeError
                 "create_document() missing 1 required positional argument: 'filename'")
    | Some (JStr filename) =>
        let filename := ensure_docx_extension filename in
        writeable <- gets (check_file_writeable filename) ;;
        if negb writeable.1
        then ret ("Cannot create document: " ++ writeable.2)
        else
          let use_template :=
            py.truth (default (JBool true) (py.dict_get kwargs "use_template")) in
          try_except
            (has_template <- template_tools.template_exists env ;;
             template <-
               (if use_template && has_template
                then
                  do shutil.copy2 (template_tools.get_template_path env) filename ;;
                  d <- os.read_file filename ;;
                  ret (Some d)
                else ret None) ;;
             match docx_build kwargs template with
             | Raise e => raise e
             | Ok data =>
                 do os.write_file filename data ;;
                 has_template <- template_tools.template_exists env ;;
                 let template_note :=
                   if use_template && has_template then " (using template)" else "" in
                 ret ("Document " ++ filename ++ " created successfully"
                      ++ template_note ++ header_note kwargs)
             end)
            (λ e, ret ("Failed to create document: " ++ str_exn e))
    | Some v =>
        raise (AttributeError
                 ("'" ++ py.type_name v ++ "' object has no attribute 'endswith'"))
    end.
End CreateDocument.

End document_tools.

(** ** http_server.py *)

Module http_server.

Definition response_result (request_id result : json) : json :=
  JDict [("jsonrpc", JStr "2.0"); ("id", request_id); ("result", result)].

Definition response_error (request_id : json) (code : Z) (message : string) : json :=
  JDict [("jsonrpc", JStr "2.0"); ("id", request_id);
         ("error", JDict [("code", JInt code); ("message", JStr message)])].

(** What the handler keeps between resolving the document names and
    calling the operation. *)
Record Resolved : Type := mkResolved {
  arguments_of : json;
  original_filename_of : option string;
  local_path_of : option string
}.

Section Handler.
Variable TOOL_REGISTRY : list (string * ToolFunc).
Variable BASE_URL : string.
(** The process-wide document manager, [get_document_manager()]. *)
Variable manager : DocumentManager.
(** [repr] of a value that is not a string. *)
Variable py_repr : json → string.

(** [TOOL_REGISTRY.get(tool_name)]; a list or a dict is not hashable. *)
Definition registry_lookup (tool_name : json) : M (option (string * ToolFunc)) :=
  match tool_name with
  | JStr n =>
      ret (match py.dict_get_tool TOOL_REGISTRY n with
           | Some f => Some (n, f)
           | None => None
           end)
  | JList _ | JDict _ =>
      raise (TypeError ("unhashable type: '" ++ py.type_name tool_name ++ "'"))
  | _ => ret None
  end.

Definition create_if_missing_of (tool_name : string) : bool :=
  Str.contains "create" tool_name || Str.contains "add" tool_name.

(** Lines 275-297: the primary document name.  [inl] is a response
    returned at once. *)
Definition resolve_filename (request_id : json) (tool_name : string)
  (arguments : json) : M (json + Resolved) :=
  has <- py.contains "filename" arguments ;;
  if has then
    original <- py.getitem arguments "filename" ;;
    filename_base <- py.basename original ;;
    let original_filename :=
      match original with JStr s => Some s | _ => None end in
    let create_if_missing := create_if_missing_of tool_name in
    try_except
      (local_path <- DocumentManager.get_local_path manager filename_base
                       create_if_missing ;;
       arguments <- py.setitem arguments "filename" (JStr local_path) ;;
       ret (inr (mkResolved arguments original_filename (Some local_path))))
      (λ e, match e with
            | FileNotFoundError _ =>
                if create_if_missing then
                  local_path <- DocumentManager.get_local_path manager
                                  filename_base true ;;
                  arguments <- py.setitem arguments "filename" (JStr local_path) ;;
                  ret (inr (mkResolved arguments original_filename (Some local_path)))
                else
                  ret (inl (response_error request_id (-32602)
                              ("Document " ++ filename_base ++ " not found")))
            | _ => raise e
            end)
  else ret (inr (mkResolved arguments None None)).

(** Lines 299-312: the source document name. *)
Definition resolve_source_filename (request_id : json) (r : Resolved)
  : M (json + Resolved) :=
  has <- py.contains "source_filename" (arguments_of r) ;;
  if has then
    source <- py.getitem (arguments_of r) "source_filename" ;;
    source_filename_base <- py.basename source ;;
    try_except
      (source_local_path <- DocumentManager.get_local_path manager
                              source_filename_base false ;;
       arguments <- py.setitem (arguments_of r) "source_filename"
                      (JStr source_local_path) ;;
       ret (inr (mkResolved arguments (original_filename_of r) (local_path_of r))))
      (λ e, match e with
            | FileNotFoundError _ =>
                ret (inl (response_error request_id (-32602)
                            ("Source document " ++ source_filename_base
                             ++ " not found")))
            | _ => raise e
            end)
  else ret (inr r).

(** [local_path and os.path.exists(local_path)] *)
Definition local_path_exists (local_path : option string) : M bool :=
  if truthy local_path then os.path_exists (str_opt local_path) else ret false.

(** The call of [tool_func] with [arguments] as keyword arguments. *)
Definition call_tool (tool_func : ToolFunc) (arguments : json) : M string :=
  match arguments with
  | JDict d => tool_call tool_func d
  | _ => raise (TypeError ("argument after ** must be a mapping, not "
                           ++ py.type_name arguments))
  end.

(** Lines 321-343: the upload after a call that returned. *)
Definition upload_back (r : Resolved) (result : string) : M string :=
  ex <- local_path_exists (local_path_of r) ;;
  if ex then
    filename_base <-
      (if truthy (original_filename_of r)
       then ret (posixpath.basename (str_opt (original_filename_of r)))
       else v <- py.get (arguments_of r) "filename" (JStr "") ;; py.basename v) ;;
    let filename_base :=
      if negb (String.eqb filename_base "")
         && negb (Str.endswith filename_base ".docx")
      then filename_base ++ ".docx" else filename_base in
    if negb (String.eqb filename_base "") then
      doc_url <- DocumentManager.save_document manager
                   (str_opt (local_path_of r)) filename_base ;;
      let encoded_filename := urllib.quote filename_base in
      let download_url :=
        (if negb (String.eqb BASE_URL "") then BASE_URL
         else "https://office-word-mcp.onrender.com")
        ++ "/documents/" ++ encoded_filename in
      ret (result ++ "

Document saved: " ++ filename_base ++ "
Download URL: " ++ download_url)
    else ret result
  else ret result.

(** Lines 346-349: the [finally] clause. *)
Definition cleanup (r : Resolved) : M unit :=
  ex <- local_path_exists (local_path_of r) ;;
  if ex
  then DocumentManager.cleanup_temp manager
         (Some (posixpath.basename (str_opt (local_path_of r))))
  else ret tt.

Definition tools_call (request_id params : json) : M json :=
  tool_name <- py.get params "name" JNull ;;
  arguments <- py.get params "arguments" (JDict []) ;;
  found <- registry_lookup tool_name ;;
  match found with
  | None =>
      ret (response_error request_id (-32601)
             ("Tool not found: " ++ py.str py_repr tool_name))
  | Some (name, tool_func) =>
      r <- resolve_filename request_id name arguments ;;
      match r with
      | inl response => ret response
      | inr r =>
          r <- resolve_source_filename request_id r ;;
          match r with
          | inl response => ret response
          | inr r =>
              enhanced_result <-
                try_finally
                  (result <- call_tool tool_func (arguments_of r) ;;
                   upload_back r result)
                  (cleanup r) ;;
              ret (response_result request_id
                     (JDict [("content",
                              JList [JDict [("type", JStr "text");
                                            ("text", JStr enhanced_result)]])]))
          end
      end
  end.

Definition tool_entry (entry : string * ToolFunc) : json :=
  JDict [("name", JStr entry.1);
         ("description",
          JStr (if truthy (tool_doc entry.2) then str_opt (tool_doc entry.2)
                else "Tool: " ++ entry.1));
         ("inputSchema", tool_schema entry.2)].

Definition dispatch (request_id method params : json) : M json :=
  if py.is_str method "initialize" then
    ret (response_result request_id
           (JDict [("protocolVersion", JStr "2024-11-05");
                   ("capabilities", JDict [("tools", JDict [])]);
                   ("serverInfo",
                    JDict [("name", JStr "office-word-mcp-server");
                           ("version", JStr "1.0.0")])]))
  else if py.is_str method "tools/list" then
    ret (response_result request_id
           (JDict [("tools", JList (map tool_entry TOOL_REGISTRY))]))
  else if py.is_str method "tools/call" then
    tools_call request_id params
  else
    ret (response_error request_id (-32601)
           ("Method not found: " ++ py.str py_repr method)).

(** The handler proper: whatever [dispatch] raises becomes an
    internal-error response. *)
Definition handle_mcp_request (request : list (string * json))
  : World → json * World :=
  let method := default JNull (py.dict_get request "method") in
  let params := default (JDict []) (py.dict_get request "params") in
  let request_id := default JNull (py.dict_get request "id") in
  λ w, match dispatch request_id method params w with
       | (Ok response, w') => (response, w')
       | (Raise e, w') => (response_error request_id (-32603) (str_exn e), w')
       end.

End Handler.

(** *** Document serving *)

(** What the handler writes to the connection: a response with the
    headers it sends through [send_header], in order, and its body; an
    error response of [send_error]; or a response that was sent in full,
    followed by the error response of an [except] clause. *)
Inductive HttpResponse : Type :=
| Response (status : Z) (headers : list (string * string)) (body : list byte)
| SendError (status : Z) (message : string)
| Followed (sent next : HttpResponse).

(** [send_cors_headers] *)
Definition cors_headers : list (string * string) :=
  [("Access-Control-Allow-Origin", "*");
   ("Access-Control-Allow-Methods", "GET, POST, OPTIONS");
   ("Access-Control-Allow-Headers", "Content-Type");
   ("Content-Type", "application/json")].

Section Serve.
Variable manager : DocumentManager.

Definition docx_mime : string :=
  "application/vnd.openxmlformats-officedocument.wordprocessingml.document".

(** The two [except] clauses of [serve_document]. *)
Definition serve_failure (e : exn) : HttpResponse :=
  match e with
  | FileNotFoundError m => SendError 404 ("Document not found: " ++ m)
  | e => SendError 500 ("Error serving document: " ++ str_exn e)
  end.

(** The document is written to the connection before the scratch copy is
    removed: a failing cleanup sends its error response after it. *)
Definition serve_document (filename : string) : World → HttpResponse * World :=
  let filename := urllib.unquote filename in
  let filename := posixpath.basename filename in
  let attempt : M HttpResponse :=
    ex <- StorageAdapter.document_exists (storage manager) filename ;;
    if negb ex
    then ret (SendError 404 ("Document '" ++ filename ++ "' not found"))
    else
      local_path <- DocumentManager.get_local_path manager filename false ;;
      ex <- os.path_exists local_path ;;
      if negb ex
      then ret (SendError 404 ("Document '" ++ filename ++ "' not found on disk"))
      else
        content <- os.read_file local_path ;;
        let sent :=
          Response 200
            ([("Content-Type", docx_mime);
              ("Content-Disposition",
               "attachment; filename=" ++ Str.dquote ++ filename ++ Str.dquote);
              ("Content-Length", pretty (length content))]
             ++ cors_headers)
            content in
        try_except
          (do DocumentManager.cleanup_temp manager (Some filename) ;; ret sent)
          (λ e, ret (Followed sent (serve_failure e))) in
  λ w, match attempt w with
       | (Ok response, w') => (response, w')
       | (Raise e, w') => (serve_failure e, w')
       end.

(** The routing of [do_GET]: the name handed to [serve_document] when
    the path reaches the document branch. *)
Definition documents_route (path : string) : option string :=
  if String.eqb path "/mcp/stream" || String.eqb path "/mcp/tools" then None
  else if Str.startswith path "/documents/"
  then Some (Str.remove_all "/documents/" path)
  else None.

Definition do_GET_documents (path : string) : World → option HttpResponse * World :=
  match documents_route path with
  | Some filename =>
      λ w, let (response, w') := serve_document filename w in (Some response, w')
  | None => λ w, (None, w)
  end.
End Serve.

(** *** The registry *)

Section Registry.
Variable env : gmap string string.
Variable check_file_writeable : string → World → bool * string.
Variable docx_build : list (string * json) → option (list byte) → Res (list byte).
Variable py_repr : json → string.
(** The operations of the tool modules that are left abstract, by
    qualified name. *)
Variable collaborator : string → ToolFunc.

Definition create_document_tool : ToolFunc :=
  mkToolFunc
    (tool_doc (collaborator "document_tools.create_document"))
    (tool_schema (collaborator "document_tools.create_document"))
    (document_tools.create_document env check_file_writeable docx_build py_repr).

Definition tools_map : list (string * ToolFunc) :=
  [
   ("create_document", create_document_tool);
   ("copy_document", collaborator "document_tools.copy_document");
   ("get_document_info", collaborator "document_tools.get_document_info");
   ("get_document_text", collaborator "document_tools.get_document_text");
   ("get_document_outline", collaborator "document_tools.get_document_outline");
   ("list_available_documents", collaborator "document_tools.list_available_documents");
   ("get_document_xml", collaborator "document_tools.get_document_xml_tool");
   ("insert_header_near_text", collaborator "content_tools.insert_header_near_text_tool");
   ("insert_line_or_paragraph_near_text", collaborator "content_tools.insert_line_or_paragraph_near_text_tool");
   ("insert_numbered_list_near_text", collaborator "content_tools.insert_numbered_list_near_text_tool");
   ("add_paragraph", collaborator "content_tools.add_paragraph");
   ("add_heading", collaborator "content_tools.add_heading");
   ("add_picture", collaborator "content_tools.add_picture");
   ("add_table", collaborator "content_tools.add_table");
   ("add_page_break", collaborator "content_tools.add_page_break");
   ("delete_paragraph", collaborator "content_tools.delete_paragraph");
   ("search_and_replace", collaborator "content_tools.search_and_replace");
   ("create_custom_style", collaborator "format_tools.create_custom_style");
   ("format_text", collaborator "format_tools.format_text");
   ("format_table", collaborator "format_tools.format_table");
   ("set_table_cell_shading", collaborator "format_tools.set_table_cell_shading");
   ("apply_table_alternating_rows", collaborator "format_tools.apply_table_alternating_rows");
   ("highlight_table_header", collaborator "format_tools.highlight_table_header");
   ("merge_table_cells", collaborator "format_tools.merge_table_cells");
   ("merge_table_cells_horizontal", collaborator "format_tools.merge_table_cells_horizontal");
   ("merge_table_cells_vertical", collaborator "format_tools.merge_table_cells_vertical");
   ("set_table_cell_alignment", collaborator "format_tools.set_table_cell_alignment");
   ("set_table_alignment_all", collaborator "format_tools.set_table_alignment_all");
   ("protect_document", collaborator "protection_tools.protect_document");
   ("unprotect_document", collaborator "protection_tools.unprotect_document");
   ("add_footnote_to_document", collaborator "footnote_tools.add_footnote_to_document");
   ("add_footnote_after_text", collaborator "footnote_tools.add_footnote_after_text");
   ("add_footnote_before_text", collaborator "footnote_tools.add_footnote_before_text");
   ("add_footnote_enhanced", collaborator "footnote_tools.add_footnote_enhanced");
   ("add_endnote_to_document", collaborator "footnote_tools.add_endnote_to_document");
   ("customize_footnote_style", collaborator "footnote_tools.customize_footnote_style");
   ("delete_footnote_from_document", collaborator "footnote_tools.delete_footnote_from_document");
   ("add_footnote_robust", collaborator "footnote_tools.add_footnote_robust_tool");
   ("validate_document_footnotes", collaborator "footnote_tools.validate_footnotes_tool");
   ("delete_footnote_robust", collaborator "footnote_tools.delete_footnote_robust_tool");
   ("get_paragraph_text_from_document", collaborator "extended_document_tools.get_paragraph_text_from_document");
   ("find_text_in_document", collaborator "extended_document_tools.find_text_in_document");
   ("convert_to_pdf", collaborator "extended_document_tools.convert_to_pdf");
   ("get_all_comments", collaborator "comment_tools.get_all_comments");
   ("get_comments_by_author", collaborator "comment_tools.get_comments_by_author");
   ("get_comments_for_paragraph", collaborator "comment_tools.get_comments_for_paragraph");
   ("set_table_column_width", collaborator "format_tools.set_table_column_width");
   ("set_table_column_widths", collaborator "format_tools.set_table_column_widths");
   ("set_table_width", collaborator "format_tools.set_table_width");
   ("auto_fit_table_columns", collaborator "format_tools.auto_fit_table_columns");
   ("format_table_cell_text", collaborator "format_tools.format_table_cell_text");
   ("set_table_cell_padding", collaborator "format_tools.set_table_cell_padding");
   ("replace_paragraph_block_below_header", collaborator "content_tools.replace_paragraph_block_below_header_tool");
   ("replace_block_between_manual_anchors", collaborator "content_tools.replace_block_between_manual_anchors_tool");
   ("set_template_from_file", collaborator "template_tools.set_template_from_file");
   ("get_template_info", collaborator "template_tools.get_template_info");
   ("clear_template", collaborator "template_tools.clear_template");
   ("set_default_font", collaborator "document_formatting_tools.set_default_font");
   ("update_header_title_subtitle", collaborator "document_formatting_tools.update_header_title_subtitle");
   ("get_header_info", collaborator "document_formatting_tools.get_header_info")
  ].
End Registry.

(** *** The input schema of an operation *)

(** The annotation of a parameter, as far as [_get_tool_schema] looks at
    it: one of the classes it compares with, [inspect.Parameter.empty],
    a [typing.Union] with its arguments, or anything else; the last two
    carry their [str()]. *)
#[local] Unset Elimination Schemes.
Inductive annotation : Type :=
| A_str
| A_int
| A_float
| A_bool
| A_list
| A_dict
| A_empty
| A_NoneType
| A_Union (args : list annotation) (repr : string)
| A_other (repr : string).
#[local] Set Elimination Schemes.

(** A parameter of [inspect.signature(tool_func)]. *)
Record parameter : Type := mkParameter {
  param_name : string;
  param_annotation : annotation;
  param_has_default : bool
}.

Definition is_NoneType (a : annotation) : bool :=
  match a with
  | A_NoneType => true
  | _ => false
  end.

(** [str(param_type)] *)
Definition str_annotation (a : annotation) : string :=
  match a with
  | A_str => "<class 'str'>"
  | A_int => "<class 'int'>"
  | A_float => "<class 'float'>"
  | A_bool => "<class 'bool'>"
  | A_list => "<class 'list'>"
  | A_dict => "<class 'dict'>"
  | A_empty => "<class 'inspect._empty'>"
  | A_NoneType => "<class 'NoneType'>"
  | A_Union _ repr => repr
  | A_other repr => repr
  end.

(** Lines 405-410: an optional type stands for its first argument that
    is not [NoneType]. *)
Definition unwrap_optional (a : annotation) : annotation :=
  match a with
  | A_Union args _ =>
      if existsb is_NoneType args
      then match List.filter (λ arg, negb (is_NoneType arg)) args with
           | arg :: _ => arg
           | [] => A_str
           end
      else a
  | _ => a
  end.

(** Lines 413-429: the entries that describe the type. *)
Definition type_entries (a : annotation) : list (string * json) :=
  match a with
  | A_str | A_empty | A_NoneType => [("type", JStr "string")]
  | A_int => [("type", JStr "integer")]
  | A_float => [("type", JStr "number")]
  | A_bool => [("type", JStr "boolean")]
  | _ =>
      if (match a with A_list => true | _ => false end)
         || Str.contains "list" (str_annotation a)
      then [("type", JStr "array"); ("items", JDict [("type", JStr "string")])]
      else match a with
           | A_dict => [("type", JStr "object")]
           | _ => [("type", JStr "string")]
           end
  end.

Section Schema.
(** The first match of the pattern [{param_name}:\s*([^\n]+)] in the doc
    string, stripped: [describe param_name docstring]. *)
Variable describe : string → string → option string.

(** Lines 431-450: enumerations and descriptions. *)
Definition description_entries (name : string) (docstring : string)
  : list (string * json) :=
  if String.eqb name "position" then
    [("enum", JList [JStr "before"; JStr "after"]);
     ("description", JStr "Position relative to target: 'before' or 'after'")]
  else if String.eqb name "bullet_type" then
    [("enum", JList [JStr "bullet"; JStr "number"]);
     ("description",
      JStr "List type: 'bullet' for bullets (â€¢) or 'number' for numbered (1,2,3)")]
  else if String.eqb name "list_items" then
    [("description", JStr "Array of strings, each as a list item")]
  else
    [("description",
      JStr (if negb (String.eqb docstring "")
            then default ("Parameter: " ++ name) (describe name docstring)
            else "Parameter: " ++ name))].

Definition prop_schema (p : parameter) (docstring : string) : json :=
  JDict (type_entries (unwrap_optional (param_annotation p))
         ++ description_entries (param_name p) docstring)%list.

(** The loop of lines 397-456, on the parameters that are left. *)
Fixpoint schema_loop (parameters : list parameter) (docstring : string)
  (properties : list (string * json)) (required : list json)
  : list (string * json) * list json :=
  match parameters with
  | [] => (properties, required)
  | p :: rest =>
      if String.eqb (param_name p) "self"
      then schema_loop rest docstring properties required
      else
        schema_loop rest docstring
          (py.dict_set properties (param_name p) (prop_schema p docstring))
          (if param_has_default p then required
           else (required ++ [JStr (param_name p)])%list)
  end.

Definition _get_tool_schema (parameters : list parameter) (doc : option string)
  : json :=
  let docstring := if truthy doc then str_opt doc else "" in
  let (properties, required) := schema_loop parameters docstring [] [] in
  JDict ([("type", JStr "object"); ("properties", JDict properties)]
         ++ match required with
            | [] => []
            | _ => [("required", JList required)]
            end)%list.
End Schema.

End http_server.

(** * The vocabulary of the properties *)

(** ** Responses and requests *)

(** A JSON-RPC response: version, the request's id, and exactly one of
    a result and an error. *)
Definition is_response (request_id response : json) : Prop :=
  ∃ k v,
    response = JDict [("jsonrpc", JStr "2.0"); ("id", request_id); (k, v)]
    ∧ (k = "result" ∨ k = "error").

(** A [tools/call] request with the given [params] object. *)
Definition is_tools_call (request params : list (string * json)) : Prop :=
  py.dict_get request "method" = Some (JStr "tools/call")
  ∧ py.dict_get request "params" = Some (JDict params).

(** ** The scratch directory *)

(** What a call of [cleanup_temp] is aimed at: one scratch file, or the
    scratch directory itself. *)
Definition cleanup_target (self : DocumentManager) (filename : option string)
  : string :=
  if truthy filename
  then posixpath.join (temp_dir self) (str_opt filename)
  else temp_dir self.

(** [w'] is in the same working directory as [w] and has no directory
    that [w] does not have. *)
Definition no_new_dirs (w w' : World) : Prop :=
  cwd w' = cwd w ∧ ∀ k, lookup_node w' k = Some Dir → lookup_node w k = Some Dir.

Definition preserves {A} (R : World → World → Prop) (m : M A) : Prop :=
  ∀ w, R w (m w).2.

(** The call proper: the operation, the upload, and the cleanup that
    follows in every case. *)
Definition invoke (BASE_URL : string) (manager : DocumentManager)
  (tool_func : ToolFunc) (r : http_server.Resolved) : M string :=
  try_finally
    (result <- http_server.call_tool tool_func (http_server.arguments_of r) ;;
     http_server.upload_back BASE_URL manager r result)
    (http_server.cleanup manager r).

(** ** Put and fetch *)

(** [p] can be written: it is a file, or it is absent and its directory
    exists and accepts new entries. *)
Definition writable (w : World) (p : string) : bool :=
  match lookup_node w (key w p) with
  | Some (File _) => true
  | Some Dir => false
  | None =>
      match lookup_node w (removelast (key w p)) with
      | Some Dir => negb (bool_decide (removelast (key w p) ∈ denied w))
      | _ => false
      end
  end.

(** Where a document is kept on the file system; [None] for the object
    store. *)
Definition stored_path (self : StorageAdapter) (name : string) : option string :=
  if String.eqb (storage_type self) "s3" then None
  else if String.eqb (storage_type self) "disk"
  then Some (posixpath.join (disk_path self) name)
  else Some (posixpath.join (local_path self) name).

(** The path that a fetch returns: the destination, except on the
    local file system, where it is the stored file. *)
Definition fetched_path (self : StorageAdapter) (name dest : string) : string :=
  if String.eqb (storage_type self) "s3" then dest
  else if String.eqb (storage_type self) "disk" then dest
  else posixpath.join (local_path self) name.

(** The backend can take the document: the object store answers; or the
    stored path can be written and is not the source file itself. *)
Definition backend_ready (self : StorageAdapter) (w : World) (src name : string)
  : Prop :=
  match stored_path self name with
  | None => s3_fault w = None
  | Some p => writable w p = true ∧ key w src ≠ key w p
  end.

(** The destination of a fetch can be written and is not the stored
    file itself; the local-filesystem backend does not use it. *)
Definition dest_ready (self : StorageAdapter) (w : World) (name dest : string)
  : Prop :=
  if String.eqb (storage_type self) "s3" then writable w dest = true
  else if String.eqb (storage_type self) "disk"
  then writable w dest = true
       ∧ key w dest ≠ key w (posixpath.join (disk_path self) name)
  else True.

(** ** Backend selection *)

Section SelectionVocabulary.
Variable env : gmap string string.

(** The backend asked for by the configuration. *)
Definition preferred : string := Str.lower (getenv env "STORAGE_TYPE" "disk").

Definition s3_configured : bool :=
  truthy (env !! "S3_BUCKET_NAME") && truthy (env !! "AWS_ACCESS_KEY_ID")
  && truthy (env !! "AWS_SECRET_ACCESS_KEY").

Definition mount_dir : string := getenv env "DISK_PATH" "/mnt/disk/documents".
Definition documents_dir : string := getenv env "DOCUMENTS_DIR" "./documents".

(** The initialization of the preferred backend fails, leaving the
    world as given second. *)
Inductive preferred_fails (w : World) : World → Prop :=
| object_store_unconfigured :
    preferred = "s3" → s3_configured = false → preferred_fails w w
| object_store_unreachable code :
    preferred = "s3" → s3_fault w = Some code → preferred_fails w w
| volume_not_attached message w1 :
    preferred = "disk" →
    os.makedirs mount_dir w = (Raise (PermissionError message), w1) →
    preferred_fails w w1.

(** The chain in the words of the specification: object store, then
    mounted volume, then local file system. *)
Definition fallback_chain : list string := ["s3"; "disk"; "local"].

Fixpoint next_in (chain : list string) (t : string) : option string :=
  match chain with
  | a :: (b :: _) as rest => if String.eqb a t then Some b else next_in rest t
  | _ => None
  end.

(** The claim as stated: a failing preferred backend is replaced by the
    next one of the chain. *)
Definition selects_next_in_chain (w : World) : Prop :=
  ∀ w1, preferred_fails w w1 →
    ∃ a w2,
      StorageAdapter.__init__ env w = (Ok a, w2)
      ∧ Some (storage_type a) = next_in fallback_chain preferred.
End SelectionVocabulary.

(** ** Sample configurations *)

Module Sample.

Definition pk : list byte := String.list_byte_of_string "PK-docx".

Definition scratch : string := "/tmp/doc_edit_k3x9".

Definition disk_adapter : StorageAdapter :=
  mkStorageAdapter "disk" "" None "" None None "/mnt/disk/documents" "".

Definition local_adapter : StorageAdapter :=
  mkStorageAdapter "local" "" None "" None None "" "./documents".

Definition s3_adapter : StorageAdapter :=
  mkStorageAdapter "s3" "" (Some "docs") "us-east-1" (Some "AKIA") (Some "secret") "" "".

Definition dirs : list (list string * node) :=
  [ (["mnt"], Dir); (["mnt"; "disk"], Dir); (["mnt"; "disk"; "documents"], Dir);
    (["srv"], Dir); (["srv"; "documents"], Dir);
    (["tmp"], Dir); (["tmp"; "doc_edit_k3x9"], Dir) ].

(** Empty backends, empty scratch directory; the process runs in
    [/srv]. *)
Definition empty_world : World :=
  mkWorld (list_to_map dirs) ∅ ["srv"] ∅ None.

(** One document in each backend. *)
Definition stocked_world : World :=
  mkWorld
    (list_to_map
       (dirs ++ [ (["mnt"; "disk"; "documents"; "existing.docx"], File pk);
                  (["srv"; "documents"; "existing.docx"], File pk) ]))
    ∅ ["srv"] {[ "existing.docx" := pk ]} None.

End Sample.

Definition scratch_world : World :=
  set_fs (<[ ["tmp"; "doc_edit_k3x9"; "a.docx"] := File Sample.pk ]>) Sample.empty_world.


(** ** A sample server *)

Module Server.

Definition env : gmap string string := ∅.

Definition check_file_writeable (filename : string) (w : World) : bool * string :=
  (true, "").

Definition docx_build (kwargs : list (string * json)) (template : option (list byte))
  : Res (list byte) :=
  Ok Sample.pk.

Definition py_repr (v : json) : string := "".

(** The operations outside the sources, all alike here: they open the
    document they are given and report on it. *)
Definition collaborator (name : string) : ToolFunc :=
  mkToolFunc None JNull
    (λ kwargs,
       match py.dict_get kwargs "filename" with
       | Some (JStr f) => do os.read_file f ;; ret "ok"
       | _ => ret "ok"
       end).

Definition TOOL_REGISTRY : list (string * ToolFunc) :=
  http_server.tools_map env check_file_writeable docx_build py_repr collaborator.

Definition disk_manager : DocumentManager :=
  mkDocumentManager Sample.disk_adapter Sample.scratch.

Definition local_manager : DocumentManager :=
  mkDocumentManager Sample.local_adapter Sample.scratch.

Definition handle (manager : DocumentManager) :=
  http_server.handle_mcp_request TOOL_REGISTRY "" manager py_repr.

Definition tools_call (id : Z) (name : string) (arguments : list (string * json))
  : list (string * json) :=
  [("jsonrpc", JStr "2.0"); ("id", JInt id); ("method", JStr "tools/call");
   ("params", JDict [("name", JStr name); ("arguments", JDict arguments)])].

End Server.

(** ** Sample requests *)

Definition unresolved : http_server.Resolved := http_server.mkResolved JNull None None.

(** The outcome of a resolution step that went through. *)
Definition resolved_of (res : Res (json + http_server.Resolved) * World)
  : http_server.Resolved :=
  match res.1 with
  | Ok (inr r) => r
  | _ => unresolved
  end.

Definition read_existing : list (string * json) :=
  Server.tools_call 1 "get_document_text" [("filename", JStr "existing.docx")].

Definition read_existing_step1 : Res (json + http_server.Resolved) * World :=
  http_server.resolve_filename Server.disk_manager (JInt 1) "get_document_text"
    (JDict [("filename", JStr "existing.docx")]) Sample.stocked_world.

Definition read_existing_step2 : Res (json + http_server.Resolved) * World :=
  http_server.resolve_source_filename Server.disk_manager (JInt 1)
    (resolved_of read_existing_step1) read_existing_step1.2.

Definition call_unknown : list (string * json) :=
  Server.tools_call 7 "does_not_exist" [].

Definition read_missing : list (string * json) :=
  Server.tools_call 8 "get_document_text" [("filename", JStr "missing.docx")].

Definition create_report : list (string * json) :=
  Server.tools_call 1 "create_document" [("filename", JStr "report")].

Definition create_dot_dot : list (string * json) :=
  Server.tools_call 1 "create_document" [("filename", JStr "..")].

Definition create_report_docx : list (string * json) :=
  Server.tools_call 1 "create_document" [("filename", JStr "report.docx")].

(** A call that names an existing primary document and a source document
    that does not exist. *)
Definition copy_from_missing : list (string * json) :=
  Server.tools_call 1 "copy_document"
    [("filename", JStr "existing.docx"); ("source_filename", JStr "missing.docx")].

Definition round_trip_on (self : StorageAdapter) : Prop :=
  ∃ locator w1 p w2,
    StorageAdapter.upload_document self "/tmp/doc_edit_k3x9/a.docx" "a.docx" scratch_world
    = (Ok locator, w1)
    ∧ StorageAdapter.download_document self "a.docx"
        (Some "/tmp/doc_edit_k3x9/b.docx") w1 = (Ok p, w2)
    ∧ p = fetched_path self "a.docx" "/tmp/doc_edit_k3x9/b.docx"
    ∧ os.read_file p w2 = (Ok Sample.pk, w2).

(** An object store asked for without credentials, on a machine whose
    volume is attached. *)
Definition s3_without_credentials : gmap string string := {[ "STORAGE_TYPE" := "S3" ]}.

(** A volume that is not attached: nothing may be created under
    [/mnt]. *)
Definition volume_not_attached_world : World :=
  mkWorld (list_to_map [ (["mnt"], Dir); (["srv"], Dir); (["srv"; "documents"], Dir) ])
    {[ ["mnt"] ]} ["srv"] ∅ None.

Definition default_env : gmap string string := ∅.

(** ** What a backend holds *)

(** The bytes that the backend holds under a name and can hand out. *)
Definition held (self : StorageAdapter) (w : World) (name : string)
  : option (list byte) :=
  match stored_path self name with
  | None =>
      match s3_fault w with
      | Some _ => None
      | None => s3_objects w !! name
      end
  | Some p =>
      match lookup_node w (key w p) with
      | Some (File d) => Some d
      | _ => None
      end
  end.

(** The backends that copy a fetched document into the scratch
    directory: the object store and the mounted volume. *)
Definition copying (self : StorageAdapter) : bool :=
  String.eqb (storage_type self) "s3" || String.eqb (storage_type self) "disk".

(** The name under which the dispatcher stores a document. *)
Definition saved_as (name : string) : string :=
  if negb (String.eqb name "") && negb (Str.endswith name ".docx")
  then name ++ ".docx" else name.

(** The world after a put of the bytes [d] under [name]. *)
Definition put (self : StorageAdapter) (name : string) (d : list byte) (w : World)
  : World :=
  match stored_path self name with
  | None => set_s3 (<[name := d]>) w
  | Some p => set_fs (<[key w p := File d]>) w
  end.

(** ** Keyword arguments of [create_document] *)

(** Only declared parameters are passed. *)
Definition accepted (kwargs : list (string * json)) : bool :=
  forallb (λ kv, bool_decide (kv.1 ∈ document_tools.parameters)) kwargs.

(** ** Percent-encoding *)

(** What [quote] does to one character can be undone by [unquote], and
    adds no slash. *)
Definition quote_char_ok (c : ascii) : bool :=
  let n := nat_of_ascii c in
  if urllib.always_safe c || Ascii.eqb c "/"
  then negb (Ascii.eqb c "%")
  else
    match urllib.hex_value (urllib.hex_digit (n / 16)),
          urllib.hex_value (urllib.hex_digit (n mod 16)) with
    | Some x, Some y =>
        Ascii.eqb (ascii_of_nat (16 * x + y)) c
        && negb (Str.is_slash (urllib.hex_digit (n / 16)))
        && negb (Str.is_slash (urllib.hex_digit (n mod 16)))
        && negb (Str.is_slash c)
    | _, _ => false
    end.

(** ** Resolutions *)

(** The same resolution, under another original name. *)
Definition renamed (o : option string) (res : Res (json + http_server.Resolved) * World)
  : Res (json + http_server.Resolved) * World :=
  match res with
  | (Ok (inr r), w) =>
      (Ok (inr (http_server.mkResolved (http_server.arguments_of r) o
                  (http_server.local_path_of r))), w)
  | other => other
  end.


(** The parameters that the schema describes: all but [self]. *)
Definition described (parameters : list http_server.parameter)
  : list http_server.parameter :=
  List.filter (λ p, negb (String.eqb (http_server.param_name p) "self")) parameters.

Definition json_types : list string :=
  ["string"; "integer"; "number"; "boolean"; "array"; "object"].


(** ** More sample configurations *)

(** The sample machine after the whole scratch directory was removed. *)
Definition wiped_world : World :=
  (DocumentManager.cleanup_temp Server.disk_manager None Sample.stocked_world).2.

(** The sample machine with a template in place. *)
Definition template_world : World :=
  set_fs (<[ ["mnt"; "disk"; "documents"; ".template.docx"] := File Sample.pk ]>)
    Sample.empty_world.

(** A configuration whose volume directory is taken by a file. *)
Definition volume_is_a_file : gmap string string :=
  {[ "DISK_PATH" := "/srv/documents/existing.docx" ]}.

Definition never_signs (bucket : option string) (key : string) : Res string :=
  Raise (Exception "no credentials").

Definition ping : list (string * json) :=
  [("jsonrpc", JStr "2.0"); ("id", JInt 3); ("method", JStr "ping")].

Definition list_documents : list (string * json) :=
  Server.tools_call 4 "list_available_documents" [("directory", JStr ".")].

(** The signature of [create_document]. *)
Definition create_document_signature : list http_server.parameter :=
  [ http_server.mkParameter "filename" http_server.A_str false;
    http_server.mkParameter "title"
      (http_server.A_Union [http_server.A_str; http_server.A_NoneType]
         "typing.Optional[str]") true;
    http_server.mkParameter "author"
      (http_server.A_Union [http_server.A_str; http_server.A_NoneType]
         "typing.Optional[str]") true;
    http_server.mkParameter "use_template" http_server.A_bool true;
    http_server.mkParameter "document_title"
      (http_server.A_Union [http_server.A_str; http_server.A_NoneType]
         "typing.Optional[str]") true;
    http_server.mkParameter "document_subtitle"
      (http_server.A_Union [http_server.A_str; http_server.A_NoneType]
         "typing.Optional[str]") true ].

Definition no_description (name docstring : string) : option string := None.

(** ** Further sample requests *)

(** Two operations on table cells, asked for a document that no backend
    has. *)
Definition pad_missing : list (string * json) :=
  Server.tools_call 9 "set_table_cell_padding" [("filename", JStr "missing.docx")].

Definition shade_missing : list (string * json) :=
  Server.tools_call 9 "set_table_cell_shading" [("filename", JStr "missing.docx")].

(** A put of the sample scratch file under [a.docx], and the fetch to
    [b.docx] that follows it. *)
Definition sample_put (self : StorageAdapter) : Res string * World :=
  StorageAdapter.upload_document self "/tmp/doc_edit_k3x9/a.docx" "a.docx" scratch_world.

Definition sample_fetch (self : StorageAdapter) : Res string * World :=
  StorageAdapter.download_document self "a.docx" (Some "/tmp/doc_edit_k3x9/b.docx")
    (sample_put self).2.

(** * Properties *)

(** ** Paths *)

#[local] Arguments String.append : simpl nomatch.

Section PathFacts.

Lemma append_nil_r (s : string) : s ++ "" = s.
Proof. induction s; simpl; congruence. Qed.

Lemma append_assoc (a b c : string) : (a ++ b) ++ c = a ++ (b ++ c).
Proof. induction a; simpl; congruence. Qed.

Lemma startswith_slash (c : ascii) (r : string) :
  Str.startswith (String c r) "/" = Str.is_slash c.
Proof.
  unfold Str.is_slash. simpl. apply andb_true_r.
Qed.

Lemma startswith_no_slash (n : string) :
  Str.has_slash n = false → Str.startswith n "/" = false.
Proof.
  destruct n as [| c r]; [done |]. rewrite startswith_slash. simpl.
  by intros [? ?]%orb_false_elim.
Qed.

Lemma basename_no_slash (p : string) :
  Str.has_slash (posixpath.basename p) = false.
Proof.
  induction p as [| c r IH]; [done |]. simpl.
  destruct (Str.has_slash r) eqn:Hr; [done |].
  destruct (Str.is_slash c) eqn:Hc; [done |].
  simpl. by rewrite Hc, Hr.
Qed.

Lemma basename_id (n : string) :
  Str.has_slash n = false → posixpath.basename n = n.
Proof.
  destruct n as [| c r]; [done |]. simpl.
  intros [Hc Hr]%orb_false_elim. by rewrite Hr, Hc.
Qed.

Lemma has_slash_app (a b : string) :
  Str.has_slash (a ++ b) = Str.has_slash a || Str.has_slash b.
Proof. induction a as [| c r IH]; [done |]. simpl. by rewrite IH, orb_assoc. Qed.

Lemma basename_app_slash (x n : string) :
  Str.has_slash n = false → posixpath.basename (x ++ "/" ++ n) = n.
Proof.
  intros Hn. induction x as [| c r IH]; simpl.
  - by rewrite Hn.
  - rewrite has_slash_app. simpl. by rewrite orb_true_r.
Qed.

Lemma endswith_slash_inv (d : string) :
  Str.endswith d "/" = true → ∃ x, d = x ++ "/".
Proof.
  induction d as [| c r IH]; [done |].
  change (Str.endswith (String c r) "/")
    with (String.eqb (String c r) "/" || Str.endswith r "/").
  intros [Heq | Hr]%orb_true_elim.
  - exists "". simpl. by apply String.eqb_eq in Heq.
  - destruct (IH Hr) as [x ->]. by exists (String c x).
Qed.

Lemma join_cases (d n : string) :
  Str.has_slash n = false →
  posixpath.join d n = n ∧ d = ""
  ∨ (∃ x, d = x ++ "/" ∧ posixpath.join d n = x ++ "/" ++ n)
  ∨ (d ≠ "" ∧ Str.endswith d "/" = false ∧ posixpath.join d n = d ++ "/" ++ n).
Proof.
  intros Hn. unfold posixpath.join. rewrite (startswith_no_slash _ Hn).
  destruct (String.eqb d "") eqn:Hd.
  - apply String.eqb_eq in Hd as ->. by left.
  - apply String.eqb_neq in Hd. simpl.
    destruct (Str.endswith d "/") eqn:He.
    + right; left. destruct (endswith_slash_inv _ He) as [x ->].
      exists x. by rewrite append_assoc.
    + right; right. done.
Qed.

Lemma basename_join (d n : string) :
  Str.has_slash n = false → posixpath.basename (posixpath.join d n) = n.
Proof.
  intros Hn.
  destruct (join_cases d n Hn) as [[Hj _] | [(x & _ & Hj) | (_ & _ & Hj)]];
    rewrite Hj.
  - by apply basename_id.
  - by apply basename_app_slash.
  - by apply basename_app_slash.
Qed.

Lemma walk_app (a b cur : string) (st : list string) :
  posixpath.walk (a ++ b) cur st
  = posixpath.walk b (posixpath.walk a cur st).1 (posixpath.walk a cur st).2.
Proof.
  revert cur st. induction a as [| c r IH]; intros cur st; [done |].
  simpl. destruct (Str.is_slash c); apply IH.
Qed.

Lemma walk_no_slash (n cur : string) (st : list string) :
  Str.has_slash n = false → posixpath.walk n cur st = (cur ++ n, st).
Proof.
  revert cur. induction n as [| c r IH]; intros cur; simpl.
  - by rewrite append_nil_r.
  - intros [Hc Hr]%orb_false_elim. rewrite Hc, (IH _ Hr).
    by rewrite append_assoc.
Qed.

Lemma push_plain (n : string) (st : list string) :
  posixpath.plain n = true → posixpath.push n st = n :: st.
Proof.
  unfold posixpath.plain, posixpath.push.
  intros [[[_ H1]%andb_true_iff H2]%andb_true_iff H3]%andb_true_iff.
  apply negb_true_iff in H1, H2, H3. by rewrite H1, H2, H3.
Qed.

Lemma plain_no_slash (n : string) :
  posixpath.plain n = true → Str.has_slash n = false.
Proof.
  unfold posixpath.plain.
  intros [[[H _]%andb_true_iff _]%andb_true_iff _]%andb_true_iff.
  by apply negb_true_iff in H.
Qed.

Lemma plain_nonempty (n : string) : posixpath.plain n = true → n ≠ "".
Proof.
  unfold posixpath.plain.
  intros [[[_ H]%andb_true_iff _]%andb_true_iff _]%andb_true_iff.
  apply negb_true_iff in H. by apply String.eqb_neq.
Qed.

(** Walking a plain name after a directory, whatever its spelling, adds
    one entry. *)
Lemma finish_walk_slash_plain (x n cur : string) (st : list string) :
  posixpath.plain n = true →
  posixpath.finish (posixpath.walk (x ++ "/" ++ n) cur st)
  = n :: posixpath.finish (posixpath.walk x cur st).
Proof.
  intros Hn. rewrite walk_app. simpl.
  rewrite (walk_no_slash n "" _ (plain_no_slash _ Hn)). simpl.
  unfold posixpath.finish at 1. simpl. by rewrite push_plain.
Qed.

Lemma finish_walk_dir_slash (x cur : string) (st : list string) :
  posixpath.finish (posixpath.walk (x ++ "/") cur st)
  = posixpath.finish (posixpath.walk x cur st).
Proof. rewrite walk_app. done. Qed.

Lemma startswith_app (d x : string) :
  d ≠ "" → Str.startswith (d ++ x) "/" = Str.startswith d "/".
Proof.
  destruct d as [| c r]; [done |]. intros _.
  change (String c r ++ x) with (String c (r ++ x)).
  by rewrite !startswith_slash.
Qed.

Lemma resolve_join (cwd : list string) (d n : string) :
  posixpath.plain n = true →
  posixpath.resolve cwd (posixpath.join d n)
  = (posixpath.resolve cwd d ++ [n])%list.
Proof.
  intros Hn. pose proof (plain_no_slash _ Hn) as Hs.
  unfold posixpath.resolve.
  destruct (join_cases d n Hs) as [[Hj ->] | [(x & -> & Hj) | (Hd & _ & Hj)]];
    rewrite Hj.
  - rewrite (startswith_no_slash _ Hs). simpl.
    rewrite (walk_no_slash n "" _ Hs). unfold posixpath.finish. simpl.
    by rewrite push_plain.
  - assert (Str.startswith (x ++ "/" ++ n) "/" = Str.startswith (x ++ "/") "/") as ->.
    { destruct x as [| a x]; [reflexivity |].
      change (String a x ++ "/" ++ n) with (String a (x ++ "/" ++ n)).
      change (String a x ++ "/") with (String a (x ++ "/")).
      by rewrite !startswith_slash. }
    by rewrite finish_walk_slash_plain, finish_walk_dir_slash.
  - rewrite (startswith_app d _ Hd).
    by rewrite finish_walk_slash_plain.
Qed.

Lemma join_nonempty (d n : string) :
  posixpath.plain n = true → posixpath.join d n ≠ "".
Proof.
  intros Hn. pose proof (plain_nonempty _ Hn) as Hne.
  destruct (join_cases d n (plain_no_slash _ Hn))
    as [[Hj _] | [(x & _ & Hj) | (_ & _ & Hj)]]; rewrite Hj; [done | |].
  - destruct x; simpl; discriminate.
  - destruct d; simpl; discriminate.
Qed.

(** A name without slashes is a plain name or one of three special
    names. *)
Lemma no_slash_cases (b : string) :
  Str.has_slash b = false →
  posixpath.plain b = true ∨ b = "" ∨ b = "." ∨ b = "..".
Proof.
  intros Hb. unfold posixpath.plain. rewrite Hb. simpl.
  destruct (String.eqb b "") eqn:H0; [apply String.eqb_eq in H0; auto |].
  destruct (String.eqb b ".") eqn:H1; [apply String.eqb_eq in H1; auto |].
  destruct (String.eqb b "..") eqn:H2; [apply String.eqb_eq in H2; auto |].
  by left.
Qed.

Lemma resolve_join_empty (cwd : list string) (d : string) :
  posixpath.resolve cwd (posixpath.join d "") = posixpath.resolve cwd d.
Proof.
  unfold posixpath.join. simpl.
  destruct (String.eqb d "" || Str.endswith d "/") eqn:Hd.
  - by rewrite append_nil_r.
  - apply orb_false_elim in Hd as [Hd _]. apply String.eqb_neq in Hd.
    unfold posixpath.resolve. rewrite (startswith_app d _ Hd).
    by rewrite finish_walk_dir_slash.
Qed.

Lemma resolve_join_dot (cwd : list string) (d : string) :
  posixpath.resolve cwd (posixpath.join d ".") = posixpath.resolve cwd d.
Proof.
  unfold posixpath.join. simpl.
  destruct (String.eqb d "") eqn:Hd; simpl.
  - apply String.eqb_eq in Hd as ->. reflexivity.
  - apply String.eqb_neq in Hd. unfold posixpath.resolve.
    destruct (Str.endswith d "/") eqn:He.
    + rewrite (startswith_app d _ Hd), walk_app. simpl.
      destruct (endswith_slash_inv _ He) as [x ->].
      rewrite walk_app. simpl. unfold posixpath.finish. simpl.
      destruct (posixpath.walk x _ _) as [cur st]. simpl.
      unfold posixpath.push at 1. simpl.
      unfold posixpath.push at 2. simpl. reflexivity.
    + rewrite (startswith_app d _ Hd), walk_app. simpl.
      unfold posixpath.finish. simpl. unfold posixpath.push at 1. simpl.
      reflexivity.
Qed.

(** The base name of any input, joined to a directory, names an entry of
    that directory or the directory itself, unless it is [..]. *)
Lemma basename_stays_inside (cwd : list string) (d x : string) :
  posixpath.basename x ≠ ".." →
  posixpath.resolve cwd d
    `prefix_of` posixpath.resolve cwd (posixpath.join d (posixpath.basename x)).
Proof.
  intros Hdd.
  destruct (no_slash_cases _ (basename_no_slash x)) as [Hp | [H | [H | H]]].
  - rewrite (resolve_join _ _ _ Hp). by apply prefix_app_r.
  - by rewrite H, resolve_join_empty.
  - by rewrite H, resolve_join_dot.
  - done.
Qed.

End PathFacts.

(** ** Running monadic code *)

Lemma set_fs_id (w : World) : set_fs (λ m, m) w = w.
Proof. by destruct w. Qed.

Lemma key_set_fs f (w : World) (p : string) : key (set_fs f w) p = key w p.
Proof. done. Qed.

Lemma join_truthy_nonempty (d n : string) : n ≠ "" → posixpath.join d n ≠ "".
Proof.
  intros Hn. unfold posixpath.join.
  destruct (Str.startswith n "/"); [done |].
  destruct (String.eqb d "" || Str.endswith d "/").
  - destruct d; simpl; [done | discriminate].
  - destruct d; simpl; discriminate.
Qed.

Lemma eqb_false_of_ne (a b : string) : a ≠ b → String.eqb a b = false.
Proof. by intros ?%String.eqb_neq. Qed.

Lemma path_exists_run (p : string) (w : World) :
  os.path_exists p w
  = (Ok (negb (String.eqb p "") && bool_decide (is_Some (lookup_node w (key w p)))), w).
Proof. done. Qed.

(** ** The scratch directory *)

Section Cleanup.
Variable self : DocumentManager.




Lemma cleanup_target_nonempty filename :
  temp_dir self ≠ "" → cleanup_target self filename ≠ "".
Proof.
  intros Hd. unfold cleanup_target.
  destruct filename as [n |]; simpl; [| done].
  destruct (String.eqb n "") eqn:Hn; simpl; [done |].
  apply join_truthy_nonempty. by apply String.eqb_neq.
Qed.

Lemma cleanup_temp_run (filename : option string) (w : World) :
  cleanup_target self filename ≠ "" →
  DocumentManager.cleanup_temp self filename w
  = match lookup_node w (key w (cleanup_target self filename)) with
    | None => (Ok tt, w)
    | Some _ =>
        if truthy filename then os.remove (cleanup_target self filename) w
        else shutil.rmtree (cleanup_target self filename) w
    end.
Proof.
  intros Hne.
  unfold DocumentManager.cleanup_temp, cleanup_target in *.
  destruct (truthy filename); unfold bind;
    rewrite path_exists_run, (eqb_false_of_ne _ _ Hne); simpl;
    match goal with |- context [lookup_node w ?k] => destruct (lookup_node w k) end;
    by rewrite ?bool_decide_eq_true_2, ?bool_decide_eq_false_2
      by (eauto; by intros [? ?]).
Qed.



End Cleanup.


(** ** Cleanup on a sample scratch directory *)


(** Case analysis along the monadic code in the goal, innermost
    computation first. *)
Ltac mcases :=
  repeat (cbv beta delta [bind ret raise gets modify try_except try_finally];
          match goal with
          | |- context [match ?x with _ => _ end] =>
              lazymatch x with
              | context [match _ with _ => _ end] => fail
              | _ => destruct x eqn:?
              end
          end).

(** ** The shape of responses *)

Section Responses.
Variable TOOL_REGISTRY : list (string * ToolFunc).
Variable BASE_URL : string.
Variable manager : DocumentManager.
Variable py_repr : json → string.


Lemma is_response_result request_id r :
  is_response request_id (http_server.response_result request_id r).
Proof. exists "result", r. auto. Qed.

Lemma is_response_error request_id code message :
  is_response request_id (http_server.response_error request_id code message).
Proof. eexists "error", _. split; [reflexivity | auto]. Qed.

Lemma resolve_filename_response request_id tool_name arguments w response w' :
  http_server.resolve_filename manager request_id tool_name arguments w
  = (Ok (inl response), w') →
  is_response request_id response.
Proof.
  unfold http_server.resolve_filename, py.contains, py.getitem, py.setitem.
  mcases; intros; simplify_eq; apply is_response_error.
Qed.

Lemma resolve_source_filename_response request_id r w response w' :
  http_server.resolve_source_filename manager request_id r w
  = (Ok (inl response), w') →
  is_response request_id response.
Proof.
  unfold http_server.resolve_source_filename, py.contains, py.getitem, py.setitem.
  mcases; intros; simplify_eq; apply is_response_error.
Qed.

Lemma tools_call_response request_id params w response w' :
  http_server.tools_call TOOL_REGISTRY BASE_URL manager py_repr request_id params w
  = (Ok response, w') →
  is_response request_id response.
Proof.
  unfold http_server.tools_call.
  cbv beta delta [bind ret raise try_finally].
  destruct (py.get params "name" JNull w) as [[tool_name | e] w1]; [| done].
  destruct (py.get params "arguments" _ w1) as [[arguments | e] w2]; [| done].
  destruct (http_server.registry_lookup _ _ w2) as [[[[name tool_func] |] | e] w3];
    [| by intros; simplify_eq; apply is_response_error | done].
  destruct (http_server.resolve_filename _ _ _ _ w3) as [[[early | r] | e] w4] eqn:H1;
    [| | done].
  { intros; simplify_eq. eapply resolve_filename_response, H1. }
  destruct (http_server.resolve_source_filename _ _ _ w4) as [[[early | r'] | e] w5] eqn:H2;
    [| | done].
  { intros; simplify_eq. eapply resolve_source_filename_response, H2. }
  mcases; intros; simplify_eq; apply is_response_result.
Qed.

(** C10: the handler is a total function of the request and the world;
    whatever happens while the request is processed, what it returns is
    a response object with the version "2.0", the id of the request
    ([null] when it has none) and exactly one of a result and an error. *)
Theorem handle_mcp_request_total (request : list (string * json)) (w : World) :
  is_response (default JNull (py.dict_get request "id"))
    (http_server.handle_mcp_request TOOL_REGISTRY BASE_URL manager py_repr
       request w).1.
Proof.
  unfold http_server.handle_mcp_request, http_server.dispatch.
  set (request_id := default JNull (py.dict_get request "id")).
  set (method := default JNull (py.dict_get request "method")).
  set (params := default (JDict []) (py.dict_get request "params")).
  destruct (py.is_str method "initialize"); [apply is_response_result |].
  destruct (py.is_str method "tools/list"); [apply is_response_result |].
  destruct (py.is_str method "tools/call"); [| apply is_response_error].
  destruct (http_server.tools_call _ _ _ _ _ _ w) as [[response | e] w'] eqn:H.
  - eapply tools_call_response, H.
  - apply is_response_error.
Qed.

End Responses.

(** ** Error codes of the dispatcher *)

Section ErrorCodes.
Variable TOOL_REGISTRY : list (string * ToolFunc).
Variable BASE_URL : string.
Variable manager : DocumentManager.
Variable py_repr : json → string.

Abbreviation handle :=
  (http_server.handle_mcp_request TOOL_REGISTRY BASE_URL manager py_repr).
Abbreviation request_id_of request := (default JNull (py.dict_get request "id")).


Lemma handle_tools_call request params w :
  is_tools_call request params →
  handle request w
  = match http_server.tools_call TOOL_REGISTRY BASE_URL manager py_repr
            (request_id_of request) (JDict params) w with
    | (Ok response, w') => (response, w')
    | (Raise e, w') =>
        (http_server.response_error (request_id_of request) (-32603) (str_exn e), w')
    end.
Proof.
  intros [Hm Hp]. unfold http_server.handle_mcp_request, http_server.dispatch.
  by rewrite Hm, Hp.
Qed.

Lemma unknown_tool request params n w :
  is_tools_call request params →
  py.dict_get params "name" = Some (JStr n) →
  py.dict_get_tool TOOL_REGISTRY n = None →
  handle request w
  = (http_server.response_error (request_id_of request) (-32601)
       ("Tool not found: " ++ n), w).
Proof.
  intros Hreq Hn Hnone. rewrite (handle_tools_call _ _ _ Hreq).
  unfold http_server.tools_call, http_server.registry_lookup, py.get, bind, ret.
  by rewrite Hn, Hnone.
Qed.

Lemma get_local_path_absent filename w :
  (StorageAdapter.document_exists (storage manager) filename w).1 = Ok false →
  DocumentManager.get_local_path manager filename false w
  = (Raise (FileNotFoundError ("Document " ++ filename ++ " not found")),
     (StorageAdapter.document_exists (storage manager) filename w).2).
Proof.
  unfold DocumentManager.get_local_path, bind.
  destruct (StorageAdapter.document_exists _ _ w) as [r w']. simpl.
  by intros ->.
Qed.

Lemma missing_document request params n tool_func arguments filename w :
  is_tools_call request params →
  py.dict_get params "name" = Some (JStr n) →
  py.dict_get params "arguments" = Some (JDict arguments) →
  py.dict_get_tool TOOL_REGISTRY n = Some tool_func →
  http_server.create_if_missing_of n = false →
  py.dict_get arguments "filename" = Some (JStr filename) →
  (StorageAdapter.document_exists (storage manager)
     (posixpath.basename filename) w).1 = Ok false →
  handle request w
  = (http_server.response_error (request_id_of request) (-32602)
       ("Document " ++ posixpath.basename filename ++ " not found"),
     (StorageAdapter.document_exists (storage manager)
        (posixpath.basename filename) w).2).
Proof.
  intros Hreq Hn Hargs Htool Hcreate Hfile Habsent.
  rewrite (handle_tools_call _ _ _ Hreq).
  unfold http_server.tools_call, http_server.registry_lookup, py.get, bind, ret.
  rewrite Hn, Hargs, Htool.
  unfold http_server.resolve_filename, py.contains, py.getitem, py.basename,
    bind, ret, try_except.
  rewrite Hfile, bool_decide_eq_true_2 by eauto.
  by rewrite Hcreate, (get_local_path_absent _ _ Habsent).
Qed.

Lemma operation_raises request params n tool_func arguments e w w' :
  is_tools_call request params →
  py.dict_get params "name" = Some (JStr n) →
  py.dict_get params "arguments" = Some (JDict arguments) →
  py.dict_get_tool TOOL_REGISTRY n = Some tool_func →
  py.dict_get arguments "filename" = None →
  py.dict_get arguments "source_filename" = None →
  tool_call tool_func arguments w = (Raise e, w') →
  handle request w
  = (http_server.response_error (request_id_of request) (-32603) (str_exn e), w').
Proof.
  intros Hreq Hn Hargs Htool Hfile Hsource Hraise.
  rewrite (handle_tools_call _ _ _ Hreq).
  unfold http_server.tools_call, http_server.registry_lookup, py.get, bind, ret.
  rewrite Hn, Hargs, Htool.
  unfold http_server.resolve_filename, http_server.resolve_source_filename,
    py.contains, bind, ret.
  rewrite Hfile, bool_decide_eq_false_2 by (by intros [? ?]). cbv iota beta.
  cbn [http_server.arguments_of].
  rewrite Hsource, bool_decide_eq_false_2 by (by intros [? ?]). cbv iota beta.
  unfold try_finally, bind, http_server.call_tool, http_server.cleanup,
    http_server.local_path_exists.
  cbn [http_server.arguments_of http_server.local_path_of truthy].
  by rewrite Hraise.
Qed.

(** X27: a [tools/call] naming an operation that is not in the registry
    is answered with the error object of code -32601; a [tools/call] of
    an operation whose name contains neither [create] nor [add], naming
    a document that the backend reports absent, is answered with the
    error object of code -32602 and a message naming the file; and
    whatever exception the dispatch raises, and so whatever exception an
    invoked operation raises, is answered with the error object of code
    -32603 carrying the message of the exception. *)
Theorem error_code_mapping (request params : list (string * json)) (w : World) :
  is_tools_call request params →
  (∀ n,
      py.dict_get params "name" = Some (JStr n) →
      py.dict_get_tool TOOL_REGISTRY n = None →
      handle request w
      = (JDict [("jsonrpc", JStr "2.0"); ("id", request_id_of request);
                ("error", JDict [("code", JInt (-32601));
                                 ("message", JStr ("Tool not found: " ++ n))])], w))
  ∧ (∀ n tool_func arguments filename,
        py.dict_get params "name" = Some (JStr n) →
        py.dict_get params "arguments" = Some (JDict arguments) →
        py.dict_get_tool TOOL_REGISTRY n = Some tool_func →
        http_server.create_if_missing_of n = false →
        py.dict_get arguments "filename" = Some (JStr filename) →
        (StorageAdapter.document_exists (storage manager)
           (posixpath.basename filename) w).1 = Ok false →
        (handle request w).1
        = JDict [("jsonrpc", JStr "2.0"); ("id", request_id_of request);
                 ("error", JDict [("code", JInt (-32602));
                                  ("message",
                                   JStr ("Document " ++ posixpath.basename filename ++ " not found"))])])
  ∧ (∀ e w',
        http_server.dispatch TOOL_REGISTRY BASE_URL manager py_repr
          (request_id_of request) (JStr "tools/call") (JDict params) w
        = (Raise e, w') →
        handle request w
        = (JDict [("jsonrpc", JStr "2.0"); ("id", request_id_of request);
                  ("error", JDict [("code", JInt (-32603));
                                   ("message", JStr (str_exn e))])], w'))
  ∧ (∀ n tool_func arguments e w',
        py.dict_get params "name" = Some (JStr n) →
        py.dict_get params "arguments" = Some (JDict arguments) →
        py.dict_get_tool TOOL_REGISTRY n = Some tool_func →
        py.dict_get arguments "filename" = None →
        py.dict_get arguments "source_filename" = None →
        tool_call tool_func arguments w = (Raise e, w') →
        handle request w
        = (JDict [("jsonrpc", JStr "2.0"); ("id", request_id_of request);
                  ("error", JDict [("code", JInt (-32603));
                                   ("message", JStr (str_exn e))])], w')).
Proof.
  intros Hreq. repeat split.
  - intros. by apply (unknown_tool _ params).
  - intros. by erewrite missing_document.
  - intros e w' Hraise. destruct Hreq as [Hm Hp].
    unfold http_server.handle_mcp_request. rewrite Hm, Hp.
    change (default JNull (Some (JStr "tools/call"))) with (JStr "tools/call").
    change (default (JDict []) (Some (JDict params))) with (JDict params).
    by rewrite Hraise.
  - intros. by eapply operation_raises.
Qed.

End ErrorCodes.

(** ** What an upload leaves in place *)


Lemma no_new_dirs_refl w : no_new_dirs w w.
Proof. by split. Qed.

Lemma no_new_dirs_trans w1 w2 w3 :
  no_new_dirs w1 w2 → no_new_dirs w2 w3 → no_new_dirs w1 w3.
Proof. intros [Hc1 H1] [Hc2 H2]. split; [congruence | auto]. Qed.

Create HintDb files.
#[local] Hint Resolve no_new_dirs_refl : files.

Section Preservation.
Context {A B : Type}.

Lemma preserves_ret (a : A) : preserves no_new_dirs (ret a).
Proof. intros w. apply no_new_dirs_refl. Qed.

Lemma preserves_raise (e : exn) : preserves no_new_dirs (@raise A e).
Proof. intros w. apply no_new_dirs_refl. Qed.

Lemma preserves_gets (f : World → A) : preserves no_new_dirs (gets f).
Proof. intros w. apply no_new_dirs_refl. Qed.

Lemma preserves_bind (m : M A) (k : A → M B) :
  preserves no_new_dirs m → (∀ a, preserves no_new_dirs (k a)) →
  preserves no_new_dirs (bind m k).
Proof.
  intros Hm Hk w. unfold bind. specialize (Hm w).
  destruct (m w) as [[a | e] w1]; simpl in *; [| done].
  eapply no_new_dirs_trans; [exact Hm | apply Hk].
Qed.

Lemma preserves_try_except (m : M A) (h : exn → M A) :
  preserves no_new_dirs m → (∀ e, preserves no_new_dirs (h e)) →
  preserves no_new_dirs (try_except m h).
Proof.
  intros Hm Hh w. unfold try_except. specialize (Hm w).
  destruct (m w) as [[a | e] w1]; simpl in *; [done |].
  eapply no_new_dirs_trans; [exact Hm | apply Hh].
Qed.
End Preservation.

Lemma lookup_node_insert_file w k d k' :
  lookup_node (set_fs (<[k := File d]>) w) k' = Some Dir →
  lookup_node w k' = Some Dir.
Proof.
  unfold lookup_node. destruct k' as [| c r]; [done |]. simpl.
  destruct (decide (k = c :: r)) as [-> | Hne].
  - by rewrite lookup_insert_eq.
  - by rewrite lookup_insert_ne.
Qed.

Lemma write_file_no_new_dirs p d : preserves no_new_dirs (os.write_file p d).
Proof.
  intros w. unfold os.write_file.
  repeat match goal with
         | |- context [match ?x with _ => _ end] => destruct x
         end; simpl; auto with files.
  all: split; [done | apply lookup_node_insert_file].
Qed.

Lemma read_file_no_new_dirs p : preserves no_new_dirs (os.read_file p).
Proof.
  intros w. unfold os.read_file.
  repeat match goal with
         | |- context [match ?x with _ => _ end] => destruct x
         end; simpl; auto with files.
Qed.

Lemma s3_call_no_new_dirs : preserves no_new_dirs s3_client.call.
Proof. intros w. unfold s3_client.call. destruct (s3_fault w); apply no_new_dirs_refl. Qed.

Lemma set_s3_no_new_dirs f : preserves no_new_dirs (modify (set_s3 f)).
Proof. intros w. by split. Qed.

Ltac preserve :=
  repeat first
    [ apply preserves_bind; [| intros]
    | apply preserves_try_except; [| intros]
    | apply preserves_ret
    | apply preserves_raise
    | apply preserves_gets
    | apply write_file_no_new_dirs
    | apply read_file_no_new_dirs
    | apply s3_call_no_new_dirs
    | apply set_s3_no_new_dirs
    | match goal with
      | |- preserves _ (if ?b then _ else _) => destruct b
      | |- preserves _ (match ?x with _ => _ end) => destruct x
      end ].

Lemma copy2_no_new_dirs src dst : preserves no_new_dirs (shutil.copy2 src dst).
Proof. unfold shutil.copy2, os.path_isdir. preserve. Qed.

Lemma upload_file_no_new_dirs p k : preserves no_new_dirs (s3_client.upload_file p k).
Proof. unfold s3_client.upload_file. preserve. Qed.

Lemma upload_document_no_new_dirs self p filename :
  preserves no_new_dirs (StorageAdapter.upload_document self p filename).
Proof.
  unfold StorageAdapter.upload_document. preserve.
Qed.

(** ** The scratch file of a call *)

Section ScratchFile.
Variable TOOL_REGISTRY : list (string * ToolFunc).
Variable BASE_URL : string.
Variable manager : DocumentManager.
Variable py_repr : json → string.

Lemma upload_back_no_new_dirs r result :
  preserves no_new_dirs (http_server.upload_back BASE_URL manager r result).
Proof.
  unfold http_server.upload_back, http_server.local_path_exists,
    DocumentManager.save_document, py.get, py.basename.
  preserve; apply upload_document_no_new_dirs.
Qed.

Lemma get_local_path_is_join filename create_if_missing w p w' :
  DocumentManager.get_local_path manager filename create_if_missing w = (Ok p, w') →
  p = posixpath.join (temp_dir manager) filename.
Proof.
  unfold DocumentManager.get_local_path.
  mcases; intros; by simplify_eq.
Qed.

Lemma resolve_filename_local_path request_id n arguments filename w r w' :
  py.dict_get arguments "filename" = Some (JStr filename) →
  http_server.resolve_filename manager request_id n (JDict arguments) w
  = (Ok (inr r), w') →
  http_server.local_path_of r
  = Some (posixpath.join (temp_dir manager) (posixpath.basename filename)).
Proof.
  intros Hfile.
  unfold http_server.resolve_filename, py.contains, py.getitem, py.setitem,
    py.basename.
  rewrite Hfile, bool_decide_eq_true_2 by eauto.
  cbv beta delta [bind ret raise try_except]. cbv iota beta.
  repeat match goal with
         | |- context [DocumentManager.get_local_path manager ?f ?c ?w] =>
             let H := fresh "Hp" in
             destruct (DocumentManager.get_local_path manager f c w)
               as [[? | []] ?] eqn:H;
             try apply get_local_path_is_join in H
         | |- context [if ?b then _ else _] => destruct b
         end; intros; by simplify_eq.
Qed.

Lemma resolve_source_filename_local_path request_id r w r' w' :
  http_server.resolve_source_filename manager request_id r w = (Ok (inr r'), w') →
  http_server.local_path_of r' = http_server.local_path_of r.
Proof.
  unfold http_server.resolve_source_filename, py.contains, py.getitem, py.setitem.
  mcases; intros; by simplify_eq.
Qed.

Lemma cleanup_run r b w :
  posixpath.plain b = true →
  http_server.local_path_of r = Some (posixpath.join (temp_dir manager) b) →
  http_server.cleanup manager r w
  = match lookup_node w (key w (posixpath.join (temp_dir manager) b)) with
    | None => (Ok tt, w)
    | Some _ => os.remove (posixpath.join (temp_dir manager) b) w
    end.
Proof.
  intros Hb Hr. unfold http_server.cleanup, http_server.local_path_exists.
  rewrite Hr. cbn [str_opt].
  rewrite (basename_join _ _ (plain_no_slash _ Hb)).
  set (p := posixpath.join (temp_dir manager) b) in *.
  pose proof (join_nonempty (temp_dir manager) b Hb) as Hne. fold p in Hne.
  assert (cleanup_target manager (Some b) = p) as Htarget.
  { unfold cleanup_target. cbn [truthy str_opt].
    by rewrite (eqb_false_of_ne _ _ (plain_nonempty _ Hb)). }
  cbn [truthy]. rewrite (eqb_false_of_ne _ _ Hne). cbn [negb].
  unfold bind. rewrite path_exists_run, (eqb_false_of_ne _ _ Hne). cbn [negb andb].
  destruct (lookup_node w (key w p)) as [nd |] eqn:Hl.
  - rewrite bool_decide_eq_true_2 by eauto.
    rewrite cleanup_temp_run by (by rewrite Htarget).
    rewrite Htarget, Hl. cbn [truthy].
    by rewrite (eqb_false_of_ne _ _ (plain_nonempty _ Hb)).
  - by rewrite bool_decide_eq_false_2 by (by intros [? ?]).
Qed.

Lemma cleanup_removes r b w :
  posixpath.plain b = true →
  http_server.local_path_of r = Some (posixpath.join (temp_dir manager) b) →
  lookup_node w (key w (posixpath.join (temp_dir manager) b)) ≠ Some Dir →
  let w' := (http_server.cleanup manager r w).2 in
  lookup_node w' (key w' (posixpath.join (temp_dir manager) b)) = None.
Proof.
  intros Hb Hr Hdir. rewrite (cleanup_run r b w Hb Hr).
  set (p := posixpath.join (temp_dir manager) b) in *.
  unfold os.remove.
  destruct (lookup_node w (key w p)) as [[d |] |] eqn:Hl; [| done | done].
  cbn [snd].
  change (key (set_fs (delete (key w p)) w) p) with (key w p).
  unfold lookup_node in *.
  destruct (key w p); [done |]. simpl. apply lookup_delete_eq.
Qed.


Lemma tools_call_invoked request_id params n arguments tool_func w r1 w1 r2 w2 :
  py.dict_get params "name" = Some (JStr n) →
  py.dict_get params "arguments" = Some (JDict arguments) →
  py.dict_get_tool TOOL_REGISTRY n = Some tool_func →
  http_server.resolve_filename manager request_id n (JDict arguments) w
  = (Ok (inr r1), w1) →
  http_server.resolve_source_filename manager request_id r1 w1 = (Ok (inr r2), w2) →
  (http_server.tools_call TOOL_REGISTRY BASE_URL manager py_repr request_id
     (JDict params) w).2
  = (invoke BASE_URL manager tool_func r2 w2).2.
Proof.
  intros Hn Hargs Htool H1 H2.
  unfold http_server.tools_call, http_server.registry_lookup, py.get, invoke.
  cbv beta delta [bind ret try_finally]. rewrite Hn, Hargs, Htool. cbv iota beta.
  rewrite H1, H2. cbv iota beta.
  repeat match goal with
         | |- context [match ?x with _ => _ end] =>
             lazymatch x with
             | context [match _ with _ => _ end] => fail
             | _ => destruct x
             end
         end; reflexivity.
Qed.

(** X21: when a [tools/call] names a primary document and the operation
    is invoked (both document names were resolved), the primary scratch
    file is gone when the handler returns, whether the operation
    returned, reported a failure or raised, and whether or not the
    upload that follows succeeded. *)
Theorem primary_scratch_file_deleted
  (request params arguments : list (string * json)) (n filename : string)
  (tool_func : ToolFunc) (w w1 w2 : World) (r1 r2 : http_server.Resolved) :
  let request_id := default JNull (py.dict_get request "id") in
  let local_path := posixpath.join (temp_dir manager) (posixpath.basename filename) in
  let after_call := (http_server.call_tool tool_func (http_server.arguments_of r2) w2).2 in
  is_tools_call request params →
  py.dict_get params "name" = Some (JStr n) →
  py.dict_get params "arguments" = Some (JDict arguments) →
  py.dict_get_tool TOOL_REGISTRY n = Some tool_func →
  py.dict_get arguments "filename" = Some (JStr filename) →
  posixpath.plain (posixpath.basename filename) = true →
  http_server.resolve_filename manager request_id n (JDict arguments) w
  = (Ok (inr r1), w1) →
  http_server.resolve_source_filename manager request_id r1 w1 = (Ok (inr r2), w2) →
  lookup_node after_call (key after_call local_path) ≠ Some Dir →
  let w' := (http_server.handle_mcp_request TOOL_REGISTRY BASE_URL manager py_repr
               request w).2 in
  lookup_node w' (key w' local_path) = None
  ∧ os.path_exists local_path w' = (Ok false, w').
Proof.
  intros request_id local_path after_call Hreq Hn Hargs Htool Hfile Hplain H1 H2 Hdir w'.
  assert (http_server.local_path_of r2 = Some local_path) as Hlocal.
  { rewrite (resolve_source_filename_local_path _ _ _ _ _ H2).
    by apply (resolve_filename_local_path _ _ _ _ _ _ _ Hfile H1). }
  assert (w' = (invoke BASE_URL manager tool_func r2 w2).2) as Hw'.
  { subst w'. rewrite (handle_tools_call _ _ _ _ _ _ _ Hreq). fold request_id.
    rewrite <- (tools_call_invoked request_id params n arguments tool_func
                  w r1 w1 r2 w2) by done.
    by destruct (http_server.tools_call _ _ _ _ _ _ w) as [[? | ?] ?]. }
  clearbody w'. subst w'. unfold invoke, try_finally.
  set (body := bind (http_server.call_tool tool_func (http_server.arguments_of r2)) _).
  assert (no_new_dirs after_call (body w2).2) as [Hcwd Hnew].
  { subst body after_call. unfold bind.
    destruct (http_server.call_tool tool_func _ w2) as [[result | e] w3]; simpl;
      [apply upload_back_no_new_dirs | apply no_new_dirs_refl]. }
  destruct (body w2) as [res w3]. simpl in Hcwd, Hnew.
  assert (lookup_node w3 (key w3 local_path) ≠ Some Dir) as Hdir3.
  { intros Hd. apply Hdir. unfold key in *. rewrite <- Hcwd. by apply Hnew. }
  pose proof (cleanup_removes r2 _ w3 Hplain Hlocal Hdir3) as Hgone.
  assert (lookup_node (http_server.cleanup manager r2 w3).2
            (key (http_server.cleanup manager r2 w3).2 local_path) = None
          → let w4 := (let (r, w4) := http_server.cleanup manager r2 w3 in
                       match r with
                       | Ok _ => (res, w4)
                       | Raise e => (Raise e, w4)
                       end).2 in
            lookup_node w4 (key w4 local_path) = None) as Hsame.
  { by destruct (http_server.cleanup manager r2 w3) as [[[] | e] w4]. }
  specialize (Hsame Hgone). simpl in Hsame.
  split; [exact Hsame |].
  by rewrite path_exists_run, Hsame, andb_comm.
Qed.

End ScratchFile.


(** ** The dispatcher on the sample server *)

(** Reading an existing document on the mounted volume leaves no
    scratch file behind. *)
Lemma primary_scratch_file_deleted_witness :
  let w' := (Server.handle Server.disk_manager read_existing Sample.stocked_world).2 in
  lookup_node w' (key w' "/tmp/doc_edit_k3x9/existing.docx") = None
  ∧ os.path_exists "/tmp/doc_edit_k3x9/existing.docx" w' = (Ok false, w').
Proof.
  apply (primary_scratch_file_deleted Server.TOOL_REGISTRY "" Server.disk_manager
           Server.py_repr read_existing
           [("name", JStr "get_document_text");
            ("arguments", JDict [("filename", JStr "existing.docx")])]
           [("filename", JStr "existing.docx")]
           "get_document_text" "existing.docx"
           (Server.collaborator "document_tools.get_document_text")
           Sample.stocked_world read_existing_step1.2 read_existing_step2.2
           (resolved_of read_existing_step1) (resolved_of read_existing_step2)).
  - split; reflexivity.
  - reflexivity.
  - reflexivity.
  - reflexivity.
  - reflexivity.
  - reflexivity.
  - vm_compute. reflexivity.
  - vm_compute. reflexivity.
  - vm_compute. discriminate.
Defined.

(** An unknown operation, a missing document and an operation whose
    cleanup raises, on the sample server. *)
Lemma error_code_mapping_witness :
  Server.handle Server.disk_manager call_unknown Sample.empty_world
  = (JDict [("jsonrpc", JStr "2.0"); ("id", JInt 7);
            ("error", JDict [("code", JInt (-32601));
                             ("message", JStr "Tool not found: does_not_exist")])],
     Sample.empty_world)
  ∧ (Server.handle Server.disk_manager read_missing Sample.empty_world).1
    = JDict [("jsonrpc", JStr "2.0"); ("id", JInt 8);
             ("error", JDict [("code", JInt (-32602));
                              ("message", JStr "Document missing.docx not found")])]
  ∧ (Server.handle Server.local_manager create_dot_dot Sample.stocked_world).1
    = JDict [("jsonrpc", JStr "2.0"); ("id", JInt 1);
             ("error",
              JDict [("code", JInt (-32603));
                     ("message",
                      JStr "[Errno 21] Is a directory: '/tmp/doc_edit_k3x9/..'")])].
Proof.
  split; [| split].
  - apply (error_code_mapping Server.TOOL_REGISTRY "" Server.disk_manager Server.py_repr
             call_unknown
             [("name", JStr "does_not_exist"); ("arguments", JDict [])]
             Sample.empty_world).
    + split; reflexivity.
    + reflexivity.
    + reflexivity.
  - apply (proj1 (proj2
             (error_code_mapping Server.TOOL_REGISTRY "" Server.disk_manager
                Server.py_repr read_missing
                [("name", JStr "get_document_text");
                 ("arguments", JDict [("filename", JStr "missing.docx")])]
                Sample.empty_world (conj eq_refl eq_refl)))
             "get_document_text"
             (Server.collaborator "document_tools.get_document_text")
             [("filename", JStr "missing.docx")] "missing.docx").
    + reflexivity.
    + reflexivity.
    + reflexivity.
    + reflexivity.
    + reflexivity.
    + vm_compute. reflexivity.
  - apply (f_equal fst
             (proj1 (proj2 (proj2
                (error_code_mapping Server.TOOL_REGISTRY "" Server.local_manager
                   Server.py_repr create_dot_dot
                   [("name", JStr "create_document");
                    ("arguments", JDict [("filename", JStr "..")])]
                   Sample.stocked_world (conj eq_refl eq_refl))))
                (IsADirectoryError "[Errno 21] Is a directory: '/tmp/doc_edit_k3x9/..'")
                (Server.handle Server.local_manager create_dot_dot Sample.stocked_world).2
                ltac:(vm_compute; reflexivity))).
Defined.

(** ** Put and fetch *)


Lemma writable_key_nonempty w p : writable w p = true → key w p ≠ [].
Proof. unfold writable. intros H Hk. by rewrite Hk in H. Qed.

Lemma lookup_node_insert w k v k' :
  k ≠ [] →
  lookup_node (set_fs (<[k := v]>) w) k'
  = if decide (k = k') then Some v else lookup_node w k'.
Proof.
  intros Hk. unfold lookup_node. destruct k' as [| c r].
  - by rewrite decide_False.
  - simpl. apply lookup_insert.
Qed.

Lemma write_file_ok w p d :
  writable w p = true →
  os.write_file p d w = (Ok tt, set_fs (<[key w p := File d]>) w).
Proof.
  unfold writable, os.write_file.
  destruct (lookup_node w (key w p)) as [[? |] |]; [done | done |].
  destruct (lookup_node w (removelast (key w p))) as [[? |] |]; [done | | done].
  by destruct (bool_decide _).
Qed.

Lemma copy2_ok w src dst d :
  lookup_node w (key w src) = Some (File d) →
  writable w dst = true →
  key w src ≠ key w dst →
  shutil.copy2 src dst w = (Ok dst, set_fs (<[key w dst := File d]>) w).
Proof.
  intros Hsrc Hdst Hne. unfold shutil.copy2, os.path_isdir, bind, gets.
  assert (match lookup_node w (key w dst) with Some Dir => true | _ => false end = false)
    as ->.
  { unfold writable in Hdst. by destruct (lookup_node w (key w dst)) as [[? |] |]. }
  rewrite andb_false_r, bool_decide_eq_false_2 by done. simpl.
  unfold os.read_file. rewrite Hsrc. by rewrite write_file_ok.
Qed.

Lemma writable_after_insert w q d p :
  writable w q = true → writable w p = true → key w p ≠ key w q →
  writable (set_fs (<[key w q := File d]>) w) p = true.
Proof.
  intros Hq Hp Hne. pose proof (writable_key_nonempty _ _ Hq) as Hk0.
  unfold writable in *.
  change (key (set_fs _ w) p) with (key w p). simpl denied.
  set (k := key w q) in *.
  rewrite !lookup_node_insert by done.
  rewrite decide_False by done.
  destruct (lookup_node w (key w p)) as [[? |] |]; [done | done |].
  destruct (decide (k = removelast (key w p))) as [Heq | _]; [| done].
  rewrite <- Heq in Hp.
  by destruct (lookup_node w k) as [[? |] |].
Qed.

Section RoundTrip.
Variable self : StorageAdapter.


Lemma read_back w k p d :
  key w p = k → k ≠ [] →
  os.read_file p (set_fs (<[k := File d]>) w)
  = (Ok d, set_fs (<[k := File d]>) w).
Proof.
  intros Hk Hne. unfold os.read_file.
  change (key (set_fs _ w) p) with (key w p).
  rewrite lookup_node_insert, Hk, decide_True by done. done.
Qed.

(** X28: on every backend that can take the document, a document put
    from a source file and then fetched is, at the path that the fetch
    returns, a file with the bytes the source file had when it was put.
    That path is the destination on the object store and on the mounted
    volume, where the destination must be writable, and the stored file
    itself on the local file system, where the destination is not
    used. *)
Theorem put_fetch_round_trip (src name dest : string) (d : list byte) (w : World) :
  name ≠ "" →
  lookup_node w (key w src) = Some (File d) →
  backend_ready self w src name →
  dest_ready self w name dest →
  ∃ locator w1 p w2,
    StorageAdapter.upload_document self src name w = (Ok locator, w1)
    ∧ StorageAdapter.download_document self name (Some dest) w1 = (Ok p, w2)
    ∧ p = fetched_path self name dest
    ∧ os.read_file p w2 = (Ok d, w2).
Proof.
  intros Hname Hsrc Hready Hdest.
  unfold backend_ready, dest_ready, stored_path, fetched_path in *.
  unfold StorageAdapter.upload_document, StorageAdapter.download_document.
  destruct (String.eqb (storage_type self) "s3").
  - (* object store *)
    unfold s3_client.upload_file, s3_client.download_file, s3_client.call,
      try_except, bind, modify, gets, ret, os.read_file.
    rewrite Hsrc, Hready.
    eexists _, _, dest, _. split; [reflexivity |].
    cbn [s3_fault s3_objects set_s3]. rewrite Hready.
    cbn [s3_fault s3_objects set_s3]. rewrite lookup_insert_eq.
    assert (writable (set_s3 (<[name := d]>) w) dest = true) as Hw by exact Hdest.
    rewrite (write_file_ok _ _ _ Hw).
    split; [reflexivity |]. split; [reflexivity |].
    apply (read_back _ _ dest d); [done |]. by apply (writable_key_nonempty w).
  - destruct (String.eqb (storage_type self) "disk").
    + (* mounted volume *)
      destruct Hready as [Hstored Hne]. destruct Hdest as [Hdest Hne'].
      set (stored := posixpath.join (disk_path self) name) in *.
      set (w1 := set_fs (<[key w stored := File d]>) w).
      assert (lookup_node w1 (key w1 stored) = Some (File d)) as Hput.
      { subst w1. change (key (set_fs _ w) stored) with (key w stored).
        rewrite lookup_node_insert, decide_True; [done | done |].
        by apply writable_key_nonempty. }
      assert (writable w1 dest = true) as Hw.
      { subst w1. by apply writable_after_insert. }
      exists (StorageAdapter.locator self name stored), w1, dest,
        (set_fs (<[key w1 dest := File d]>) w1).
      split; [| split; [| split; [reflexivity |]]].
      * unfold bind, ret. by rewrite (copy2_ok _ _ _ _ Hsrc Hstored Hne).
      * unfold bind, ret. rewrite path_exists_run, Hput.
        rewrite (eqb_false_of_ne stored "")
          by (by apply join_truthy_nonempty).
        rewrite bool_decide_eq_true_2 by eauto.
        cbv beta iota delta [negb andb].
        by rewrite (copy2_ok w1 stored dest d Hput Hw) by (subst w1; done).
      * apply read_back; [done |]. by apply (writable_key_nonempty w1).
    + (* local file system *)
      destruct Hready as [Hstored Hne].
      set (stored := posixpath.join (local_path self) name) in *.
      set (w1 := set_fs (<[key w stored := File d]>) w).
      assert (lookup_node w1 (key w1 stored) = Some (File d)) as Hput.
      { subst w1. change (key (set_fs _ w) stored) with (key w stored).
        rewrite lookup_node_insert, decide_True; [done | done |].
        by apply writable_key_nonempty. }
      exists (StorageAdapter.locator self name stored), w1, stored, w1.
      split; [| split; [| split; [reflexivity |]]].
      * unfold bind, ret. by rewrite (copy2_ok _ _ _ _ Hsrc Hstored Hne).
      * unfold bind, ret. rewrite path_exists_run, Hput.
        rewrite (eqb_false_of_ne stored "")
          by (by apply join_truthy_nonempty).
        by rewrite bool_decide_eq_true_2 by eauto.
      * unfold os.read_file. by rewrite Hput.
Qed.

End RoundTrip.

(** The round trip of [a.docx] on the three sample backends. *)
Lemma put_fetch_round_trip_witness :
  round_trip_on Sample.s3_adapter
  ∧ round_trip_on Sample.disk_adapter
  ∧ round_trip_on Sample.local_adapter.
Proof.
  repeat split.
  - apply (put_fetch_round_trip Sample.s3_adapter); [discriminate | ..];
      vm_compute; try reflexivity.
  - apply (put_fetch_round_trip Sample.disk_adapter); [discriminate | ..].
    + vm_compute. reflexivity.
    + split; vm_compute; [reflexivity | discriminate].
    + split; vm_compute; [reflexivity | discriminate].
  - apply (put_fetch_round_trip Sample.local_adapter); [discriminate | ..].
    + vm_compute. reflexivity.
    + split; vm_compute; [reflexivity | discriminate].
    + exact I.
Defined.

(** ** Backend selection *)

Section Selection.
Variable env : gmap string string.


(** C3, as the code has it: when the initialization of the preferred
    backend fails -- credentials missing or the probe failing for the
    object store, a permission failure for the mounted volume -- the
    adapter turns to the local file system at once, in one pass and
    without trying the mounted volume after the object store; the local
    file system is the last backend, selected as soon as its directory
    is in place. *)
Theorem fallback_is_local (w w1 w2 : World) :
  preferred_fails env w w1 →
  os.makedirs (documents_dir env) w1 = (Ok tt, w2) →
  ∃ a,
    StorageAdapter.__init__ env w = (Ok a, w2)
    ∧ storage_type a = "local"
    ∧ local_path a = documents_dir env.
Proof.
  intros Hfail Hlocal. unfold StorageAdapter.__init__.
  cbn [storage_type]. fold (preferred env).
  destruct Hfail as [Hp Hc | code Hp Hf | message w1 Hp Hm]; rewrite Hp.
  - cbn [String.eqb Ascii.eqb Bool.eqb].
    unfold StorageAdapter._init_s3.
    cbn [s3_bucket s3_access_key s3_secret_key StorageAdapter.with_s3].
    fold (s3_configured env). rewrite Hc. cbn [negb].
    unfold StorageAdapter._init_local, bind, ret. fold (documents_dir env).
    rewrite Hlocal. eexists. split; [reflexivity |]. by split.
  - cbn [String.eqb Ascii.eqb Bool.eqb].
    unfold StorageAdapter._init_s3.
    cbn [s3_bucket s3_access_key s3_secret_key StorageAdapter.with_s3].
    fold (s3_configured env).
    destruct (s3_configured env); cbn [negb].
    + unfold try_except, bind, s3_client.head_bucket, s3_client.call. rewrite Hf.
      unfold StorageAdapter._init_local, bind, ret. fold (documents_dir env).
      rewrite Hlocal. eexists. split; [reflexivity |]. by split.
    + unfold StorageAdapter._init_local, bind, ret. fold (documents_dir env).
      rewrite Hlocal. eexists. split; [reflexivity |]. by split.
  - cbn [String.eqb Ascii.eqb Bool.eqb].
    unfold StorageAdapter._init_disk, try_except, bind. fold (mount_dir env).
    rewrite Hm.
    unfold StorageAdapter._init_local, bind, ret. fold (documents_dir env).
    rewrite Hlocal. eexists. split; [reflexivity |]. by split.
Qed.

End Selection.

(** C3, as documented: an object store without credentials, on a
    machine whose volume directory can be created, does not select the
    mounted volume, the next backend of the documented chain. *)
Lemma fallback_skips_volume :
  (os.makedirs (mount_dir s3_without_credentials) Sample.empty_world).1 = Ok tt
  ∧ ¬ selects_next_in_chain s3_without_credentials Sample.empty_world.
Proof.
  split; [vm_compute; reflexivity |].
  intros Hclaim.
  destruct (Hclaim Sample.empty_world) as (a & w2 & Hinit & Hnext).
  { apply object_store_unconfigured; vm_compute; reflexivity. }
  vm_compute in Hinit. vm_compute in Hnext.
  injection Hinit as <- _. discriminate Hnext.
Qed.

(** The two fallbacks on sample machines: an object store without
    credentials, and a volume that is not attached. *)
Lemma fallback_is_local_witness :
  (∃ a,
      StorageAdapter.__init__ s3_without_credentials Sample.empty_world
      = (Ok a, Sample.empty_world)
      ∧ storage_type a = "local"
      ∧ local_path a = documents_dir s3_without_credentials)
  ∧ (∃ a,
        StorageAdapter.__init__ default_env volume_not_attached_world
        = (Ok a, volume_not_attached_world)
        ∧ storage_type a = "local"
        ∧ local_path a = documents_dir default_env).
Proof.
  split.
  - apply (fallback_is_local s3_without_credentials Sample.empty_world Sample.empty_world).
    + apply object_store_unconfigured; vm_compute; reflexivity.
    + vm_compute. reflexivity.
  - apply (fallback_is_local default_env volume_not_attached_world
             volume_not_attached_world).
    + apply (volume_not_attached default_env _
               "[Errno 13] Permission denied: '/mnt/disk'");
        vm_compute; reflexivity.
    + vm_compute. reflexivity.
Defined.

(** ** Deleting from a file-system backend *)

(** On the mounted volume and on the local file system, [delete_document]
    tells whether a document was removed, and a removed document is gone. *)
Lemma delete_document_on_file_system (self : StorageAdapter) (name p : string)
  (w : World) :
  name ≠ "" →
  stored_path self name = Some p →
  match lookup_node w (key w p) with
  | Some (File _) =>
      StorageAdapter.delete_document self name w
      = (Ok true, set_fs (delete (key w p)) w)
      ∧ StorageAdapter.document_exists self name (set_fs (delete (key w p)) w)
        = (Ok false, set_fs (delete (key w p)) w)
  | Some Dir => True
  | None => StorageAdapter.delete_document self name w = (Ok false, w)
  end.
Proof.
  intros Hname. unfold stored_path, StorageAdapter.delete_document,
    StorageAdapter.document_exists.
  destruct (String.eqb (storage_type self) "s3"); [done |].
  assert (∀ dir, posixpath.join dir name = p →
            match lookup_node w (key w p) with
            | Some (File _) =>
                (ex <- os.path_exists (posixpath.join dir name) ;;
                 if ex then do os.remove (posixpath.join dir name) ;; ret true
                 else ret false) w
                = (Ok true, set_fs (delete (key w p)) w)
                ∧ os.path_exists (posixpath.join dir name) (set_fs (delete (key w p)) w)
                  = (Ok false, set_fs (delete (key w p)) w)
            | Some Dir => True
            | None =>
                (ex <- os.path_exists (posixpath.join dir name) ;;
                 if ex then do os.remove (posixpath.join dir name) ;; ret true
                 else ret false) w
                = (Ok false, w)
            end) as Hfs.
  { intros dir Hp. rewrite Hp.
    assert (p ≠ "") as Hne by (rewrite <- Hp; by apply join_truthy_nonempty).
    unfold bind. rewrite path_exists_run, (eqb_false_of_ne _ _ Hne).
    destruct (lookup_node w (key w p)) as [[d |] |] eqn:Hl; [| done |].
    - rewrite bool_decide_eq_true_2 by eauto. simpl.
      unfold os.remove. rewrite Hl. split; [done |].
      rewrite path_exists_run, (eqb_false_of_ne _ _ Hne).
      change (key (set_fs (delete (key w p)) w) p) with (key w p).
      assert (lookup_node (set_fs (delete (key w p)) w) (key w p) = None) as ->.
      { unfold lookup_node in *. destruct (key w p); [done |]. simpl.
        apply lookup_delete_eq. }
      by rewrite bool_decide_eq_false_2 by (by intros [? ?]).
    - by rewrite bool_decide_eq_false_2 by (by intros [? ?]). }
  destruct (String.eqb (storage_type self) "disk"); intros [= Hp]; by apply Hfs.
Qed.

(** ** The claimed scenarios where the code follows them *)

(** A document created under the name [report.docx] is stored, can be
    fetched, and leaves nothing in the scratch directory. *)
Lemma create_with_extension_is_stored :
  let out := Server.handle Server.disk_manager create_report_docx Sample.empty_world in
  StorageAdapter.document_exists Sample.disk_adapter "report.docx" out.2
  = (Ok true, out.2)
  ∧ lookup_node out.2 ["tmp"; "doc_edit_k3x9"; "report.docx"] = None
  ∧ (http_server.serve_document Server.disk_manager "report.docx" out.2).1
    = http_server.Response 200
        [("Content-Type", http_server.docx_mime);
         ("Content-Disposition",
          "attachment; filename=" ++ Str.dquote ++ "report.docx" ++ Str.dquote);
         ("Content-Length", "7");
         ("Access-Control-Allow-Origin", "*");
         ("Access-Control-Allow-Methods", "GET, POST, OPTIONS");
         ("Access-Control-Allow-Headers", "Content-Type");
         ("Content-Type", "application/json")]
        Sample.pk.
Proof. vm_compute. repeat split. Qed.

(** On the mounted volume and on the object store, the scratch path of an
    existing document holds the stored bytes; a missing document is
    reported, or given a fresh scratch path when one is asked for. *)
Lemma other_backends_fetch_the_document :
  (∀ manager, manager = Server.disk_manager
              ∨ manager = mkDocumentManager Sample.s3_adapter Sample.scratch →
     let out := DocumentManager.get_local_path manager "existing.docx" false
                  Sample.stocked_world in
     out.1 = Ok "/tmp/doc_edit_k3x9/existing.docx"
     ∧ os.read_file "/tmp/doc_edit_k3x9/existing.docx" out.2 = (Ok Sample.pk, out.2))
  ∧ DocumentManager.get_local_path Server.local_manager "missing.docx" false
      Sample.stocked_world
    = (Raise (FileNotFoundError "Document missing.docx not found"), Sample.stocked_world)
  ∧ DocumentManager.get_local_path Server.local_manager "missing.docx" true
      Sample.stocked_world
    = (Ok "/tmp/doc_edit_k3x9/missing.docx", Sample.stocked_world).
Proof.
  split; [| vm_compute; by split].
  intros manager [-> | ->]; vm_compute; by split.
Qed.

(** ** Where the code departs from its documentation *)


(** C1, on the code: a document created under the name [report] is
    written by the operation to [report.docx] in the scratch directory,
    while the handler looks for the scratch file [report]; nothing is
    uploaded, the file stays in the scratch directory, and the document
    cannot be fetched afterwards. *)
Lemma create_without_extension_is_lost :
  let out := Server.handle Server.disk_manager create_report Sample.empty_world in
  out.1 = JDict [("jsonrpc", JStr "2.0"); ("id", JInt 1);
                 ("result",
                  (JDict [("content",
                     JList [JDict [("type", JStr "text");
                                   ("text",
                                    JStr "Document /tmp/doc_edit_k3x9/report.docx created successfully")]])]))]
  ∧ StorageAdapter.document_exists Sample.disk_adapter "report.docx" out.2
    = (Ok false, out.2)
  ∧ lookup_node out.2 ["tmp"; "doc_edit_k3x9"; "report.docx"] = Some (File Sample.pk)
  ∧ (http_server.serve_document Server.disk_manager "report.docx" out.2).1
    = http_server.SendError 404 "Document 'report.docx' not found".
Proof. vm_compute. repeat split. Qed.

(** C2, on the code: with the local-filesystem backend, the path that
    [get_local_path] returns for a document of the backend is a path of
    the scratch directory at which there is no file: the backend hands
    back its own path and copies nothing. *)
Lemma local_backend_fetches_nothing :
  StorageAdapter.document_exists Sample.local_adapter "existing.docx" Sample.stocked_world
  = (Ok true, Sample.stocked_world)
  ∧ DocumentManager.get_local_path Server.local_manager "existing.docx" false
      Sample.stocked_world
    = (Ok "/tmp/doc_edit_k3x9/existing.docx", Sample.stocked_world)
  ∧ os.path_exists "/tmp/doc_edit_k3x9/existing.docx" Sample.stocked_world
    = (Ok false, Sample.stocked_world)
  ∧ StorageAdapter.download_document Sample.local_adapter "existing.docx"
      (Some "/tmp/doc_edit_k3x9/existing.docx") Sample.stocked_world
    = (Ok "./documents/existing.docx", Sample.stocked_world).
Proof. vm_compute. repeat split. Qed.

(** C7, on the code: on the local file system a document that was put
    and is then fetched to a destination is not at the destination:
    [download_document] hands back the path of the stored file and writes
    nothing, where the object store and the mounted volume write the
    destination and return it. *)
Lemma local_fetch_leaves_the_destination_empty :
  (sample_put Sample.local_adapter).1 = Ok "./documents/a.docx"
  ∧ (sample_fetch Sample.local_adapter).1 = Ok "./documents/a.docx"
  ∧ lookup_node (sample_fetch Sample.local_adapter).2 ["tmp"; "doc_edit_k3x9"; "b.docx"]
    = None
  ∧ (os.read_file "/tmp/doc_edit_k3x9/b.docx" (sample_fetch Sample.local_adapter).2).1
    = Raise (FileNotFoundError
               "[Errno 2] No such file or directory: '/tmp/doc_edit_k3x9/b.docx'")
  ∧ (∀ self, self = Sample.s3_adapter ∨ self = Sample.disk_adapter →
       (sample_fetch self).1 = Ok "/tmp/doc_edit_k3x9/b.docx"
       ∧ (os.read_file "/tmp/doc_edit_k3x9/b.docx" (sample_fetch self).2).1
         = Ok Sample.pk).
Proof.
  do 4 (split; [vm_compute; reflexivity |]).
  intros self [-> | ->]; vm_compute; by split.
Qed.

(** C4, on the code: a call that names an existing primary document
    and a source document that does not exist fetches the primary
    document into the scratch directory, then returns the error for the
    source document from before the [try]/[finally] that cleans up: the
    primary scratch file is still there when the handler has returned. *)
Lemma unresolved_source_leaves_primary_scratch_file :
  let out := Server.handle Server.disk_manager copy_from_missing Sample.stocked_world in
  os.path_exists "/tmp/doc_edit_k3x9/existing.docx" Sample.stocked_world
  = (Ok false, Sample.stocked_world)
  ∧ out.1 = JDict [("jsonrpc", JStr "2.0"); ("id", JInt 1);
                   ("error", JDict [("code", JInt (-32602));
                                    ("message",
                                     JStr "Source document missing.docx not found")])]
  ∧ lookup_node out.2 ["tmp"; "doc_edit_k3x9"; "existing.docx"] = Some (File Sample.pk)
  ∧ os.path_exists "/tmp/doc_edit_k3x9/existing.docx" out.2 = (Ok true, out.2).
Proof. vm_compute. repeat split. Qed.

(** Once both document names are resolved, the answer is the text of
    the operation or an internal error. *)
Lemma resolved_call_answer (TOOL_REGISTRY : list (string * ToolFunc)) (BASE_URL : string)
  (manager : DocumentManager) (py_repr : json → string)
  (request params arguments : list (string * json)) (n : string)
  (tool_func : ToolFunc) (w w1 w2 : World) (r1 r2 : http_server.Resolved) :
  let request_id := default JNull (py.dict_get request "id") in
  let response :=
    (http_server.handle_mcp_request TOOL_REGISTRY BASE_URL manager py_repr request w).1 in
  is_tools_call request params →
  py.dict_get params "name" = Some (JStr n) →
  py.dict_get params "arguments" = Some (JDict arguments) →
  py.dict_get_tool TOOL_REGISTRY n = Some tool_func →
  http_server.resolve_filename manager request_id n (JDict arguments) w
  = (Ok (inr r1), w1) →
  http_server.resolve_source_filename manager request_id r1 w1 = (Ok (inr r2), w2) →
  (∃ text,
      response
      = JDict [("jsonrpc", JStr "2.0"); ("id", request_id);
               ("result",
                JDict [("content",
                        JList [JDict [("type", JStr "text"); ("text", JStr text)]])])])
  ∨ (∃ message,
       response
       = JDict [("jsonrpc", JStr "2.0"); ("id", request_id);
                ("error", JDict [("code", JInt (-32603)); ("message", JStr message)])]).
Proof.
  intros request_id response Hreq Hn Hargs Htool H1 H2. subst response.
  rewrite (handle_tools_call _ _ _ _ _ _ _ Hreq). fold request_id.
  unfold http_server.tools_call, http_server.registry_lookup, py.get.
  cbv beta delta [bind ret try_finally]. rewrite Hn, Hargs, Htool. cbv iota beta.
  rewrite H1, H2. cbv iota beta.
  repeat match goal with
         | |- context [match ?x with _ => _ end] =>
             lazymatch x with
             | context [match _ with _ => _ end] => fail
             | _ => destruct x
             end
         end; simpl; eauto.
Qed.

(** C5, on the code: [set_table_cell_padding] does not create documents,
    yet its name contains [add], in [padding], and the test of line 281
    takes it for an operation that does.  Asked for a document that the
    backend lacks, the handler answers the sibling operation
    [set_table_cell_shading] with the error -32602, and hands
    [set_table_cell_padding] a scratch path at which nothing was fetched:
    whatever the operation then does, the answer is its text or the error
    -32603, never -32602. *)
Lemma padding_is_taken_for_creating (collaborator : string → ToolFunc) :
  let registry :=
    http_server.tools_map Server.env Server.check_file_writeable Server.docx_build
      Server.py_repr collaborator in
  let handle :=
    http_server.handle_mcp_request registry "" Server.disk_manager Server.py_repr in
  StorageAdapter.document_exists Sample.disk_adapter "missing.docx" Sample.stocked_world
  = (Ok false, Sample.stocked_world)
  ∧ handle shade_missing Sample.stocked_world
    = (JDict [("jsonrpc", JStr "2.0"); ("id", JInt 9);
              ("error", JDict [("code", JInt (-32602));
                               ("message", JStr "Document missing.docx not found")])],
       Sample.stocked_world)
  ∧ http_server.create_if_missing_of "set_table_cell_padding" = true
  ∧ ((∃ text,
        (handle pad_missing Sample.stocked_world).1
        = JDict [("jsonrpc", JStr "2.0"); ("id", JInt 9);
                 ("result",
                  JDict [("content",
                          JList [JDict [("type", JStr "text"); ("text", JStr text)]])])])
     ∨ (∃ message,
          (handle pad_missing Sample.stocked_world).1
          = JDict [("jsonrpc", JStr "2.0"); ("id", JInt 9);
                   ("error", JDict [("code", JInt (-32603));
                                    ("message", JStr message)])])).
Proof.
  intros registry handle.
  split; [vm_compute; reflexivity |].
  split; [vm_compute; reflexivity |].
  split; [vm_compute; reflexivity |].
  apply (resolved_call_answer registry "" Server.disk_manager Server.py_repr pad_missing
           [("name", JStr "set_table_cell_padding");
            ("arguments", JDict [("filename", JStr "missing.docx")])]
           [("filename", JStr "missing.docx")]
           "set_table_cell_padding"
           (collaborator "format_tools.set_table_cell_padding")
           Sample.stocked_world Sample.stocked_world Sample.stocked_world
           (http_server.mkResolved
              (JDict [("filename", JStr "/tmp/doc_edit_k3x9/missing.docx")])
              (Some "missing.docx") (Some "/tmp/doc_edit_k3x9/missing.docx"))
           (http_server.mkResolved
              (JDict [("filename", JStr "/tmp/doc_edit_k3x9/missing.docx")])
              (Some "missing.docx") (Some "/tmp/doc_edit_k3x9/missing.docx"))).
  - split; reflexivity.
  - reflexivity.
  - reflexivity.
  - reflexivity.
  - vm_compute. reflexivity.
  - vm_compute. reflexivity.
Qed.

(** C6, on the code: on the object store, deleting a document that is
    not there returns [True]. *)
Lemma s3_delete_of_absent_document_returns_true :
  StorageAdapter.document_exists Sample.s3_adapter "missing.docx" Sample.stocked_world
  = (Ok false, Sample.stocked_world)
  ∧ StorageAdapter.delete_document Sample.s3_adapter "missing.docx" Sample.stocked_world
    = (Ok true, Sample.stocked_world).
Proof. vm_compute. repeat split. Qed.


(** C8, on the code: the base name of [..] is [..]; joined to the
    storage directory or to the scratch directory it names their parent,
    which the backend then reports as an existing document, which the
    download endpoint tries to copy, and which the cleanup of a call tries
    to remove. *)
Lemma dot_dot_leaves_the_directories :
  http_server.documents_route "/documents/%2e%2e" = Some "%2e%2e"
  ∧ posixpath.basename (urllib.unquote "%2e%2e") = ".."
  ∧ key Sample.stocked_world (StorageAdapter.get_document_path Sample.disk_adapter "..")
    = ["mnt"; "disk"]
  ∧ StorageAdapter.document_exists Sample.disk_adapter ".." Sample.stocked_world
    = (Ok true, Sample.stocked_world)
  ∧ (http_server.serve_document Server.disk_manager "%2e%2e" Sample.stocked_world).1
    = http_server.SendError 500
        "Error serving document: [Errno 21] Is a directory: '/mnt/disk/documents/..'"
  ∧ key Sample.stocked_world (posixpath.join Sample.scratch "..") = ["tmp"]
  ∧ (Server.handle Server.local_manager create_dot_dot Sample.stocked_world).1
    = JDict [("jsonrpc", JStr "2.0"); ("id", JInt 1);
             ("error", JDict [("code", JInt (-32603));
                              ("message",
                               JStr "[Errno 21] Is a directory: '/tmp/doc_edit_k3x9/..'")])].
Proof. vm_compute. repeat split. Qed.


(** * Further properties of the code *)

Lemma write_file_inv p d w w' :
  os.write_file p d w = (Ok tt, w') →
  w' = set_fs (<[key w p := File d]>) w
  ∧ key w p ≠ []
  ∧ lookup_node w (key w p) ≠ Some Dir.
Proof.
  unfold os.write_file.
  destruct (key w p) as [| c k] eqn:Hk; [simpl; by intros [=] |].
  destruct (lookup_node w (c :: k)) as [[? |] |]; [| done |].
  - intros [= <-]. by repeat split.
  - destruct (lookup_node w (removelast (c :: k))) as [[? |] |]; [done | | done].
    destruct (bool_decide _); [done |]. intros [= <-]. by repeat split.
Qed.

Lemma copy2_inv src dst w r w' :
  shutil.copy2 src dst w = (Ok r, w') →
  ∃ d,
    lookup_node w (key w src) = Some (File d)
    ∧ w' = set_fs (<[key w r := File d]>) w
    ∧ key w r ≠ []
    ∧ key w src ≠ key w r
    ∧ (r = dst ∨ lookup_node w (key w dst) = Some Dir).
Proof.
  unfold shutil.copy2, os.path_isdir, bind, gets, ret, raise.
  set (isdir := negb (String.eqb dst "") && _).
  set (target := if isdir then _ else dst).
  destruct (bool_decide (key w src = key w target) && _) eqn:Hsame; [done |].
  unfold os.read_file.
  destruct (lookup_node w (key w src)) as [[d |] |] eqn:Hsrc; [| done | done].
  destruct (os.write_file target d w) as [[[] | e] w1] eqn:Hw; [| done].
  intros [= <- <-]. apply write_file_inv in Hw as (-> & Hk & Hd).
  exists d. repeat split; try done.
  - intros Heq. rewrite (bool_decide_eq_true_2 _ Heq) in Hsame.
    by rewrite bool_decide_eq_true_2 in Hsame by eauto.
  - subst target isdir.
    destruct (String.eqb dst ""); simpl; [by left |].
    destruct (lookup_node w (key w dst)) as [[? |] |]; auto.
Qed.

Lemma lookup_node_is_Some_insert w k v k' :
  is_Some (lookup_node w k') →
  is_Some (lookup_node (set_fs (<[k := v]>) w) k').
Proof.
  unfold lookup_node. destruct k' as [| c r]; [done |]. simpl.
  destruct (decide (k = c :: r)) as [-> | Hne].
  - rewrite lookup_insert_eq. eauto.
  - by rewrite lookup_insert_ne.
Qed.

Lemma read_file_inv p w d w' :
  os.read_file p w = (Ok d, w') →
  w' = w ∧ lookup_node w (key w p) = Some (File d).
Proof.
  unfold os.read_file.
  destruct (lookup_node w (key w p)) as [[? |] |]; intros; by simplify_eq.
Qed.

Lemma s3_call_inv w w' :
  s3_client.call w = (Ok tt, w') → w' = w ∧ s3_fault w = None.
Proof.
  unfold s3_client.call. destruct (s3_fault w); intros; by simplify_eq.
Qed.

Lemma upload_file_inv p k w w' :
  s3_client.upload_file p k w = (Ok tt, w') →
  ∃ d, lookup_node w (key w p) = Some (File d)
       ∧ s3_fault w = None
       ∧ w' = set_s3 (<[k := d]>) w.
Proof.
  unfold s3_client.upload_file, bind, modify.
  destruct (os.read_file p w) as [[d | e] w1] eqn:Hread; [| done].
  apply read_file_inv in Hread as [-> Hd].
  destruct (s3_client.call w) as [[[] | e] w1] eqn:Hcall; [| done].
  apply s3_call_inv in Hcall as [-> Hf].
  intros [= <-]. by exists d.
Qed.

Lemma head_object_run k w :
  s3_fault w = None →
  s3_client.head_object k w
  = match s3_objects w !! k with
    | Some _ => (Ok tt, w)
    | None => (Raise (ClientError "404" "Not Found"), w)
    end.
Proof.
  intros Hf. unfold s3_client.head_object, s3_client.call, bind, gets, ret, raise.
  rewrite Hf. by destruct (s3_objects w !! k).
Qed.

(** X1: once [upload_document] has returned a locator for a non-empty name,
    [document_exists] for that name returns [True] and changes nothing, on
    every backend. *)
Theorem upload_then_exists (self : StorageAdapter) (src name locator : string)
  (w w1 : World) :
  name ≠ "" →
  StorageAdapter.upload_document self src name w = (Ok locator, w1) →
  StorageAdapter.document_exists self name w1 = (Ok true, w1).
Proof.
  intros Hname. unfold StorageAdapter.upload_document, StorageAdapter.document_exists.
  assert (∀ dir,
            (do shutil.copy2 src (posixpath.join dir name) ;;
             ret (StorageAdapter.locator self name (posixpath.join dir name))) w
            = (Ok locator, w1) →
            os.path_exists (posixpath.join dir name) w1 = (Ok true, w1)) as Hfs.
  { intros dir. unfold bind, ret.
    destruct (shutil.copy2 _ _ w) as [[r | e] w2] eqn:Hcopy; [| done].
    intros [= _ ->].
    apply copy2_inv in Hcopy as (d & _ & -> & Hk & _ & Hdst).
    rewrite path_exists_run.
    rewrite (eqb_false_of_ne _ _ (join_truthy_nonempty dir name Hname)).
    rewrite key_set_fs, bool_decide_eq_true_2; [done |].
    destruct Hdst as [-> | Hdir].
    - rewrite lookup_node_insert, decide_True by done. eauto.
    - apply lookup_node_is_Some_insert. eauto. }
  destruct (String.eqb (storage_type self) "s3").
  - unfold try_except, bind.
    destruct (s3_client.upload_file src name w) as [[[] | e] w2] eqn:Hup.
    2:{ destruct e; simpl; intros [=]. }
    apply upload_file_inv in Hup as (d & _ & Hf & ->).
    unfold ret. intros [= _ <-].
    rewrite head_object_run by done.
    cbn [s3_objects set_s3]. by rewrite lookup_insert_eq.
  - destruct (String.eqb (storage_type self) "disk"); apply Hfs.
Qed.

Lemma lookup_node_delete w k :
  k ≠ [] → lookup_node (set_fs (delete k) w) k = None.
Proof.
  intros Hk. unfold lookup_node. destruct k; [done |]. simpl. apply lookup_delete_eq.
Qed.

Lemma remove_inv p w w' :
  os.remove p w = (Ok tt, w') →
  w' = set_fs (delete (key w p)) w ∧ key w p ≠ []
  ∧ ∃ d, lookup_node w (key w p) = Some (File d).
Proof.
  unfold os.remove.
  destruct (lookup_node w (key w p)) as [[d |] |] eqn:Hl; intros; simplify_eq.
  repeat split; [| by eauto]. intros Hk. by rewrite Hk in Hl.
Qed.

(** X2: once [delete_document] has returned for a non-empty name,
    [document_exists] for that name returns [False], on every backend; when
    [delete_document] returned [False] it changed nothing. *)
Theorem delete_then_absent (self : StorageAdapter) (name : string) (removed : bool)
  (w w1 : World) :
  name ≠ "" →
  StorageAdapter.delete_document self name w = (Ok removed, w1) →
  StorageAdapter.document_exists self name w1 = (Ok false, w1)
  ∧ (removed = false → w1 = w).
Proof.
  intros Hname. unfold StorageAdapter.delete_document, StorageAdapter.document_exists.
  assert (∀ dir,
            (ex <- os.path_exists (posixpath.join dir name) ;;
             if ex then do os.remove (posixpath.join dir name) ;; ret true
             else ret false) w = (Ok removed, w1) →
            os.path_exists (posixpath.join dir name) w1 = (Ok false, w1)
            ∧ (removed = false → w1 = w)) as Hfs.
  { intros dir. set (p := posixpath.join dir name).
    assert (p ≠ "") as Hp by (by apply join_truthy_nonempty).
    unfold bind, ret. rewrite !path_exists_run, (eqb_false_of_ne _ _ Hp). cbn [negb andb].
    destruct (bool_decide (is_Some (lookup_node w (key w p)))) eqn:Hex.
    - destruct (os.remove p w) as [[[] | e] w2] eqn:Hrm; [| done].
      apply remove_inv in Hrm as (-> & Hk & _). intros [= <- <-].
      rewrite key_set_fs, lookup_node_delete by done.
      by rewrite bool_decide_eq_false_2 by (by intros [? ?]).
    - intros [= <- <-]. by rewrite Hex. }
  destruct (String.eqb (storage_type self) "s3").
  - unfold s3_client.delete_object, try_except, bind, modify, ret, raise.
    destruct (s3_client.call w) as [[[] | e] w2] eqn:Hcall.
    2:{ by destruct e. }
    apply s3_call_inv in Hcall as [-> Hf]. intros [= <- <-].
    rewrite head_object_run by done. cbn [s3_objects set_s3].
    by rewrite lookup_delete_eq.
  - destruct (String.eqb (storage_type self) "disk"); apply Hfs.
Qed.

(** X3: when [document_exists] reports [False] for a name,
    [download_document] raises [FileNotFoundError] with the message
    [Document <name> not found], followed by [ in S3] on the object store,
    and changes nothing. *)
Theorem download_of_absent_document (self : StorageAdapter) (name : string)
  (dest : option string) (w : World) :
  (StorageAdapter.document_exists self name w).1 = Ok false →
  StorageAdapter.download_document self name dest w
  = (Raise (FileNotFoundError
              ("Document " ++ name ++ " not found"
               ++ if String.eqb (storage_type self) "s3" then " in S3" else "")),
     w).
Proof.
  unfold StorageAdapter.document_exists, StorageAdapter.download_document.
  destruct (String.eqb (storage_type self) "s3").
  - unfold s3_client.head_object, s3_client.download_file, s3_client.call,
      try_except, bind, gets, ret, raise.
    destruct (s3_fault w) as [code |] eqn:Hf.
    + simpl. destruct (String.eqb code "404"); [done | by intros [=]].
    + destruct (s3_objects w !! name); [by intros [=] | done].
  - rewrite append_nil_r.
    destruct (String.eqb (storage_type self) "disk");
      unfold bind; rewrite path_exists_run; simpl; by intros [= ->].
Qed.

(** What [os.makedirs] changes: directories that were missing on the way
    to the path, and nothing else. *)
Lemma makedirs_go_frame p todo : ∀ done w,
  let w' := (os.makedirs_go p done todo w).2 in
  cwd w' = cwd w ∧ denied w' = denied w
  ∧ s3_objects w' = s3_objects w ∧ s3_fault w' = s3_fault w
  ∧ ∀ k, lookup_node w' k = lookup_node w k
         ∨ (lookup_node w k = None ∧ lookup_node w' k = Some Dir
            ∧ k `prefix_of` (done ++ todo)%list).
Proof.
  induction todo as [| c rest IH]; intros done w; simpl.
  - repeat split; auto.
  - set (k0 := (done ++ [c])%list).
    assert ((done ++ c :: rest)%list = (k0 ++ rest)%list) as Happ
      by (subst k0; by rewrite <- app_assoc).
    rewrite Happ.
    destruct (fs w !! k0) as [[d |] |] eqn:Hk0.
    + simpl. repeat split; auto.
    + apply IH.
    + destruct (bool_decide (done ∈ denied w)); [simpl; repeat split; auto |].
      specialize (IH k0 (set_fs (<[k0 := Dir]>) w)). simpl in IH.
      destruct IH as (Hc & Hd & Ho & Hf & IH). repeat split; auto.
      intros k. assert (k0 ≠ []) as Hne by (subst k0; by destruct done).
      specialize (IH k). rewrite lookup_node_insert in IH by done.
      destruct (decide (k0 = k)) as [<- | Hneq]; [| exact IH].
      assert (lookup_node w k0 = None) as Hnone.
      { unfold lookup_node. by destruct k0. }
      right. destruct IH as [IH | (IH & _)]; [| done].
      repeat split; [done | done |]. by apply prefix_app_r.
Qed.

Lemma makedirs_go_ok p todo : ∀ done w w',
  lookup_node w done = Some Dir →
  os.makedirs_go p done todo w = (Ok tt, w') →
  lookup_node w' (done ++ todo) = Some Dir.
Proof.
  induction todo as [| c rest IH]; intros done w w' Hdone; simpl.
  - intros [= <-]. by rewrite app_nil_r.
  - set (k0 := (done ++ [c])%list).
    assert ((done ++ c :: rest)%list = (k0 ++ rest)%list) as ->
      by (subst k0; by rewrite <- app_assoc).
    assert (k0 ≠ []) as Hne by (subst k0; by destruct done).
    destruct (fs w !! k0) as [[d |] |] eqn:Hk0; [done | |].
    + apply IH. unfold lookup_node. by destruct k0.
    + destruct (bool_decide (done ∈ denied w)); [done |].
      apply IH. by rewrite lookup_node_insert, decide_True.
Qed.

Lemma makedirs_frame p w :
  let w' := (os.makedirs p w).2 in
  cwd w' = cwd w ∧ denied w' = denied w
  ∧ s3_objects w' = s3_objects w ∧ s3_fault w' = s3_fault w
  ∧ ∀ k, lookup_node w' k = lookup_node w k
         ∨ (lookup_node w k = None ∧ lookup_node w' k = Some Dir
            ∧ k `prefix_of` key w p).
Proof.
  unfold os.makedirs. destruct (String.eqb p ""); [simpl; repeat split; auto |].
  apply (makedirs_go_frame p (key w p) [] w).
Qed.

Lemma makedirs_isdir p w w' :
  os.makedirs p w = (Ok tt, w') → os.path_isdir p w' = (Ok true, w').
Proof.
  intros Hm. pose proof (makedirs_frame p w) as (Hc & _). rewrite Hm in Hc. simpl in Hc.
  unfold os.makedirs in Hm. unfold os.path_isdir, gets, key. rewrite Hc.
  destruct (String.eqb p ""); [done |].
  apply makedirs_go_ok in Hm; [| done]. simpl in Hm. unfold key in Hm.
  by rewrite Hm.
Qed.

(** X5: when the constructor returns an adapter, its base URL is the
    [BASE_URL] variable.  An [s3] adapter is chosen only if [s3] was
    preferred, bucket and credentials are configured and creating the client
    did not fail, and then nothing was changed; any other adapter has the
    preferred type or is [local], and its storage directory exists as a
    directory afterwards. *)
Theorem init_selects_usable_backend (env : gmap string string) (a : StorageAdapter)
  (w w' : World) :
  StorageAdapter.__init__ env w = (Ok a, w') →
  base_url a = getenv env "BASE_URL" ""
  ∧ if String.eqb (storage_type a) "s3"
    then preferred env = "s3" ∧ s3_configured env = true
         ∧ s3_fault w = None ∧ w' = w
    else (storage_type a = preferred env ∨ storage_type a = "local")
         ∧ os.path_isdir (if String.eqb (storage_type a) "disk"
                          then disk_path a else local_path a) w'
           = (Ok true, w').
Proof.
  unfold StorageAdapter.__init__. cbn [storage_type]. fold (preferred env).
  set (self := mkStorageAdapter _ _ _ _ _ _ _ _).
  assert (∀ t self0 w0, String.eqb t "s3" = false → String.eqb t "disk" = false →
            (t = preferred env ∨ t = "local") →
            base_url self0 = getenv env "BASE_URL" "" →
            StorageAdapter._init_local env (StorageAdapter.with_storage_type t self0) w0
            = (Ok a, w') →
            base_url a = getenv env "BASE_URL" ""
            ∧ if String.eqb (storage_type a) "s3"
              then preferred env = "s3" ∧ s3_configured env = true
                   ∧ s3_fault w = None ∧ w' = w
              else (storage_type a = preferred env ∨ storage_type a = "local")
                   ∧ os.path_isdir (if String.eqb (storage_type a) "disk"
                                    then disk_path a else local_path a) w'
                     = (Ok true, w')) as Hlocal.
  { intros t self0 w0 H3 Hd Ht Hb. unfold StorageAdapter._init_local, bind, ret.
    destruct (os.makedirs _ w0) as [[[] | e] w1] eqn:Hm; [| done].
    intros [= <- <-]. cbn. rewrite H3, Hd. split; [done |]. split; [done |].
    eapply makedirs_isdir, Hm. }
  destruct (String.eqb (preferred env) "s3") eqn:Hs3.
  - apply String.eqb_eq in Hs3.
    unfold StorageAdapter._init_s3.
    cbn [s3_bucket s3_access_key s3_secret_key StorageAdapter.with_s3].
    fold (s3_configured env).
    destruct (s3_configured env) eqn:Hconf; cbn [negb].
    + unfold try_except, bind, s3_client.head_bucket.
      destruct (s3_client.call w) as [[[] | e] w1] eqn:Hcall.
      * apply s3_call_inv in Hcall as [-> Hf]. unfold ret. intros [= <- <-].
        cbn. rewrite Hs3. by repeat split.
      * intros Hinit. eapply (Hlocal "local" _ w1); [done | done | by right | | exact Hinit].
        done.
    + intros Hinit. eapply (Hlocal "local" _ w); [done | done | by right | | exact Hinit].
      done.
  - destruct (String.eqb (preferred env) "disk") eqn:Hdisk.
    + apply String.eqb_eq in Hdisk.
      unfold StorageAdapter._init_disk, try_except, bind, ret.
      destruct (os.makedirs _ w) as [[[] | e] w1] eqn:Hm.
      * intros [= <- <-]. cbn. rewrite Hdisk. split; [done |]. split; [by left |].
        eapply makedirs_isdir, Hm.
      * destruct e; try done.
        intros Hinit. eapply (Hlocal "local" _ w1); [done | done | by right | | exact Hinit].
        done.
    + intros Hinit. eapply (Hlocal (preferred env) self w); [done | done | by left | done |].
      exact Hinit.
Qed.

Lemma document_exists_world self name w :
  (StorageAdapter.document_exists self name w).2 = w.
Proof.
  unfold StorageAdapter.document_exists, s3_client.head_object, s3_client.call.
  mcases; try done.
Qed.

Lemma write_file_world p d w :
  (os.write_file p d w).2 = w
  ∨ os.write_file p d w = (Ok tt, set_fs (<[key w p := File d]>) w).
Proof.
  unfold os.write_file.
  repeat match goal with
         | |- context [match ?x with _ => _ end] => destruct x
         end; auto.
Qed.

(** What a copy changes: nothing, or the destination, which is not the
    source. *)
Lemma copy2_world src dst w :
  (shutil.copy2 src dst w).2 = w
  ∨ ∃ r d, shutil.copy2 src dst w = (Ok r, set_fs (<[key w r := File d]>) w)
           ∧ key w r ≠ [] ∧ key w src ≠ key w r.
Proof.
  destruct (shutil.copy2 src dst w) as [[r | e] w'] eqn:Hc.
  - right. apply copy2_inv in Hc as (d & _ & -> & Hk & Hne & _). by exists r, d.
  - left. revert Hc. unfold shutil.copy2, os.path_isdir, os.read_file.
    mcases; intros; simplify_eq; try done.
    all: match goal with
         | H : os.write_file ?p ?d ?w0 = _ |- _ =>
             destruct (write_file_world p d w0) as [Hw | Hw]; rewrite H in Hw;
             [exact Hw | discriminate Hw]
         end.
Qed.

(** A fetch writes to the file system only, and not over the stored
    document. *)
Lemma download_document_world self name dest w :
  let w' := (StorageAdapter.download_document self name dest w).2 in
  (∃ f, w' = set_fs f w)
  ∧ ∀ p d, stored_path self name = Some p →
           lookup_node w (key w p) = Some (File d) →
           lookup_node w' (key w p) = Some (File d).
Proof.
  unfold StorageAdapter.download_document, stored_path.
  destruct (String.eqb (storage_type self) "s3").
  - split; [| done].
    unfold s3_client.download_file, s3_client.call, try_except, bind, gets, ret, raise.
    set (target := match dest with Some p => p | None => _ end).
    destruct (s3_fault w) as [code |].
    { exists (λ m, m). rewrite set_fs_id. simpl. by destruct (String.eqb code "404"). }
    destruct (s3_objects w !! name) as [d |];
      [| exists (λ m, m); by rewrite set_fs_id].
    destruct (write_file_world target d w) as [Hw | Hw].
    + exists (λ m, m). rewrite set_fs_id.
      destruct (os.write_file target d w) as [[[] | e] w1]; simpl in *; [done |].
      by destruct e; try destruct (String.eqb _ "404").
    + rewrite Hw. by eexists.
  - assert (∀ dir,
              let source_path := posixpath.join dir name in
              let target := match dest with
                            | Some p => p
                            | None => posixpath.join gettempdir name
                            end in
              let w' := ((ex <- os.path_exists source_path ;;
                          if negb ex
                          then raise (FileNotFoundError ("Document " ++ name ++ " not found"))
                          else do shutil.copy2 source_path target ;; ret target) w).2 in
              (∃ f, w' = set_fs f w)
              ∧ ∀ p d, Some source_path = Some p →
                       lookup_node w (key w p) = Some (File d) →
                       lookup_node w' (key w p) = Some (File d)) as Hdisk.
    { intros dir source_path target. unfold bind, ret, raise. rewrite path_exists_run.
      destruct (negb _); simpl.
      { split; [exists (λ m, m); by rewrite set_fs_id | by intros]. }
      destruct (copy2_world source_path target w) as [Hc | (r & d0 & Hc & Hk & Hne)].
      - destruct (shutil.copy2 _ _ w) as [[r | e] w1]; simpl in *; subst w1;
          (split; [exists (λ m, m); by rewrite set_fs_id | by intros]).
      - rewrite Hc. simpl. split; [by eexists |].
        intros p d [= <-] Hd.
        by rewrite lookup_node_insert, decide_False by done. }
    destruct (String.eqb (storage_type self) "disk"); [apply Hdisk |].
    unfold bind, ret, raise. rewrite path_exists_run.
    destruct (negb _); simpl;
      (split; [exists (λ m, m); by rewrite set_fs_id | by intros]).
Qed.

Lemma held_set_fs self f w name d :
  held self w name = Some d →
  (∀ p d, stored_path self name = Some p →
          lookup_node w (key w p) = Some (File d) →
          lookup_node (set_fs f w) (key w p) = Some (File d)) →
  held self (set_fs f w) name = Some d.
Proof.
  unfold held. intros Hheld Hkeep.
  destruct (stored_path self name) as [p |]; [| done].
  rewrite key_set_fs.
  destruct (lookup_node w (key w p)) as [[d0 |] |] eqn:Hl; [| done | done].
  by rewrite (Hkeep p d0 eq_refl Hl).
Qed.

(** X8: [get_local_path] never changes the object store, and whatever
    content the backend held under the name before the call it still holds
    after it, whether the call returns or raises. *)
Theorem get_local_path_keeps_backend (manager : DocumentManager) (name : string)
  (create_if_missing : bool) (w : World) :
  let w' := (DocumentManager.get_local_path manager name create_if_missing w).2 in
  s3_objects w' = s3_objects w
  ∧ ∀ d, held (storage manager) w name = Some d →
         held (storage manager) w' name = Some d.
Proof.
  unfold DocumentManager.get_local_path, bind.
  pose proof (document_exists_world (storage manager) name w) as Hex.
  destruct (StorageAdapter.document_exists (storage manager) name w) as [[ex | e] w0];
    simpl in Hex; subst w0; [| done].
  destruct ex.
  - pose proof (download_document_world (storage manager) name
                  (Some (posixpath.join (temp_dir manager) name)) w) as [[f Hf] Hkeep].
    destruct (StorageAdapter.download_document _ _ _ w) as [[p | e] w1];
      simpl in *; subst w1; (split; [done |]);
      intros d Hd; by apply held_set_fs.
  - destruct create_if_missing; [| done].
    pose proof (makedirs_frame (posixpath.dirname (posixpath.join (temp_dir manager) name)) w)
      as (Hc & _ & Ho & Hfa & Hk).
    destruct (os.makedirs _ w) as [[[] | e] w1]; simpl in *.
    all: split; [done |]; intros d; unfold held;
      destruct (stored_path (storage manager) name) as [p |]; [| by rewrite Hfa, Ho];
      unfold key; rewrite Hc; fold (key w p);
      destruct (Hk (key w p)) as [-> | (-> & _)]; done.
Qed.

(** ** Fetching into the scratch directory *)


Lemma held_exists (self : StorageAdapter) (name : string) (d : list byte) (w : World) :
  name ≠ "" → held self w name = Some d →
  StorageAdapter.document_exists self name w = (Ok true, w).
Proof.
  intros Hname. unfold held, stored_path, StorageAdapter.document_exists.
  assert (∀ dir, match lookup_node w (key w (posixpath.join dir name)) with
                 | Some (File d0) => Some d0
                 | _ => None
                 end = Some d →
                 os.path_exists (posixpath.join dir name) w = (Ok true, w)) as Hfs.
  { intros dir Hd. rewrite path_exists_run.
    rewrite (eqb_false_of_ne _ _ (join_truthy_nonempty dir name Hname)).
    destruct (lookup_node w _) as [[? |] |]; [| done | done].
    by rewrite bool_decide_eq_true_2 by eauto. }
  destruct (String.eqb (storage_type self) "s3").
  - destruct (s3_fault w) eqn:Hf; [done |]. intros Hd.
    unfold try_except, bind, ret. rewrite head_object_run by done. by rewrite Hd.
  - destruct (String.eqb (storage_type self) "disk"); apply Hfs.
Qed.

Lemma get_local_path_fetch (manager : DocumentManager) (name : string)
  (create_if_missing : bool) (d : list byte) (w : World) :
  name ≠ "" →
  copying (storage manager) = true →
  held (storage manager) w name = Some d →
  dest_ready (storage manager) w name (posixpath.join (temp_dir manager) name) →
  DocumentManager.get_local_path manager name create_if_missing w
  = (Ok (posixpath.join (temp_dir manager) name),
     set_fs (<[key w (posixpath.join (temp_dir manager) name) := File d]>) w).
Proof.
  intros Hname Hcopy Hheld Hready.
  unfold DocumentManager.get_local_path, bind.
  rewrite (held_exists _ _ _ _ Hname Hheld).
  set (lp := posixpath.join (temp_dir manager) name) in *.
  revert Hcopy Hheld Hready.
  unfold copying, held, dest_ready, stored_path, StorageAdapter.download_document.
  destruct (String.eqb (storage_type (storage manager)) "s3").
  - intros _ Hheld Hw.
    unfold s3_client.download_file, s3_client.call, try_except, bind, gets, ret.
    destruct (s3_fault w); [done |]. rewrite Hheld.
    by rewrite write_file_ok.
  - destruct (String.eqb (storage_type (storage manager)) "disk"); [| done].
    intros _ Hheld [Hw Hne].
    set (stored := posixpath.join (disk_path (storage manager)) name) in *.
    destruct (lookup_node w (key w stored)) as [[d0 |] |] eqn:Hl; [| done | done].
    injection Hheld as ->.
    unfold bind, ret. rewrite path_exists_run, Hl.
    rewrite (eqb_false_of_ne stored "") by (by apply join_truthy_nonempty).
    rewrite bool_decide_eq_true_2 by eauto. cbv beta iota delta [negb andb].
    by rewrite (copy2_ok w stored lp d Hl Hw).
Qed.

(** X9: on a copying backend that holds the document, [get_local_path]
    returns the path of the name in the scratch directory, and the file at
    that path then has the stored bytes; the scratch directory must exist
    and the path must not be a directory. *)
Theorem fetch_copies_to_scratch (manager : DocumentManager) (name : string)
  (create_if_missing : bool) (d : list byte) (w : World) :
  let local_path := posixpath.join (temp_dir manager) name in
  name ≠ "" →
  copying (storage manager) = true →
  held (storage manager) w name = Some d →
  dest_ready (storage manager) w name local_path →
  ∃ w',
    DocumentManager.get_local_path manager name create_if_missing w = (Ok local_path, w')
    ∧ os.read_file local_path w' = (Ok d, w').
Proof.
  intros lp Hname Hcopy Hheld Hready.
  eexists. split; [by apply get_local_path_fetch |].
  apply read_back; [done |].
  apply (writable_key_nonempty w).
  revert Hcopy Hready. unfold copying, dest_ready.
  destruct (String.eqb _ "s3"); [done |].
  destruct (String.eqb _ "disk"); [by intros _ [? _] | done].
Qed.

(** ** Serving documents *)


Lemma cleanup_target_plain (self : DocumentManager) (name : string) :
  name ≠ "" →
  cleanup_target self (Some name) = posixpath.join (temp_dir self) name.
Proof.
  intros Hn. unfold cleanup_target. cbn [truthy str_opt].
  by rewrite (eqb_false_of_ne _ _ Hn).
Qed.


Lemma dest_ready_key (self : StorageAdapter) (w : World) (name dest : string) :
  copying self = true → dest_ready self w name dest → key w dest ≠ [].
Proof.
  unfold copying, dest_ready. intros Hc Hr. apply writable_key_nonempty.
  destruct (String.eqb _ "s3"); [done |].
  destruct (String.eqb _ "disk"); [by destruct Hr | done].
Qed.



(** ** The dispatcher, further *)

Section Dispatcher.
Variable TOOL_REGISTRY : list (string * ToolFunc).
Variable BASE_URL : string.
Variable manager : DocumentManager.
Variable py_repr : json → string.

Abbreviation handle :=
  (http_server.handle_mcp_request TOOL_REGISTRY BASE_URL manager py_repr).
Abbreviation request_id_of request := (default JNull (py.dict_get request "id")).

(** X17: a request whose method is not [tools/call] changes neither the file
    system nor the object store; unless the method is [initialize] or
    [tools/list], the answer is the error [-32601] with [Method not found:
    <method>], under the id of the request. *)
Theorem only_calls_change_the_world (request : list (string * json)) (w : World) :
  let method := default JNull (py.dict_get request "method") in
  method ≠ JStr "tools/call" →
  (handle request w).2 = w
  ∧ (method ≠ JStr "initialize" → method ≠ JStr "tools/list" →
     (handle request w).1
     = JDict [("jsonrpc", JStr "2.0"); ("id", request_id_of request);
              ("error", JDict [("code", JInt (-32601));
                               ("message",
                                JStr ("Method not found: " ++ py.str py_repr method))])]).
Proof.
  intros method Hcall.
  assert (∀ s, method ≠ JStr s → py.is_str method s = false) as Hne.
  { intros s Hs. unfold py.is_str. destruct method; try done.
    apply String.eqb_neq. congruence. }
  unfold http_server.handle_mcp_request, http_server.dispatch. fold method.
  rewrite (Hne _ Hcall).
  destruct (py.is_str method "initialize") eqn:Hi.
  { split; [done |]. intros H. by rewrite (Hne _ H) in Hi. }
  destruct (py.is_str method "tools/list") eqn:Hl.
  { split; [done |]. intros _ H. by rewrite (Hne _ H) in Hl. }
  done.
Qed.

(** X18: a [tools/call] whose arguments carry neither [filename] nor
    [source_filename] hands the arguments to the operation unchanged: its
    result comes back as the text content, an exception it raises as the
    error [-32603] with the message of the exception, and the state is the
    one the operation left. *)
Theorem call_without_document_passes_through
  (request params arguments : list (string * json)) (n : string)
  (tool_func : ToolFunc) (w : World) :
  is_tools_call request params →
  py.dict_get params "name" = Some (JStr n) →
  py.dict_get params "arguments" = Some (JDict arguments) →
  py.dict_get_tool TOOL_REGISTRY n = Some tool_func →
  py.dict_get arguments "filename" = None →
  py.dict_get arguments "source_filename" = None →
  handle request w
  = match tool_call tool_func arguments w with
    | (Ok result, w') =>
        (JDict [("jsonrpc", JStr "2.0"); ("id", request_id_of request);
                ("result",
                 (JDict [("content",
                    JList [JDict [("type", JStr "text"); ("text", JStr result)]])]))],
         w')
    | (Raise e, w') =>
        (JDict [("jsonrpc", JStr "2.0"); ("id", request_id_of request);
                ("error", JDict [("code", JInt (-32603));
                                 ("message", JStr (str_exn e))])], w')
    end.
Proof.
  intros Hreq Hn Hargs Htool Hfile Hsource.
  rewrite (handle_tools_call _ _ _ _ _ _ _ Hreq).
  unfold http_server.tools_call, http_server.registry_lookup, py.get, bind, ret.
  rewrite Hn, Hargs, Htool.
  unfold http_server.resolve_filename, http_server.resolve_source_filename,
    py.contains, bind, ret.
  rewrite Hfile, bool_decide_eq_false_2 by (by intros [? ?]). cbv iota beta.
  cbn [http_server.arguments_of].
  rewrite Hsource, bool_decide_eq_false_2 by (by intros [? ?]). cbv iota beta.
  unfold try_finally, bind, http_server.call_tool, http_server.upload_back,
    http_server.cleanup, http_server.local_path_exists, ret.
  cbn [http_server.arguments_of http_server.local_path_of truthy].
  by destruct (tool_call tool_func arguments w) as [[result | e] w'].
Qed.

End Dispatcher.

(** ** Storing back what an operation changed *)



Lemma dict_get_set_ne d k v k' :
  k ≠ k' → py.dict_get (py.dict_set d k v) k' = py.dict_get d k'.
Proof.
  intros Hne. induction d as [| [k0 v0] d IH]; simpl.
  - by rewrite (eqb_false_of_ne _ _ Hne).
  - destruct (String.eqb k0 k) eqn:Hk; simpl.
    + apply String.eqb_eq in Hk as ->. by rewrite (eqb_false_of_ne _ _ Hne).
    + by rewrite IH.
Qed.

Lemma upload_document_ok (self : StorageAdapter) (src name : string) (d : list byte)
  (w : World) :
  lookup_node w (key w src) = Some (File d) →
  backend_ready self w src name →
  ∃ locator,
    StorageAdapter.upload_document self src name w = (Ok locator, put self name d w).
Proof.
  intros Hsrc. unfold backend_ready, put, stored_path, StorageAdapter.upload_document.
  destruct (String.eqb (storage_type self) "s3").
  - intros Hf. unfold s3_client.upload_file, s3_client.call, try_except, bind,
      modify, ret, os.read_file.
    rewrite Hsrc, Hf. by eexists.
  - destruct (String.eqb (storage_type self) "disk"); intros [Hw Hne];
      unfold bind, ret; rewrite (copy2_ok _ _ _ _ Hsrc Hw Hne); by eexists.
Qed.

Lemma held_put (self : StorageAdapter) (src name : string) (d : list byte) (w : World) :
  backend_ready self w src name → held self (put self name d w) name = Some d.
Proof.
  unfold backend_ready, held, put.
  destruct (stored_path self name) as [p |].
  - intros [Hw _]. rewrite key_set_fs.
    rewrite lookup_node_insert by (by apply writable_key_nonempty).
    by rewrite decide_True.
  - intros Hf. cbn [s3_fault s3_objects set_s3]. by rewrite Hf, lookup_insert_eq.
Qed.

Lemma lookup_put_other (self : StorageAdapter) (src name : string) (d : list byte)
  (w : World) :
  backend_ready self w src name →
  key (put self name d w) src = key w src
  ∧ lookup_node (put self name d w) (key w src) = lookup_node w (key w src).
Proof.
  unfold backend_ready, put.
  destruct (stored_path self name) as [p |]; [| done].
  intros [Hw Hne]. split; [done |].
  rewrite lookup_node_insert by (by apply writable_key_nonempty).
  by rewrite decide_False.
Qed.

Lemma held_delete_other (self : StorageAdapter) (name : string) (k : list string)
  (w : World) :
  (∀ p, stored_path self name = Some p → key w p ≠ k) →
  held self (set_fs (delete k) w) name = held self w name.
Proof.
  unfold held. intros Hne.
  destruct (stored_path self name) as [p |]; [| done].
  rewrite key_set_fs. specialize (Hne p eq_refl).
  unfold lookup_node. destruct (key w p) as [| c r]; [done |]. simpl.
  by rewrite lookup_delete_ne.
Qed.

Section StoreBack.
Variable TOOL_REGISTRY : list (string * ToolFunc).
Variable BASE_URL : string.
Variable manager : DocumentManager.
Variable py_repr : json → string.

Abbreviation handle' :=
  (http_server.handle_mcp_request TOOL_REGISTRY BASE_URL manager py_repr).

(** X20: when a [tools/call] on a held document returns and leaves a file at
    the scratch path, the backend then holds the bytes of that file under
    the name (with [.docx] ensured), the text of the answer ends with the
    saved name and the download URL under [BASE_URL] or the default host,
    and the scratch file is gone. *)
Theorem changes_are_stored_back
  (request params arguments : list (string * json)) (n filename result : string)
  (tool_func : ToolFunc) (d d' : list byte) (w w2 : World) :
  let self := storage manager in
  let request_id := default JNull (py.dict_get request "id") in
  let name := posixpath.basename filename in
  let local_path := posixpath.join (temp_dir manager) name in
  let fetched := set_fs (<[key w local_path := File d]>) w in
  is_tools_call request params →
  py.dict_get params "name" = Some (JStr n) →
  py.dict_get params "arguments" = Some (JDict arguments) →
  py.dict_get_tool TOOL_REGISTRY n = Some tool_func →
  py.dict_get arguments "filename" = Some (JStr filename) →
  py.dict_get arguments "source_filename" = None →
  name ≠ "" →
  copying self = true →
  held self w name = Some d →
  dest_ready self w name local_path →
  tool_call tool_func (py.dict_set arguments "filename" (JStr local_path)) fetched
  = (Ok result, w2) →
  cwd w2 = cwd w →
  lookup_node w2 (key w2 local_path) = Some (File d') →
  backend_ready self w2 local_path (saved_as name) →
  ∃ w3,
    handle' request w
    = (JDict [("jsonrpc", JStr "2.0"); ("id", request_id);
              ("result",
               (JDict [("content",
                  JList [JDict [("type", JStr "text");
                                ("text",
                                 JStr (result ++ "

Document saved: " ++ saved_as name ++ "
Download URL: "
                                       ++ (if negb (String.eqb BASE_URL "") then BASE_URL
                                           else "https://office-word-mcp.onrender.com")
                                       ++ "/documents/" ++ urllib.quote (saved_as name)))]])]))],
       w3)
    ∧ held self w3 (saved_as name) = Some d'
    ∧ lookup_node w3 (key w3 local_path) = None.
Proof.
  intros self request_id name lp fetched Hreq Hn Hargs Htool Hfile Hsource Hname
    Hcopy Hheld Hready Hcall Hcwd Hlp Hback.
  assert (filename ≠ "") as Hfilename by (intros ->; by apply Hname).
  assert (lp ≠ "") as Hlpne by (by apply join_truthy_nonempty).
  assert (saved_as name ≠ "") as Hsaved.
  { unfold saved_as. destruct (_ && _); [| done]. by destruct name. }
  assert (key w2 lp = key w lp) as Hkey by (unfold key; by rewrite Hcwd).
  destruct (upload_document_ok self lp (saved_as name) d' w2 Hlp Hback) as [locator Hup].
  destruct (lookup_put_other self lp (saved_as name) d' w2 Hback) as [Hkput Hlput].
  exists (set_fs (delete (key w lp)) (put self (saved_as name) d' w2)).
  split; [| split].
  - rewrite (handle_tools_call _ _ _ _ _ _ _ Hreq). fold request_id.
    unfold http_server.tools_call, http_server.registry_lookup, py.get, bind, ret.
    rewrite Hn, Hargs, Htool.
    unfold http_server.resolve_filename, py.contains, py.getitem, py.basename,
      py.setitem, bind, ret, try_except.
    rewrite Hfile, bool_decide_eq_true_2 by eauto. fold name.
    rewrite (get_local_path_fetch manager name _ d w) by done. fold lp fetched.
    unfold http_server.resolve_source_filename, py.contains, bind, ret.
    cbn [http_server.arguments_of].
    rewrite dict_get_set_ne, Hsource by done.
    rewrite bool_decide_eq_false_2 by (by intros [? ?]). cbv iota beta.
    unfold try_finally, bind, http_server.call_tool.
    cbn [http_server.arguments_of]. rewrite Hcall.
    unfold http_server.upload_back, http_server.local_path_exists, bind, ret.
    cbn [http_server.local_path_of http_server.original_filename_of truthy str_opt].
    rewrite (eqb_false_of_ne _ _ Hlpne), (eqb_false_of_ne _ _ Hfilename). cbn [negb].
    rewrite path_exists_run, (eqb_false_of_ne _ _ Hlpne), Hlp.
    rewrite bool_decide_eq_true_2 by eauto. cbn [negb andb]. fold name.
    change (if negb (String.eqb name "") && negb (Str.endswith name ".docx")
            then name ++ ".docx" else name) with (saved_as name).
    rewrite (eqb_false_of_ne _ _ Hsaved). cbn [negb].
    unfold DocumentManager.save_document, bind, ret. fold self. rewrite Hup.
    unfold http_server.cleanup, http_server.local_path_exists, bind, ret.
    cbn [http_server.local_path_of truthy str_opt].
    rewrite (eqb_false_of_ne _ _ Hlpne). cbn [negb].
    rewrite path_exists_run, (eqb_false_of_ne _ _ Hlpne), Hkput, Hlput, Hlp.
    rewrite bool_decide_eq_true_2 by eauto. cbn [negb andb].
    unfold lp at 1. rewrite (basename_join _ _ (basename_no_slash filename)). fold name.
    rewrite cleanup_temp_run
      by (rewrite cleanup_target_plain by done; by apply join_truthy_nonempty).
    rewrite cleanup_target_plain by done. fold lp.
    rewrite Hkput, Hlput, Hlp. cbn [truthy].
    rewrite (eqb_false_of_ne _ _ Hname). cbn [negb].
    unfold os.remove. rewrite Hkput, Hlput, Hlp. by rewrite Hkey.
  - rewrite held_delete_other; [by apply (held_put self lp) |].
    intros p Hp. revert Hback. unfold backend_ready. rewrite Hp.
    intros [_ Hne]. unfold put. rewrite Hp, key_set_fs, <- Hkey. done.
  - rewrite key_set_fs, Hkput, Hkey. apply lookup_node_delete.
    apply (dest_ready_key self w name lp Hcopy Hready).
Qed.

End StoreBack.

(** ** A missing scratch directory *)

Lemma write_file_no_directory p d w :
  lookup_node w (key w p) = None →
  lookup_node w (removelast (key w p)) = None →
  os.write_file p d w = (Raise (os.ENOENT p), w).
Proof. unfold os.write_file. by intros -> ->. Qed.

Lemma get_local_path_no_scratch (manager : DocumentManager) (name : string)
  (create_if_missing : bool) (d : list byte) (w : World) :
  let local_path := posixpath.join (temp_dir manager) name in
  posixpath.plain name = true →
  copying (storage manager) = true →
  held (storage manager) w name = Some d →
  lookup_node w (key w (temp_dir manager)) = None →
  lookup_node w (key w local_path) = None →
  DocumentManager.get_local_path manager name create_if_missing w
  = (Raise (os.ENOENT local_path), w).
Proof.
  intros lp Hplain Hcopy Hheld Hdir Hnone.
  pose proof (plain_nonempty _ Hplain) as Hname.
  assert (∀ d0, os.write_file lp d0 w = (Raise (os.ENOENT lp), w)) as Hwrite.
  { intros d0. apply write_file_no_directory; [done |].
    unfold key, lp. rewrite resolve_join by done.
    by rewrite removelast_last. }
  unfold DocumentManager.get_local_path, bind.
  rewrite (held_exists _ _ _ _ Hname Hheld). fold lp.
  revert Hcopy Hheld.
  unfold copying, held, stored_path, StorageAdapter.download_document.
  destruct (String.eqb (storage_type (storage manager)) "s3").
  - intros _ Hheld.
    unfold s3_client.download_file, s3_client.call, try_except, bind, gets, ret, raise.
    destruct (s3_fault w); [done |]. by rewrite Hheld, Hwrite.
  - destruct (String.eqb (storage_type (storage manager)) "disk"); [| done].
    intros _ Hheld.
    set (stored := posixpath.join (disk_path (storage manager)) name) in *.
    destruct (lookup_node w (key w stored)) as [[d0 |] |] eqn:Hl; [| done | done].
    injection Hheld as ->.
    unfold bind, ret, raise. rewrite path_exists_run, Hl.
    rewrite (eqb_false_of_ne stored "") by (by apply join_truthy_nonempty).
    rewrite bool_decide_eq_true_2 by eauto. cbv beta iota delta [negb andb].
    unfold shutil.copy2, os.path_isdir, os.read_file, bind, gets, ret, raise.
    rewrite Hnone, andb_false_r, Hl.
    rewrite bool_decide_eq_false_2 by (intros Heq; by rewrite Heq, Hnone in Hl).
    cbn [andb]. by rewrite Hl, Hwrite.
Qed.

Section MissingScratch.
Variable TOOL_REGISTRY : list (string * ToolFunc).
Variable BASE_URL : string.
Variable manager : DocumentManager.
Variable py_repr : json → string.

(** X22: once the scratch directory is gone, as after [cleanup_temp] without
    a name, a [tools/call] of an operation that does not create, on a
    document that a copying backend holds, is answered with the error
    [-32602] and [Document <name> not found], and nothing is changed. *)
Theorem missing_scratch_directory_hides_documents
  (request params arguments : list (string * json)) (n filename : string)
  (tool_func : ToolFunc) (d : list byte) (w : World) :
  let name := posixpath.basename filename in
  is_tools_call request params →
  py.dict_get params "name" = Some (JStr n) →
  py.dict_get params "arguments" = Some (JDict arguments) →
  py.dict_get_tool TOOL_REGISTRY n = Some tool_func →
  http_server.create_if_missing_of n = false →
  py.dict_get arguments "filename" = Some (JStr filename) →
  posixpath.plain name = true →
  copying (storage manager) = true →
  held (storage manager) w name = Some d →
  lookup_node w (key w (temp_dir manager)) = None →
  lookup_node w (key w (posixpath.join (temp_dir manager) name)) = None →
  http_server.handle_mcp_request TOOL_REGISTRY BASE_URL manager py_repr request w
  = (JDict [("jsonrpc", JStr "2.0"); ("id", default JNull (py.dict_get request "id"));
            ("error", JDict [("code", JInt (-32602));
                             ("message", JStr ("Document " ++ name ++ " not found"))])], w).
Proof.
  intros name Hreq Hn Hargs Htool Hcreate Hfile Hplain Hcopy Hheld Hdir Hnone.
  rewrite (handle_tools_call _ _ _ _ _ _ _ Hreq).
  unfold http_server.tools_call, http_server.registry_lookup, py.get, bind, ret.
  rewrite Hn, Hargs, Htool.
  unfold http_server.resolve_filename, py.contains, py.getitem, py.basename,
    bind, ret, try_except.
  rewrite Hfile, bool_decide_eq_true_2 by eauto. fold name.
  by rewrite Hcreate, (get_local_path_no_scratch manager name false d w).
Qed.

End MissingScratch.

(** ** The template *)

Lemma template_path_nonempty env : template_tools.get_template_path env ≠ "".
Proof. unfold template_tools.get_template_path. by apply join_truthy_nonempty. Qed.

(** X14: [clear_template] never raises: it removes a template file and
    reports success, reports that there is no template when there is none,
    and reports a failure when the template path is a directory.  Unless it
    is a directory, [template_exists] is [False] afterwards and a second
    [clear_template] reports that there is no template. *)
Theorem clear_template_clears (env : gmap string string) (w : World) :
  let k := key w (template_tools.get_template_path env) in
  ∃ message w',
    template_tools.clear_template env w = (Ok message, w')
    ∧ match lookup_node w k with
      | Some (File _) =>
          message = "Template cleared successfully" ∧ w' = set_fs (delete k) w
      | Some Dir =>
          Str.startswith message "Failed to clear template: " = true ∧ w' = w
      | None => message = "No template to clear" ∧ w' = w
      end
    ∧ (lookup_node w k ≠ Some Dir →
       template_tools.template_exists env w' = (Ok false, w')
       ∧ template_tools.clear_template env w' = (Ok "No template to clear", w')).
Proof.
  intros k. pose proof (template_path_nonempty env) as Hne.
  assert (∀ w0, key w0 (template_tools.get_template_path env) = k →
                lookup_node w0 k = None →
                template_tools.template_exists env w0 = (Ok false, w0)
                ∧ template_tools.clear_template env w0
                  = (Ok "No template to clear", w0)) as Habsent.
  { intros w0 Hk Hnone.
    unfold template_tools.clear_template, template_tools.template_exists, bind.
    rewrite path_exists_run, (eqb_false_of_ne _ _ Hne), Hk, Hnone.
    by rewrite bool_decide_eq_false_2 by (by intros [? ?]). }
  destruct (lookup_node w k) as [[d |] |] eqn:Hl.
  - exists "Template cleared successfully", (set_fs (delete k) w).
    assert (k ≠ []) as Hk by (intros Hk; by rewrite Hk in Hl).
    split; [| split; [done |]].
    + unfold template_tools.clear_template, bind, try_except, ret.
      rewrite path_exists_run, (eqb_false_of_ne _ _ Hne). fold k. rewrite Hl.
      rewrite bool_decide_eq_true_2 by eauto. cbn [negb andb].
      unfold os.remove. fold k. by rewrite Hl.
    + intros _. apply Habsent; [done |]. by apply lookup_node_delete.
  - unfold template_tools.clear_template, bind, try_except, ret.
    rewrite path_exists_run, (eqb_false_of_ne _ _ Hne). fold k. rewrite Hl.
    rewrite bool_decide_eq_true_2 by eauto. cbn [negb andb].
    unfold os.remove. fold k. rewrite Hl. eexists _, _. by repeat split.
  - exists "No template to clear", w.
    destruct (Habsent w eq_refl Hl) as [Hex Hclear]. by repeat split.
Qed.

(** *** The directory of a joined path *)

Lemma head_raw_app_slash (y n : string) :
  Str.has_slash n = false → posixpath.head_raw (y ++ "/" ++ n) = y ++ "/".
Proof.
  intros Hn. induction y as [| c r IH]; simpl.
  - by rewrite Hn.
  - simpl in IH. rewrite has_slash_app. simpl. by rewrite orb_true_r, IH.
Qed.

Lemma rstrip_slash_decomp (s : string) :
  ∃ t, Str.rstrip_slash t = "" ∧ s = Str.rstrip_slash s ++ t.
Proof.
  induction s as [| c r (t & Ht & IH)]; [by exists "" |].
  simpl. destruct (Str.rstrip_slash r) as [| a r'] eqn:Hr.
  - simpl in IH. subst t. destruct (Str.is_slash c) eqn:Hc.
    + exists (String c r). split; [| done]. simpl. by rewrite Hr, Hc.
    + by exists r.
  - exists t. split; [done |]. simpl in IH |- *. by rewrite <- IH.
Qed.

Lemma finish_walk_slashes (t cur : string) (st : list string) :
  Str.rstrip_slash t = "" →
  posixpath.finish (posixpath.walk t cur st) = posixpath.finish (cur, st).
Proof.
  revert cur st. induction t as [| c r IH]; intros cur st; [done |].
  simpl. destruct (Str.rstrip_slash r) eqn:Hr; [| done].
  destruct (Str.is_slash c); [| done]. intros _.
  rewrite IH by done. unfold posixpath.finish. simpl.
  by unfold posixpath.push at 1.
Qed.

Lemma resolve_rstrip_slash (cwd : list string) (s : string) :
  Str.rstrip_slash s ≠ "" →
  posixpath.resolve cwd (Str.rstrip_slash s) = posixpath.resolve cwd s.
Proof.
  intros Hne. destruct (rstrip_slash_decomp s) as (t & Ht & Hs).
  set (h := Str.rstrip_slash s) in *. clearbody h. subst s.
  unfold posixpath.resolve. rewrite (startswith_app h t Hne), walk_app.
  rewrite (finish_walk_slashes t) by done.
  by destruct (posixpath.walk h _ _).
Qed.

Lemma resolve_dirname_join (cwd : list string) (d n : string) :
  d ≠ "" → posixpath.plain n = true →
  posixpath.resolve cwd (posixpath.dirname (posixpath.join d n))
  = posixpath.resolve cwd d.
Proof.
  intros Hd Hn. pose proof (plain_no_slash _ Hn) as Hs.
  assert (∃ y, posixpath.join d n = y ++ "/" ++ n
               ∧ posixpath.resolve cwd (y ++ "/") = posixpath.resolve cwd d)
    as (y & Hj & Hy).
  { destruct (join_cases d n Hs) as [[_ ?] | [(x & -> & Hj) | (_ & _ & Hj)]]; [done | |].
    - by exists x.
    - exists d. split; [done |]. unfold posixpath.resolve.
      by rewrite (startswith_app d _ Hd), finish_walk_dir_slash. }
  unfold posixpath.dirname. rewrite Hj, (head_raw_app_slash _ _ Hs).
  destruct (Str.rstrip_slash (y ++ "/")) as [| a r] eqn:Hr; [done |].
  rewrite <- Hr, resolve_rstrip_slash by (by rewrite Hr). done.
Qed.

Lemma dirname_join_empty (n : string) :
  Str.has_slash n = false → posixpath.dirname (posixpath.join "" n) = "".
Proof.
  intros Hs. unfold posixpath.join. rewrite (startswith_no_slash _ Hs). simpl.
  unfold posixpath.dirname.
  assert (posixpath.head_raw n = "") as ->; [| done].
  destruct n as [| c r]; [done |]. simpl in *.
  apply orb_false_elim in Hs as [Hc Hr]. by rewrite Hr, Hc.
Qed.

(** Creating the directory of [join d n] creates no directory at
    [join d n] itself. *)
Lemma makedirs_dirname_keeps (d n : string) (w : World) :
  posixpath.plain n = true →
  let p := posixpath.join d n in
  let w' := (os.makedirs (posixpath.dirname p) w).2 in
  cwd w' = cwd w ∧ lookup_node w' (key w p) = lookup_node w (key w p).
Proof.
  intros Hn p w'. subst w'.
  destruct (decide (d = "")) as [-> | Hd].
  - subst p. rewrite dirname_join_empty by (by apply plain_no_slash). done.
  - pose proof (makedirs_frame (posixpath.dirname p) w) as (Hc & _ & _ & _ & Hk).
    split; [done |].
    destruct (Hk (key w p)) as [-> | (_ & _ & Hpre)]; [done |].
    exfalso. revert Hpre. unfold key, p.
    rewrite resolve_dirname_join, resolve_join by done.
    intros Hpre%prefix_length. rewrite length_app in Hpre. simpl in Hpre. lia.
Qed.

Lemma template_path_plain : posixpath.plain template_tools.TEMPLATE_FILENAME = true.
Proof. reflexivity. Qed.

(** Where [shutil.copy2] writes: into a directory given as destination,
    under the base name of the source. *)
Lemma copy2_target src dst w r w' :
  shutil.copy2 src dst w = (Ok r, w') →
  r = match lookup_node w (key w dst) with
      | Some Dir => if String.eqb dst "" then dst
                    else posixpath.join dst (posixpath.basename src)
      | _ => dst
      end.
Proof.
  unfold shutil.copy2, os.path_isdir, bind, gets, ret, raise.
  destruct (bool_decide _ && _); [done |].
  destruct (os.read_file src w) as [[d |] w1]; [| done].
  match goal with
  | |- context [os.write_file ?t d w1] =>
      destruct (os.write_file t d w1) as [[[] | e] w2]; [| done]
  end.
  intros [= <- _].
  destruct (String.eqb dst ""); simpl; [by destruct (lookup_node w (key w dst)) as [[] |] |].
  by destruct (lookup_node w (key w dst)) as [[] |].
Qed.

(** X13: when [set_template_from_file] reports success, the source (with
    [.docx] appended if missing) was a file and is still there with the
    same bytes, [template_exists] returns [True], and the bytes were
    written to the template path, or, when the template path was a
    directory, into that directory under the base name of the source. *)
Theorem set_template_keeps_the_source (env : gmap string string) (name : string)
  (w w' : World) :
  let source := ensure_docx_extension name in
  let template := template_tools.get_template_path env in
  let written :=
    match lookup_node w (key w template) with
    | Some Dir => posixpath.join template (posixpath.basename source)
    | _ => template
    end in
  template_tools.set_template_from_file env name w
  = (Ok ("Template set successfully from " ++ source), w') →
  ∃ d,
    lookup_node w (key w source) = Some (File d)
    ∧ os.read_file written w' = (Ok d, w')
    ∧ template_tools.template_exists env w' = (Ok true, w')
    ∧ os.read_file source w' = (Ok d, w').
Proof.
  intros source template written.
  unfold template_tools.set_template_from_file. fold source template.
  unfold bind, ret, try_except. rewrite path_exists_run.
  destruct (negb _); [intros [= H _]; by simplify_eq/= |].
  pose proof (makedirs_dirname_keeps (template_tools.TEMPLATE_DIR env)
                template_tools.TEMPLATE_FILENAME w template_path_plain) as [Hc Hk].
  pose proof (makedirs_frame (posixpath.dirname template) w) as (_ & _ & _ & _ & Hframe).
  fold (template_tools.get_template_path env) in Hc, Hk. fold template in Hc, Hk.
  destruct (os.makedirs (posixpath.dirname template) w) as [[[] | e] w1];
    [| intros [= H _]; by simplify_eq/=].
  simpl in Hc, Hk, Hframe.
  assert (∀ p, key w1 p = key w p) as Hkey by (intros p; unfold key; by rewrite Hc).
  destruct (shutil.copy2 source template w1) as [[r | e] w2] eqn:Hcopy;
    [| intros [= H _]; by simplify_eq/=].
  intros [= <-].
  pose proof (copy2_target _ _ _ _ _ Hcopy) as Hr0.
  rewrite Hkey, Hk, (eqb_false_of_ne template "" (template_path_nonempty env)) in Hr0.
  fold written in Hr0. subst r.
  apply copy2_inv in Hcopy as (d & Hsrc & -> & Hr & Hne & _).
  rewrite !Hkey in *.
  exists d.
  assert (lookup_node w (key w source) = Some (File d)) as Hsrc0.
  { destruct (Hframe (key w source)) as [Heq | (_ & Hd & _)]; congruence. }
  split; [done |]. split; [| split].
  - by apply read_back.
  - unfold template_tools.template_exists.
    rewrite path_exists_run, (eqb_false_of_ne _ _ (template_path_nonempty env)).
    fold template.
    rewrite key_set_fs, Hkey, lookup_node_insert by done.
    destruct (decide (key w written = key w template)) as [_ | Hother].
    + by rewrite bool_decide_eq_true_2 by eauto.
    + assert (is_Some (lookup_node w1 (key w template))) as Hsome.
      { revert Hother. subst written. rewrite <- Hk.
        destruct (lookup_node w1 (key w template)) as [[] |]; [eauto | eauto | done]. }
      by rewrite bool_decide_eq_true_2.
  - unfold os.read_file. rewrite key_set_fs, Hkey.
    rewrite lookup_node_insert, decide_False by done. by rewrite Hsrc.
Qed.

(** ** Creating documents *)

Section CreateDocumentFacts.
Variable env : gmap string string.
Variable check_file_writeable : string → World → bool * string.
Variable docx_build : list (string * json) → option (list byte) → Res (list byte).
Variable py_repr : json → string.

Abbreviation create_document :=
  (document_tools.create_document env check_file_writeable docx_build py_repr).


(** X15: called with declared parameters and a string [filename],
    [create_document] never raises: it returns a message.  A message
    starting with [Document ] means that the built document was written to
    the file; a message starting with [Cannot create document: ] means that
    nothing was changed. *)
Theorem create_document_reports_in_text (kwargs : list (string * json))
  (filename : string) (w : World) :
  accepted kwargs = true →
  py.dict_get kwargs "filename" = Some (JStr filename) →
  ∃ message w',
    create_document kwargs w = (Ok message, w')
    ∧ (Str.startswith message "Document " = true →
       ∃ template data,
         docx_build kwargs template = Ok data
         ∧ lookup_node w' (key w' (ensure_docx_extension filename)) = Some (File data))
    ∧ (Str.startswith message "Cannot create document: " = true → w' = w).
Proof.
  intros Hacc Hfile. unfold document_tools.create_document.
  fold (accepted kwargs). rewrite Hacc, Hfile. cbn [negb].
  set (f := ensure_docx_extension filename).
  unfold bind at 1. unfold gets at 1.
  destruct (negb (check_file_writeable f w).1).
  { eexists _, _. split; [reflexivity |]. split; [by intros [=] | done]. }
  unfold try_except.
  match goal with |- context [let (_, _) := ?b w in _] => set (body := b) end.
  assert (∀ message w', body w = (Ok message, w') →
            Str.startswith message "Document " = true
            ∧ ∃ template data,
                docx_build kwargs template = Ok data
                ∧ lookup_node w' (key w' f) = Some (File data)) as Hbody.
  { subst body. intros message w'.
    unfold template_tools.template_exists, bind, ret, raise.
    rewrite path_exists_run.
    match goal with
    | |- context [let (_, _) := ?m w in _] => destruct (m w) as [[template | e] w1]
    end; [| done].
    destruct (docx_build kwargs template) as [data | e] eqn:Hbuild; [| done].
    destruct (os.write_file f data w1) as [[[] | e] w2] eqn:Hwrite; [| done].
    rewrite path_exists_run. intros [= <- <-]. split; [done |].
    exists template, data. split; [done |].
    apply write_file_inv in Hwrite as (-> & Hk & _).
    by rewrite key_set_fs, lookup_node_insert, decide_True. }
  destruct (body w) as [[message | e] w'] eqn:Hb.
  - destruct (Hbody _ _ eq_refl) as [Hd Hfile'].
    exists message, w'. split; [done |]. split; [done |].
    intros Hc. destruct message as [| c m]; [done |]. simpl in Hd, Hc.
    destruct (Ascii.eqb c "D") eqn:HD; [| done].
    apply Ascii.eqb_eq in HD as ->. done.
  - eexists _, _. split; [reflexivity |]. split; by intros [=].
Qed.

End CreateDocumentFacts.

Lemma set_fs_insert_insert k v v' w :
  set_fs (<[k := v']>) (set_fs (<[k := v]>) w) = set_fs (<[k := v']>) w.
Proof. unfold set_fs. simpl. f_equal. apply insert_insert_eq. Qed.

Lemma writable_file w p d :
  lookup_node w (key w p) = Some (File d) → writable w p = true.
Proof. unfold writable. by intros ->. Qed.

Section CreateFromTemplate.
Variable env : gmap string string.
Variable check_file_writeable : string → World → bool * string.
Variable docx_build : list (string * json) → option (list byte) → Res (list byte).
Variable py_repr : json → string.

(** X16: when a template file exists, [use_template] is not switched off and
    the target is writable and differs from the template, [create_document]
    builds the document from the bytes of the template, writes it to the
    target and reports the creation with the note [ (using template)],
    followed by the header note. *)
Theorem create_document_uses_the_template (kwargs : list (string * json))
  (filename : string) (t data : list byte) (w : World) :
  let f := ensure_docx_extension filename in
  let template := template_tools.get_template_path env in
  accepted kwargs = true →
  py.dict_get kwargs "filename" = Some (JStr filename) →
  (check_file_writeable f w).1 = true →
  py.truth (default (JBool true) (py.dict_get kwargs "use_template")) = true →
  lookup_node w (key w template) = Some (File t) →
  writable w f = true →
  key w template ≠ key w f →
  docx_build kwargs (Some t) = Ok data →
  document_tools.create_document env check_file_writeable docx_build py_repr kwargs w
  = (Ok ("Document " ++ f ++ " created successfully" ++ " (using template)"
         ++ document_tools.header_note py_repr kwargs),
     set_fs (<[key w f := File data]>) w).
Proof.
  intros f template Hacc Hfile Hcheck Huse Ht Hw Hne Hbuild.
  pose proof (writable_key_nonempty _ _ Hw) as Hk.
  unfold document_tools.create_document.
  fold (accepted kwargs). rewrite Hacc, Hfile. cbn [negb]. fold f.
  unfold bind at 1. unfold gets at 1. rewrite Hcheck. cbn [negb].
  rewrite Huse.
  unfold try_except, template_tools.template_exists, bind, ret.
  rewrite path_exists_run, (eqb_false_of_ne _ _ (template_path_nonempty env)).
  fold template. rewrite Ht, bool_decide_eq_true_2 by eauto. cbn [negb andb].
  rewrite (copy2_ok w template f t Ht Hw Hne).
  rewrite (read_back w (key w f) f t) by done.
  rewrite Hbuild.
  rewrite write_file_ok
    by (apply (writable_file _ _ t);
        by rewrite key_set_fs, lookup_node_insert, decide_True).
  rewrite key_set_fs, set_fs_insert_insert.
  rewrite path_exists_run, (eqb_false_of_ne template "")
    by apply template_path_nonempty.
  rewrite key_set_fs, lookup_node_insert, decide_False by done.
  by rewrite Ht, bool_decide_eq_true_2 by eauto.
Qed.

End CreateFromTemplate.

(** ** The download address *)


Lemma quote_char_ok_all (c : ascii) : quote_char_ok c = true.
Proof.
  destruct c as [[] [] [] [] [] [] [] []]; vm_compute; reflexivity.
Qed.

Lemma unquote_quote (s : string) : urllib.unquote (urllib.quote s) = s.
Proof.
  induction s as [| c r IH]; [done |].
  pose proof (quote_char_ok_all c) as Hc. unfold quote_char_ok in Hc.
  cbn [urllib.quote].
  destruct (urllib.always_safe c || Ascii.eqb c "/").
  - cbn [urllib.unquote]. apply negb_true_iff in Hc. rewrite Hc. by rewrite IH.
  - cbn [urllib.unquote]. cbn [Ascii.eqb Bool.eqb].
    destruct (urllib.hex_value (urllib.hex_digit (nat_of_ascii c / 16))) as [x |];
      [| done].
    destruct (urllib.hex_value (urllib.hex_digit (nat_of_ascii c mod 16))) as [y |];
      [| done].
    apply andb_true_iff in Hc as [[[Hc _]%andb_true_iff _]%andb_true_iff _].
    apply Ascii.eqb_eq in Hc. by rewrite Hc, IH.
Qed.

Lemma has_slash_quote (s : string) :
  Str.has_slash (urllib.quote s) = Str.has_slash s.
Proof.
  induction s as [| c r IH]; [done |].
  pose proof (quote_char_ok_all c) as Hc. unfold quote_char_ok in Hc.
  cbn [urllib.quote].
  destruct (urllib.always_safe c || Ascii.eqb c "/").
  - simpl. by rewrite IH.
  - destruct (urllib.hex_value _) as [x |]; [| done].
    destruct (urllib.hex_value _) as [y |]; [| done].
    apply andb_true_iff in Hc as [[[_ H1]%andb_true_iff H2]%andb_true_iff H3].
    apply negb_true_iff in H1, H2, H3.
    cbn [Str.has_slash]. rewrite H1, H2, H3, IH. done.
Qed.

Lemma remove_all_go_no_slash (q : string) :
  Str.has_slash q = false →
  ∀ fuel, Str.remove_all_go fuel "/documents/" q = q.
Proof.
  induction q as [| c r IH]; intros Hq fuel; destruct fuel as [| fuel]; try done.
  simpl in Hq. apply orb_false_elim in Hq as [Hc Hr].
  cbn [Str.remove_all_go Str.startswith]. unfold Str.is_slash in Hc. rewrite Hc.
  cbn [andb]. by rewrite IH.
Qed.

Lemma documents_route_of_name (q : string) :
  Str.has_slash q = false →
  http_server.documents_route ("/documents/" ++ q) = Some q.
Proof.
  intros Hq. unfold http_server.documents_route.
  assert (String.eqb ("/documents/" ++ q) "/mcp/stream" = false) as -> by done.
  assert (String.eqb ("/documents/" ++ q) "/mcp/tools" = false) as -> by done.
  assert (Str.startswith ("/documents/" ++ q) "/documents/" = true) as ->.
  { simpl. by destruct q. }
  cbn [orb]. f_equal. unfold Str.remove_all.
  cbn [Str.remove_all_go]. 
  assert (Str.startswith ("/documents/" ++ q) "/documents/" = true) as ->.
  { simpl. by destruct q. }
  change (Str.drop (String.length "/documents/") ("/documents/" ++ q)) with q.
  by apply remove_all_go_no_slash.
Qed.

Lemma has_slash_saved_as (name : string) :
  Str.has_slash name = false → Str.has_slash (saved_as name) = false.
Proof.
  intros Hn. unfold saved_as. destruct (_ && _); [| done].
  by rewrite has_slash_app, Hn.
Qed.

(** X23: the path of the download URL that a [tools/call] reports,
    [/documents/] followed by the quoted saved name, is routed by [do_GET]
    to [serve_document], which decodes it back to exactly the saved name. *)
Theorem download_url_names_the_document (filename : string) :
  let name := saved_as (posixpath.basename filename) in
  let path := "/documents/" ++ urllib.quote name in
  ∃ raw,
    http_server.documents_route path = Some raw
    ∧ posixpath.basename (urllib.unquote raw) = name.
Proof.
  intros name path. exists (urllib.quote name).
  assert (Str.has_slash name = false) as Hn
    by apply has_slash_saved_as, basename_no_slash.
  split.
  - apply documents_route_of_name. by rewrite has_slash_quote.
  - rewrite unquote_quote. by apply basename_id.
Qed.

(** ** The storage-sync decorator *)

Lemma download_document_no_new_dirs self name dest :
  preserves no_new_dirs (StorageAdapter.download_document self name dest).
Proof.
  unfold StorageAdapter.download_document, s3_client.download_file, os.path_exists.
  preserve; apply copy2_no_new_dirs.
Qed.

Lemma get_local_path_slot (manager : DocumentManager) (name : string)
  (create_if_missing : bool) (w : World) :
  posixpath.plain name = true →
  let k := key w (posixpath.join (temp_dir manager) name) in
  let w' := (DocumentManager.get_local_path manager name create_if_missing w).2 in
  cwd w' = cwd w ∧ (lookup_node w' k = Some Dir → lookup_node w k = Some Dir).
Proof.
  intros Hplain k. unfold DocumentManager.get_local_path, bind.
  pose proof (document_exists_world (storage manager) name w) as Hex.
  destruct (StorageAdapter.document_exists (storage manager) name w) as [[ex | e] w0];
    simpl in Hex; subst w0; [| done].
  destruct ex.
  - pose proof (download_document_no_new_dirs (storage manager) name
                  (Some (posixpath.join (temp_dir manager) name)) w) as [Hc Hd].
    destruct (StorageAdapter.download_document _ _ _ w) as [[p | e] w1];
      simpl in *; split; auto.
  - destruct create_if_missing; [| done].
    pose proof (makedirs_dirname_keeps (temp_dir manager) name w Hplain) as [Hc Hk].
    destruct (os.makedirs _ w) as [[[] | e] w1]; simpl in *; fold k in Hk;
      split; congruence.
Qed.

(** X11: a tool wrapped by [with_storage_sync] and called with a plain
    document name always returns text, never raises, and leaves no scratch
    file for the name, whatever the tool did; the tool must create no
    directories and the scratch path must not be a directory. *)
Theorem storage_sync_cleans_up (manager : DocumentManager) (tool_name : string)
  (tool_func : ToolFunc) (kwargs : list (string * json)) (name : string) (w : World) :
  let local_path := posixpath.join (temp_dir manager) name in
  py_or (py.dict_get kwargs "filename") (py.dict_get kwargs "source_filename")
  = JStr name →
  posixpath.plain name = true →
  (∀ kw, preserves no_new_dirs (tool_call tool_func kw)) →
  lookup_node w (key w local_path) ≠ Some Dir →
  ∃ text w',
    with_storage_sync manager tool_name tool_func kwargs w = (Ok text, w')
    ∧ lookup_node w' (key w' local_path) = None.
Proof.
  intros lp Hfile Hplain Htool Hslot.
  pose proof (plain_nonempty _ Hplain) as Hname.
  unfold with_storage_sync. rewrite Hfile. cbn [py.truth].
  rewrite (eqb_false_of_ne _ _ Hname). cbn [negb].
  unfold try_finally, try_except.
  match goal with |- context [let (_, _) := ?b w in _] => set (body := b) end.
  assert (cwd (body w).2 = cwd w
          ∧ (lookup_node (body w).2 (key w lp) = Some Dir →
             lookup_node w (key w lp) = Some Dir)) as [Hc Hd].
  { subst body. unfold get_local_path_of, bind.
    pose proof (get_local_path_slot manager name
                  (Str.contains "create" (Str.lower tool_name)
                   || Str.contains "add" (Str.lower tool_name)) w Hplain)
      as [Hc1 Hd1].
    destruct (DocumentManager.get_local_path manager name _ w) as [[p | e] w1] eqn:Hget;
      simpl in Hc1, Hd1; [| done].
    match goal with
    | |- context [tool_call tool_func ?kw w1] =>
        pose proof (Htool kw w1) as [Hc2 Hd2];
        destruct (tool_call tool_func kw w1) as [[result | e] w2]
    end; simpl in Hc2, Hd2.
    2:{ simpl. split; [congruence |]. intros H. apply Hd1, Hd2. exact H. }
    rewrite path_exists_run.
    destruct (negb (String.eqb p "") && _); simpl.
    2:{ split; [congruence |]. intros H. apply Hd1, Hd2. exact H. }
    unfold DocumentManager.save_document, bind, ret.
    pose proof (upload_document_no_new_dirs (storage manager) p
                  (posixpath.basename name) w2) as [Hc3 Hd3].
    destruct (StorageAdapter.upload_document _ _ _ w2) as [[url | e] w3];
      simpl in *; (split; [congruence |]); intros H; apply Hd1, Hd2, Hd3; exact H. }
  assert (∃ text w1, (let (r, w') := body w in
                      match r with
                      | Ok a => (Ok a, w')
                      | Raise e => ret ("Error: " ++ str_exn e) w'
                      end) = (Ok text, w1) ∧ w1 = (body w).2) as (text & w1 & -> & ->).
  { destruct (body w) as [[a | e] w1]; eexists _, _; by split. }
  set (w1 := (body w).2) in *. clearbody w1. clear body.
  assert (key w1 lp = key w lp) as Hkey by (unfold key; by rewrite Hc).
  unfold bind, py.basename, ret.
  rewrite (basename_id _ (plain_no_slash _ Hplain)).
  rewrite cleanup_temp_run
    by (rewrite cleanup_target_plain by done; by apply join_truthy_nonempty).
  rewrite cleanup_target_plain by done. fold lp. rewrite Hkey.
  cbn [truthy]. rewrite (eqb_false_of_ne _ _ Hname). cbn [negb].
  destruct (lookup_node w1 (key w lp)) as [[d |] |] eqn:Hl.
  - unfold os.remove. rewrite Hkey, Hl. eexists _, _. split; [reflexivity |].
    rewrite key_set_fs, Hkey. apply lookup_node_delete.
    intros Hk. by rewrite Hk in Hl.
  - by destruct Hslot; apply Hd.
  - eexists _, _. split; [reflexivity |]. by rewrite Hkey.
Qed.

(** ** The address of a document *)

(** X7: on the [disk] and [local] backends the locator returned by a
    successful [upload_document] is exactly what [get_document_url] returns
    for the same name. *)
Theorem upload_returns_the_document_url (self : StorageAdapter)
  (generate_presigned_url : option string → string → Res string)
  (src name locator : string) (w w1 : World) :
  storage_type self = "disk" ∨ storage_type self = "local" →
  StorageAdapter.upload_document self src name w = (Ok locator, w1) →
  locator = StorageAdapter.get_document_url self generate_presigned_url name.
Proof.
  intros Htype. unfold StorageAdapter.upload_document, StorageAdapter.get_document_url,
    StorageAdapter.get_document_path, StorageAdapter.locator, bind, ret.
  destruct Htype as [-> | ->]; cbn [String.eqb Ascii.eqb Bool.eqb orb];
    destruct (shutil.copy2 _ _ w) as [[r | e] w2]; intros [= <- <-];
    by destruct (negb _).
Qed.

(** ** Only the base name of a document name is used *)

Lemma dict_set_set d k v v' :
  py.dict_set (py.dict_set d k v) k v' = py.dict_set d k v'.
Proof.
  induction d as [| [k0 v0] d IH]; simpl.
  - by rewrite String.eqb_refl.
  - destruct (String.eqb k0 k) eqn:Hk; simpl.
    + by rewrite String.eqb_refl.
    + by rewrite Hk, IH.
Qed.

Lemma dict_get_set_eq d k v : py.dict_get (py.dict_set d k v) k = Some v.
Proof.
  induction d as [| [k0 v0] d IH]; simpl.
  - by rewrite String.eqb_refl.
  - destruct (String.eqb k0 k) eqn:Hk; simpl.
    + by rewrite String.eqb_refl.
    + by rewrite Hk, IH.
Qed.

Lemma basename_idem (f : string) :
  posixpath.basename (posixpath.basename f) = posixpath.basename f.
Proof. apply basename_id, basename_no_slash. Qed.

Lemma basename_ends_with_slash (x : string) :
  posixpath.basename (x ++ "/") = "".
Proof. rewrite <- (append_nil_r (x ++ "/")), append_assoc. by apply basename_app_slash. Qed.

Lemma basename_join_empty (d : string) : posixpath.basename (posixpath.join d "") = "".
Proof.
  unfold posixpath.join. simpl.
  destruct (String.eqb d "") eqn:Hd; simpl.
  - apply String.eqb_eq in Hd as ->. done.
  - destruct (Str.endswith d "/") eqn:He.
    + rewrite append_nil_r. destruct (endswith_slash_inv _ He) as [x ->].
      apply basename_ends_with_slash.
    + apply basename_ends_with_slash.
Qed.

Section BaseName.
Variable TOOL_REGISTRY : list (string * ToolFunc).
Variable BASE_URL : string.
Variable manager : DocumentManager.
Variable py_repr : json → string.


Lemma resolve_filename_base request_id n A f w :
  py.dict_get A "filename" = Some (JStr f) →
  let b := posixpath.basename f in
  let lp := posixpath.join (temp_dir manager) b in
  http_server.resolve_filename manager request_id n
    (JDict (py.dict_set A "filename" (JStr b))) w
  = renamed (Some b)
      (http_server.resolve_filename manager request_id n (JDict A) w)
  ∧ ∀ r w1,
      http_server.resolve_filename manager request_id n (JDict A) w = (Ok (inr r), w1) →
      r = http_server.mkResolved (JDict (py.dict_set A "filename" (JStr lp)))
            (Some f) (Some lp).
Proof.
  intros Hf b lp. subst b lp.
  unfold http_server.resolve_filename, py.contains, py.getitem, py.setitem,
    py.basename, bind, ret, try_except.
  rewrite Hf, dict_get_set_eq, !bool_decide_eq_true_2 by eauto.
  rewrite basename_idem.
  set (b := posixpath.basename f). set (lp := posixpath.join (temp_dir manager) b).
  destruct (DocumentManager.get_local_path manager b _ w) as [[p | e] w1] eqn:Hget.
  - apply get_local_path_is_join in Hget as ->. fold lp. rewrite dict_set_set.
    split; [done |]. by intros r w2 [= <- <-].
  - destruct e; try (split; [done | by intros]).
    destruct (http_server.create_if_missing_of n); [| split; [done | by intros]].
    destruct (DocumentManager.get_local_path manager b true w1) as [[p | e] w2] eqn:Hget2.
    + apply get_local_path_is_join in Hget2 as ->. fold lp. rewrite dict_set_set.
      split; [done |]. by intros r w3 [= <- <-].
    + split; [done | by intros].
Qed.

Lemma resolve_source_base request_id a o o' l w :
  http_server.resolve_source_filename manager request_id
    (http_server.mkResolved a o' l) w
  = renamed o'
      (http_server.resolve_source_filename manager request_id
         (http_server.mkResolved a o l) w)
  ∧ ∀ r w1 A lp,
      http_server.resolve_source_filename manager request_id
        (http_server.mkResolved a o l) w = (Ok (inr r), w1) →
      a = JDict A → py.dict_get A "filename" = Some (JStr lp) →
      http_server.original_filename_of r = o
      ∧ http_server.local_path_of r = l
      ∧ ∃ A', http_server.arguments_of r = JDict A'
              ∧ py.dict_get A' "filename" = Some (JStr lp).
Proof.
  unfold http_server.resolve_source_filename, bind, ret, try_except.
  cbn [http_server.arguments_of http_server.original_filename_of
         http_server.local_path_of].
  destruct (py.contains "source_filename" a w) as [[has | e] w0] eqn:Hhas;
    [| split; [done | by intros]].
  destruct has.
  2:{ split; [done |]. intros r w1 A lp [= <- <-] -> HA. simpl. eauto. }
  destruct (py.getitem a "source_filename" w0) as [[source | e] w1];
    [| split; [done | by intros]].
  destruct (py.basename source w1) as [[sb | e] w2]; [| split; [done | by intros]].
  destruct (DocumentManager.get_local_path manager sb false w2) as [[p | e] w3].
  - destruct (py.setitem a "source_filename" (JStr p) w3) as [[a' | e] w4] eqn:Hset.
    2:{ destruct e; split; try done; by intros. }
    split; [done |]. intros r w5 A lp [= <- <-] -> HA. simpl.
    repeat split. unfold py.setitem, ret in Hset. injection Hset as <- <-.
    eexists. split; [done |]. by rewrite dict_get_set_ne.
  - destruct e; split; try done; by intros.
Qed.

Lemma effective_name (f lp : string) (A : list (string * json)) (o : option string)
  (w : World) :
  let b := posixpath.basename f in
  lp = posixpath.join (temp_dir manager) b →
  py.dict_get A "filename" = Some (JStr lp) →
  o = Some f ∨ o = Some b →
  (if truthy o
   then ret (posixpath.basename (str_opt o))
   else v <- py.get (JDict A) "filename" (JStr "") ;; py.basename v) w
  = (Ok b, w).
Proof.
  intros b Hlp HA Ho.
  assert (truthy o = false → (Ok (posixpath.basename lp), w) = (Ok b, w)) as Helse.
  { intros Ht. f_equal. f_equal.
    assert (b = "") as Hb.
    { destruct Ho as [-> | ->]; simpl in Ht; apply negb_false_iff, String.eqb_eq in Ht;
        [by subst | done]. }
    rewrite Hlp, Hb. apply basename_join_empty. }
  destruct (truthy o) eqn:Ht.
  - unfold ret. destruct Ho as [-> | ->]; simpl; [done |]. unfold b.
    by rewrite basename_idem.
  - unfold py.get, py.basename, bind, ret. rewrite HA. by apply Helse.
Qed.

Lemma bind_ext {A B} (m m' : M A) (k : A → M B) (w : World) :
  m w = m' w → bind m k w = bind m' k w.
Proof. unfold bind. by intros ->. Qed.

Lemma bind_ext_r {A B} (m : M A) (k k' : A → M B) (w : World) :
  (∀ a w', k a w' = k' a w') → bind m k w = bind m k' w.
Proof. intros Hk. unfold bind. destruct (m w) as [[a | e] w']; [apply Hk | done]. Qed.

Lemma upload_back_base (f lp : string) (A : list (string * json)) (o : option string)
  (result : string) (w : World) :
  let b := posixpath.basename f in
  lp = posixpath.join (temp_dir manager) b →
  py.dict_get A "filename" = Some (JStr lp) →
  o = Some f ∨ o = Some b →
  http_server.upload_back BASE_URL manager
    (http_server.mkResolved (JDict A) o (Some lp)) result w
  = http_server.upload_back BASE_URL manager
      (http_server.mkResolved (JDict A) (Some b) (Some lp)) result w.
Proof.
  intros b Hlp HA Ho. unfold http_server.upload_back.
  cbn [http_server.arguments_of http_server.original_filename_of
         http_server.local_path_of].
  apply bind_ext_r. intros ex w1. destruct ex; [| done].
  apply bind_ext.
  rewrite (effective_name f lp A o w1 Hlp HA Ho).
  by rewrite (effective_name f lp A (Some b) w1 Hlp HA (or_intror eq_refl)).
Qed.

(** X19: a [tools/call] with a string [filename] is answered exactly as the
    same call with the file name replaced by its base name: the directory
    part of the given name plays no role, neither in the response nor in the
    resulting state. *)
Theorem only_the_base_name_is_used (request_id : json) (n : json)
  (arguments : list (string * json)) (filename : string) (w : World) :
  py.dict_get arguments "filename" = Some (JStr filename) →
  http_server.tools_call TOOL_REGISTRY BASE_URL manager py_repr request_id
    (JDict [("name", n); ("arguments", JDict arguments)]) w
  = http_server.tools_call TOOL_REGISTRY BASE_URL manager py_repr request_id
      (JDict [("name", n);
              ("arguments",
               JDict (py.dict_set arguments "filename"
                        (JStr (posixpath.basename filename))))]) w.
Proof.
  intros Hf.
  unfold http_server.tools_call, py.get. cbn [py.dict_get String.eqb Ascii.eqb Bool.eqb].
  cbv beta iota delta [bind ret try_finally].
  destruct (http_server.registry_lookup TOOL_REGISTRY n w)
    as [[[[name tool_func] |] | e] w0]; [| done | done].
  destruct (resolve_filename_base request_id name arguments filename w0 Hf)
    as [-> Hr1].
  destruct (http_server.resolve_filename manager request_id name (JDict arguments) w0)
    as [[[early | r1] | e] w1]; [done | | done].
  rewrite (Hr1 r1 w1 eq_refl). cbn [renamed http_server.arguments_of
                                     http_server.local_path_of].
  set (b := posixpath.basename filename).
  set (lp := posixpath.join (temp_dir manager) b).
  set (A1 := py.dict_set arguments "filename" (JStr lp)).
  destruct (resolve_source_base request_id (JDict A1) (Some filename) (Some b)
              (Some lp) w1) as [-> Hr2].
  destruct (http_server.resolve_source_filename manager request_id
              (http_server.mkResolved (JDict A1) (Some filename) (Some lp)) w1)
    as [[[early | r2] | e] w2] eqn:Hres; [done | | done].
  destruct (Hr2 r2 w2 A1 lp eq_refl eq_refl (dict_get_set_eq _ _ _))
    as (Ho & Hl & A2 & Ha & HA2).
  destruct r2 as [a2 o2 l2]. simpl in Ho, Hl, Ha. subst a2 o2 l2.
  cbn [renamed http_server.arguments_of http_server.local_path_of].
  destruct (http_server.call_tool tool_func (JDict A2) w2) as [[result | e] w3]; [| done].
  by rewrite (upload_back_base filename lp A2 (Some filename) result w3 eq_refl HA2
                (or_introl eq_refl)).
Qed.

End BaseName.

(** ** Failures of the construction *)

(** X6: the constructor raises, and no adapter is built, when creating the
    volume directory fails with anything but a [PermissionError], or when
    creating the local directory fails, whether [local] was selected
    directly or as the fallback of a failed preferred backend. *)
Theorem init_failures_propagate (env : gmap string string) (e : exn) (w w1 : World) :
  (preferred env = "disk" ∧ (∀ m, e ≠ PermissionError m)
   ∧ os.makedirs (mount_dir env) w = (Raise e, w1))
  ∨ (preferred env ≠ "s3" ∧ preferred env ≠ "disk"
     ∧ os.makedirs (documents_dir env) w = (Raise e, w1))
  ∨ (∃ w0, preferred_fails env w w0
           ∧ os.makedirs (documents_dir env) w0 = (Raise e, w1)) →
  StorageAdapter.__init__ env w = (Raise e, w1).
Proof.
  unfold StorageAdapter.__init__. cbn [storage_type]. fold (preferred env).
  intros [(Hp & He & Hm) | [(H3 & Hd & Hm) | (w0 & Hfail & Hm)]].
  - rewrite Hp. cbn [String.eqb Ascii.eqb Bool.eqb].
    unfold StorageAdapter._init_disk, try_except, bind. fold (mount_dir env).
    rewrite Hm. destruct e; try done. by destruct (He msg).
  - rewrite (eqb_false_of_ne _ _ H3), (eqb_false_of_ne _ _ Hd).
    unfold StorageAdapter._init_local, bind. fold (documents_dir env). by rewrite Hm.
  - destruct Hfail as [Hp Hc | code Hp Hf | message w0 Hp Hm0]; rewrite Hp;
      cbn [String.eqb Ascii.eqb Bool.eqb].
    + unfold StorageAdapter._init_s3.
      cbn [s3_bucket s3_access_key s3_secret_key StorageAdapter.with_s3].
      fold (s3_configured env). rewrite Hc. cbn [negb].
      unfold StorageAdapter._init_local, bind. fold (documents_dir env). by rewrite Hm.
    + unfold StorageAdapter._init_s3.
      cbn [s3_bucket s3_access_key s3_secret_key StorageAdapter.with_s3].
      fold (s3_configured env).
      destruct (s3_configured env); cbn [negb].
      * unfold try_except, bind, s3_client.head_bucket, s3_client.call. rewrite Hf.
        unfold StorageAdapter._init_local, bind. fold (documents_dir env).
        by rewrite Hm.
      * unfold StorageAdapter._init_local, bind. fold (documents_dir env).
        by rewrite Hm.
    + unfold StorageAdapter._init_disk, try_except, bind. fold (mount_dir env).
      rewrite Hm0.
      unfold StorageAdapter._init_local, bind. fold (documents_dir env). by rewrite Hm.
Qed.

(** ** Documents are independent of one another *)

Lemma stored_key_ne (self : StorageAdapter) (n1 n2 p1 p2 : string) (w : World) :
  posixpath.plain n1 = true → posixpath.plain n2 = true → n1 ≠ n2 →
  stored_path self n1 = Some p1 → stored_path self n2 = Some p2 →
  key w p1 ≠ key w p2.
Proof.
  intros H1 H2 Hne. unfold stored_path, key.
  destruct (String.eqb (storage_type self) "s3"); [done |].
  destruct (String.eqb (storage_type self) "disk"); intros [= <-] [= <-];
    rewrite !resolve_join by done; intros [_ ?]%app_inj_tail; done.
Qed.

Lemma held_insert_other (self : StorageAdapter) (name : string) (k : list string)
  (v : node) (w : World) :
  k ≠ [] →
  (∀ p, stored_path self name = Some p → key w p ≠ k) →
  held self (set_fs (<[k := v]>) w) name = held self w name.
Proof.
  unfold held. intros Hk Hne.
  destruct (stored_path self name) as [p |]; [| done].
  rewrite key_set_fs. specialize (Hne p eq_refl).
  rewrite lookup_node_insert by done. by rewrite decide_False.
Qed.

(** X4: uploading or deleting a document under a plain name leaves the
    content that the backend holds under every other plain name as it was,
    provided the stored path of the document is not a directory. *)
Theorem documents_are_independent (self : StorageAdapter) (name other : string)
  (w : World) :
  posixpath.plain name = true → posixpath.plain other = true → name ≠ other →
  (∀ p, stored_path self name = Some p → lookup_node w (key w p) ≠ Some Dir) →
  (∀ src locator w1,
     StorageAdapter.upload_document self src name w = (Ok locator, w1) →
     held self w1 other = held self w other)
  ∧ (∀ removed w1,
       StorageAdapter.delete_document self name w = (Ok removed, w1) →
       held self w1 other = held self w other).
Proof.
  intros Hn Ho Hne Hnodir. split.
  - intros src locator w1. unfold StorageAdapter.upload_document.
    destruct (stored_path self name) as [p |] eqn:Hp.
    + pose proof Hp as Hp'. revert Hp'. unfold stored_path.
      destruct (String.eqb (storage_type self) "s3") eqn:H3; [done |].
      assert (∀ dir, Some (posixpath.join dir name) = Some p →
                (do shutil.copy2 src (posixpath.join dir name) ;;
                 ret (StorageAdapter.locator self name (posixpath.join dir name))) w
                = (Ok locator, w1) →
                held self w1 other = held self w other) as Hfs.
      { intros dir [= Hdir]. rewrite Hdir. unfold bind, ret.
        destruct (shutil.copy2 src p w) as [[r | e] w2] eqn:Hcopy; [| done].
        intros [= _ <-].
        apply copy2_inv in Hcopy as (d & _ & -> & Hk & _ & [-> | Hd]);
          [| by destruct (Hnodir p)].
        apply held_insert_other; [done |].
        intros p2 Hp2. apply not_eq_sym.
        by apply (stored_key_ne self name other p p2). }
      destruct (String.eqb (storage_type self) "disk"); apply Hfs.
    + revert Hp. unfold stored_path, held, stored_path.
      destruct (String.eqb (storage_type self) "s3");
        [| by destruct (String.eqb (storage_type self) "disk")].
      intros _. unfold try_except, bind, ret.
      destruct (s3_client.upload_file src name w) as [[[] | e] w2] eqn:Hup.
      2:{ destruct e; simpl; intros [=]. }
      apply upload_file_inv in Hup as (d & _ & Hf & ->). intros [= _ <-].
      cbn [s3_fault s3_objects set_s3]. by rewrite lookup_insert_ne.
  - intros removed w1. unfold StorageAdapter.delete_document.
    destruct (stored_path self name) as [p |] eqn:Hp.
    + pose proof Hp as Hp'. revert Hp'. unfold stored_path.
      destruct (String.eqb (storage_type self) "s3") eqn:H3; [done |].
      assert (∀ dir, Some (posixpath.join dir name) = Some p →
                (ex <- os.path_exists (posixpath.join dir name) ;;
                 if ex then do os.remove (posixpath.join dir name) ;; ret true
                 else ret false) w = (Ok removed, w1) →
                held self w1 other = held self w other) as Hfs.
      { intros dir [= Hdir]. rewrite Hdir. unfold bind, ret. rewrite path_exists_run.
        destruct (negb _ && _); [| by intros [= _ <-]].
        destruct (os.remove p w) as [[[] | e] w2] eqn:Hrm; [| done].
        apply remove_inv in Hrm as (-> & Hk & _). intros [= _ <-].
        apply held_delete_other. intros p2 Hp2. apply not_eq_sym.
        by apply (stored_key_ne self name other p p2). }
      destruct (String.eqb (storage_type self) "disk"); apply Hfs.
    + revert Hp. unfold stored_path, held, stored_path.
      destruct (String.eqb (storage_type self) "s3");
        [| by destruct (String.eqb (storage_type self) "disk")].
      intros _. unfold s3_client.delete_object, try_except, bind, modify, ret, raise.
      destruct (s3_client.call w) as [[[] | e] w2] eqn:Hcall.
      2:{ by destruct e. }
      apply s3_call_inv in Hcall as [-> Hf]. intros [= _ <-].
      cbn [s3_fault s3_objects set_s3]. by rewrite lookup_delete_ne.
Qed.

(** ** A path for a document that does not exist yet *)

(** X10: with [create_if_missing] set and a plain name that the backend
    lacks, a [get_local_path] that returns gives the path of the name in the
    scratch directory, with that directory in place; it has created or
    changed no file and left the object store alone. *)
Theorem missing_document_gets_a_fresh_path (manager : DocumentManager) (name p : string)
  (w w' : World) :
  let local_path := posixpath.join (temp_dir manager) name in
  posixpath.plain name = true →
  (StorageAdapter.document_exists (storage manager) name w).1 = Ok false →
  DocumentManager.get_local_path manager name true w = (Ok p, w') →
  p = local_path
  ∧ os.path_isdir (posixpath.dirname local_path) w' = (Ok true, w')
  ∧ lookup_node w' (key w' local_path) = lookup_node w (key w local_path)
  ∧ (∀ k d, lookup_node w' k = Some (File d) ↔ lookup_node w k = Some (File d))
  ∧ s3_objects w' = s3_objects w.
Proof.
  intros lp Hplain Hex. unfold DocumentManager.get_local_path, bind.
  pose proof (document_exists_world (storage manager) name w) as Hw.
  destruct (StorageAdapter.document_exists (storage manager) name w) as [[ex | e] w0];
    simpl in Hex, Hw; subst w0; [| done].
  injection Hex as ->. fold lp.
  pose proof (makedirs_dirname_keeps (temp_dir manager) name w Hplain) as [Hc Hk].
  pose proof (makedirs_frame (posixpath.dirname lp) w) as (_ & _ & Ho & _ & Hframe).
  fold lp in Hc, Hk.
  destruct (os.makedirs (posixpath.dirname lp) w) as [[[] | e] w1] eqn:Hm; [| done].
  simpl in Hc, Hk, Hframe, Ho. unfold ret. intros [= <- <-].
  split; [done |]. split; [by apply (makedirs_isdir _ w) |].
  split; [unfold key in *; by rewrite Hc |]. split; [| done].
  intros k d. destruct (Hframe k) as [-> | (Hn & Hd & _)]; [done |].
  rewrite Hn, Hd. by split.
Qed.

(** ** The decorator and a missing document *)

(** X12: when the name of the wrapped tool contains neither [create] nor
    [add], the backend lacks the document and the scratch path of the name
    is not a directory, [with_storage_sync] returns the text
    [Error: Document <name> not found] without calling the tool; the only
    change is that of its [finally] clause: a scratch file left under the
    name is removed, and where there is none nothing changes. *)
Theorem storage_sync_reports_a_missing_document (manager : DocumentManager)
  (tool_name : string) (tool_func : ToolFunc) (kwargs : list (string * json))
  (name : string) (w : World) :
  let local_path := posixpath.join (temp_dir manager) name in
  py_or (py.dict_get kwargs "filename") (py.dict_get kwargs "source_filename")
  = JStr name →
  posixpath.plain name = true →
  Str.contains "create" (Str.lower tool_name) = false →
  Str.contains "add" (Str.lower tool_name) = false →
  (StorageAdapter.document_exists (storage manager) name w).1 = Ok false →
  lookup_node w (key w local_path) ≠ Some Dir →
  with_storage_sync manager tool_name tool_func kwargs w
  = (Ok ("Error: Document " ++ name ++ " not found"),
     set_fs (delete (key w local_path)) w)
  ∧ (lookup_node w (key w local_path) = None
     → set_fs (delete (key w local_path)) w = w).
Proof.
  intros lp Hfile Hplain Hcreate Hadd Hex Hslot.
  pose proof (plain_nonempty _ Hplain) as Hname.
  assert (lookup_node w (key w lp) = None → set_fs (delete (key w lp)) w = w) as Hsame.
  { intros Hl. unfold lookup_node in Hl. destruct (key w lp) as [| c k]; [done |].
    destruct w as [m ? ? ? ?]. unfold set_fs. simpl in *. f_equal.
    by apply delete_id. }
  split; [| done].
  unfold with_storage_sync. rewrite Hfile. cbn [py.truth].
  rewrite (eqb_false_of_ne _ _ Hname). cbn [negb].
  rewrite Hcreate, Hadd. cbn [orb].
  unfold try_finally, try_except, get_local_path_of.
  unfold bind at 1. rewrite (get_local_path_absent manager name w Hex).
  rewrite document_exists_world.
  unfold bind, py.basename, ret. cbn [str_exn].
  rewrite (basename_id _ (plain_no_slash _ Hplain)).
  rewrite cleanup_temp_run
    by (rewrite cleanup_target_plain by done; by apply join_truthy_nonempty).
  rewrite cleanup_target_plain by done. fold lp.
  cbn [truthy]. rewrite (eqb_false_of_ne _ _ Hname). cbn [negb].
  destruct (lookup_node w (key w lp)) as [[d |] |] eqn:Hl.
  - unfold os.remove. by rewrite Hl.
  - done.
  - by rewrite Hsame.
Qed.


(** ** The input schema *)

Section SchemaFacts.
Variable describe : string → string → option string.

Lemma dict_set_fresh d k v :
  k ∉ d.*1 → py.dict_set d k v = (d ++ [(k, v)])%list.
Proof.
  induction d as [| [k0 v0] d IH]; [done |]. simpl.
  intros [Hne Hd]%not_elem_of_cons.
  by rewrite (eqb_false_of_ne k0 k), IH by done.
Qed.

Lemma schema_loop_spec parameters docstring : ∀ properties required,
  NoDup (properties.*1 ++ map http_server.param_name (described parameters)) →
  http_server.schema_loop describe parameters docstring properties required
  = ((properties
      ++ map (λ p, (http_server.param_name p,
                    http_server.prop_schema describe p docstring))
           (described parameters))%list,
     (required
      ++ map (λ p, JStr (http_server.param_name p))
           (List.filter (λ p, negb (http_server.param_has_default p))
              (described parameters)))%list).
Proof.
  induction parameters as [| p rest IH]; intros properties required Hnd; simpl.
  - by rewrite !app_nil_r.
  - unfold described in *. simpl in Hnd |- *.
    destruct (String.eqb (http_server.param_name p) "self"); simpl in *.
    + by apply IH.
    + apply NoDup_app in Hnd as (Hp & Hdisj & Hrest).
      apply NoDup_cons in Hrest as [Hfresh Hrest].
      assert (http_server.param_name p ∉ properties.*1) as Hnew.
      { intros Hin. apply (Hdisj _ Hin). by left. }
      rewrite (dict_set_fresh _ _ _ Hnew).
      rewrite IH.
      * rewrite <- !app_assoc. simpl.
        destruct (http_server.param_has_default p); simpl; [done |].
        by rewrite <- app_assoc.
      * rewrite fmap_app. simpl. rewrite <- app_assoc. simpl.
        apply NoDup_app. split; [done |]. split.
        -- intros x Hx [-> | Hin]%elem_of_cons; [done |].
           apply (Hdisj x Hx). by right.
        -- by apply NoDup_cons.
Qed.

Lemma dict_get_app_none d l k :
  py.dict_get d k = None → py.dict_get (d ++ l) k = py.dict_get l k.
Proof.
  induction d as [| [k0 v0] d IH]; [done |]. simpl.
  destruct (String.eqb k0 k); [by intros [=] | apply IH].
Qed.

Lemma type_entries_spec (a : http_server.annotation) :
  ∃ t rest, http_server.type_entries a = ("type", JStr t) :: rest
            ∧ t ∈ json_types
            ∧ py.dict_get rest "description" = None.
Proof.
  assert (∀ t rest, t ∈ json_types → py.dict_get rest "description" = None →
            ∃ t' rest', ("type", JStr t) :: rest = ("type", JStr t') :: rest'
                        ∧ t' ∈ json_types
                        ∧ py.dict_get rest' "description" = None) as Hok
    by (intros t rest ? ?; by exists t, rest).
  unfold http_server.type_entries, json_types in *.
  destruct a; try (apply Hok; [| done]).
  all: try match goal with |- context [?b || ?c] => destruct (b || c) end;
    try (apply Hok; [| done]).
  all: by repeat constructor.
Qed.

(** X26: for a signature with distinct parameter names, the input schema is
    an object schema whose properties are exactly the parameters other than
    [self], in order, each with a JSON type and a description; [required]
    lists the parameters without a default and is left out when there is
    none. *)
Theorem tool_schema_lists_the_parameters
  (parameters : list http_server.parameter) (doc : option string) :
  let names := map http_server.param_name (described parameters) in
  let required :=
    map http_server.param_name
      (List.filter (λ p, negb (http_server.param_has_default p))
         (described parameters)) in
  NoDup names →
  ∃ properties,
    http_server._get_tool_schema describe parameters doc
    = JDict ([("type", JStr "object"); ("properties", JDict properties)]
             ++ match required with
                | [] => []
                | _ => [("required", JList (map JStr required))]
                end)%list
    ∧ properties.*1 = names
    ∧ Forall (λ entry,
                ∃ fields t, entry.2 = JDict fields
                            ∧ py.dict_get fields "type" = Some (JStr t)
                            ∧ t ∈ json_types
                            ∧ is_Some (py.dict_get fields "description"))
        properties.
Proof.
  intros names required Hnd.
  unfold http_server._get_tool_schema.
  rewrite schema_loop_spec by done. simpl.
  eexists. split; [| split].
  - f_equal. f_equal. f_equal. subst required.
    rewrite map_map. by destruct (List.filter _ _).
  - subst names. rewrite <- list_fmap_compose. done.
  - apply Forall_fmap, Forall_true. intros p. simpl.
    unfold http_server.prop_schema.
    set (a := http_server.unwrap_optional _).
    destruct (type_entries_spec a) as (t & rest & -> & Ht & Hr).
    eexists _, t. split; [reflexivity |]. split; [done |]. split; [done |].
    simpl.
    rewrite dict_get_app_none by done.
    unfold http_server.description_entries.
    repeat (destruct (String.eqb _ _); [simpl; eauto |]). simpl. eauto.
Qed.

End SchemaFacts.


(** A document put on the mounted volume is found there. *)
Lemma upload_then_exists_witness :
  let out := StorageAdapter.upload_document Sample.disk_adapter
               "/tmp/doc_edit_k3x9/a.docx" "a.docx" scratch_world in
  StorageAdapter.document_exists Sample.disk_adapter "a.docx" out.2 = (Ok true, out.2).
Proof.
  apply (upload_then_exists Sample.disk_adapter "/tmp/doc_edit_k3x9/a.docx" "a.docx"
           "/mnt/disk/documents/a.docx" scratch_world).
  - discriminate.
  - vm_compute. reflexivity.
Defined.

(** A document deleted from the object store is no longer found. *)
Lemma delete_then_absent_witness :
  let out := StorageAdapter.delete_document Sample.s3_adapter "existing.docx"
               Sample.stocked_world in
  StorageAdapter.document_exists Sample.s3_adapter "existing.docx" out.2
  = (Ok false, out.2)
  ∧ (true = false → out.2 = Sample.stocked_world).
Proof.
  apply (delete_then_absent Sample.s3_adapter "existing.docx" true Sample.stocked_world).
  - discriminate.
  - vm_compute. reflexivity.
Defined.

(** Fetching a document that the object store lacks. *)
Lemma download_of_absent_document_witness :
  StorageAdapter.download_document Sample.s3_adapter "missing.docx"
    (Some "/tmp/doc_edit_k3x9/missing.docx") Sample.stocked_world
  = (Raise (FileNotFoundError "Document missing.docx not found in S3"),
     Sample.stocked_world).
Proof.
  apply (download_of_absent_document Sample.s3_adapter "missing.docx"
           (Some "/tmp/doc_edit_k3x9/missing.docx") Sample.stocked_world).
  vm_compute. reflexivity.
Defined.

(** Putting or deleting [a.docx] on the mounted volume leaves
    [existing.docx] alone. *)
Lemma documents_are_independent_witness :
  (∀ src locator w1,
     StorageAdapter.upload_document Sample.disk_adapter src "a.docx" Sample.stocked_world
     = (Ok locator, w1) →
     held Sample.disk_adapter w1 "existing.docx"
     = held Sample.disk_adapter Sample.stocked_world "existing.docx")
  ∧ (∀ removed w1,
       StorageAdapter.delete_document Sample.disk_adapter "a.docx" Sample.stocked_world
       = (Ok removed, w1) →
       held Sample.disk_adapter w1 "existing.docx"
       = held Sample.disk_adapter Sample.stocked_world "existing.docx").
Proof.
  apply (documents_are_independent Sample.disk_adapter "a.docx" "existing.docx"
           Sample.stocked_world).
  - reflexivity.
  - reflexivity.
  - discriminate.
  - intros p [= <-]. vm_compute. discriminate.
Defined.

(** The default configuration on the empty sample machine selects the
    mounted volume. *)
Lemma init_selects_usable_backend_witness :
  let out := StorageAdapter.__init__ default_env Sample.empty_world in
  base_url Sample.disk_adapter = getenv default_env "BASE_URL" ""
  ∧ (storage_type Sample.disk_adapter = preferred default_env
     ∨ storage_type Sample.disk_adapter = "local")
    ∧ os.path_isdir (disk_path Sample.disk_adapter) out.2 = (Ok true, out.2).
Proof.
  apply (init_selects_usable_backend default_env Sample.disk_adapter Sample.empty_world).
  vm_compute. reflexivity.
Defined.

(** A volume path that is taken by a file: the constructor raises. *)
Lemma init_failures_propagate_witness :
  StorageAdapter.__init__ volume_is_a_file Sample.stocked_world
  = (Raise (FileExistsError "[Errno 17] File exists: '/srv/documents/existing.docx'"),
     Sample.stocked_world).
Proof.
  apply (init_failures_propagate volume_is_a_file).
  left. split; [reflexivity |]. split; [discriminate |]. vm_compute. reflexivity.
Defined.

(** The locator of a document put on the mounted volume. *)
Lemma upload_returns_the_document_url_witness :
  "/mnt/disk/documents/a.docx"
  = StorageAdapter.get_document_url Sample.disk_adapter never_signs "a.docx".
Proof.
  apply (upload_returns_the_document_url Sample.disk_adapter never_signs
           "/tmp/doc_edit_k3x9/a.docx" "a.docx" "/mnt/disk/documents/a.docx"
           scratch_world
           (StorageAdapter.upload_document Sample.disk_adapter
              "/tmp/doc_edit_k3x9/a.docx" "a.docx" scratch_world).2).
  - by left.
  - vm_compute. reflexivity.
Defined.

(** Fetching [existing.docx] from the mounted volume. *)
Lemma fetch_copies_to_scratch_witness :
  ∃ w',
    DocumentManager.get_local_path Server.disk_manager "existing.docx" false
      Sample.stocked_world
    = (Ok "/tmp/doc_edit_k3x9/existing.docx", w')
    ∧ os.read_file "/tmp/doc_edit_k3x9/existing.docx" w' = (Ok Sample.pk, w').
Proof.
  apply (fetch_copies_to_scratch Server.disk_manager "existing.docx" false Sample.pk
           Sample.stocked_world).
  - discriminate.
  - reflexivity.
  - vm_compute. reflexivity.
  - split; vm_compute; [reflexivity | discriminate].
Defined.

(** The path of a new document on the empty sample machine. *)
Lemma missing_document_gets_a_fresh_path_witness :
  let out := DocumentManager.get_local_path Server.disk_manager "new.docx" true
               Sample.empty_world in
  "/tmp/doc_edit_k3x9/new.docx" = "/tmp/doc_edit_k3x9/new.docx"
  ∧ os.path_isdir (posixpath.dirname "/tmp/doc_edit_k3x9/new.docx") out.2
    = (Ok true, out.2)
  ∧ lookup_node out.2 (key out.2 "/tmp/doc_edit_k3x9/new.docx")
    = lookup_node Sample.empty_world (key Sample.empty_world "/tmp/doc_edit_k3x9/new.docx")
  ∧ (∀ k d, lookup_node out.2 k = Some (File d)
            ↔ lookup_node Sample.empty_world k = Some (File d))
  ∧ s3_objects out.2 = s3_objects Sample.empty_world.
Proof.
  apply (missing_document_gets_a_fresh_path Server.disk_manager "new.docx"
           "/tmp/doc_edit_k3x9/new.docx" Sample.empty_world).
  - reflexivity.
  - vm_compute. reflexivity.
  - vm_compute. reflexivity.
Defined.

(** The operations of the sample server create no directories. *)
Lemma collaborator_no_new_dirs (name : string) (kw : list (string * json)) :
  preserves no_new_dirs (tool_call (Server.collaborator name) kw).
Proof.
  unfold Server.collaborator. cbn [tool_call].
  destruct (py.dict_get kw "filename") as [[] |]; preserve.
Qed.

(** Reading an existing document through the decorator. *)
Lemma storage_sync_cleans_up_witness :
  ∃ text w',
    with_storage_sync Server.disk_manager "get_document_text"
      (Server.collaborator "document_tools.get_document_text")
      [("filename", JStr "existing.docx")] Sample.stocked_world
    = (Ok text, w')
    ∧ lookup_node w' (key w' "/tmp/doc_edit_k3x9/existing.docx") = None.
Proof.
  apply (storage_sync_cleans_up Server.disk_manager "get_document_text"
           (Server.collaborator "document_tools.get_document_text")
           [("filename", JStr "existing.docx")] "existing.docx" Sample.stocked_world).
  - reflexivity.
  - reflexivity.
  - apply collaborator_no_new_dirs.
  - vm_compute. discriminate.
Defined.

(** Reading a missing document through the decorator. *)
Lemma storage_sync_reports_a_missing_document_witness :
  with_storage_sync Server.disk_manager "get_document_text"
    (Server.collaborator "document_tools.get_document_text")
    [("filename", JStr "missing.docx")] scratch_world
  = (Ok "Error: Document missing.docx not found",
     set_fs (delete (key scratch_world "/tmp/doc_edit_k3x9/missing.docx")) scratch_world)
  ∧ (lookup_node scratch_world (key scratch_world "/tmp/doc_edit_k3x9/missing.docx")
     = None
     → set_fs (delete (key scratch_world "/tmp/doc_edit_k3x9/missing.docx")) scratch_world
       = scratch_world).
Proof.
  apply (storage_sync_reports_a_missing_document Server.disk_manager "get_document_text"
           (Server.collaborator "document_tools.get_document_text")
           [("filename", JStr "missing.docx")] "missing.docx" scratch_world).
  - reflexivity.
  - reflexivity.
  - vm_compute. reflexivity.
  - vm_compute. reflexivity.
  - vm_compute. reflexivity.
  - vm_compute. discriminate.
Defined.

(** Setting the template from a document of the working directory. *)
Lemma set_template_keeps_the_source_witness :
  let out := template_tools.set_template_from_file Server.env "documents/existing"
               Sample.stocked_world in
  ∃ d,
    lookup_node Sample.stocked_world (key Sample.stocked_world "documents/existing.docx")
    = Some (File d)
    ∧ os.read_file "/mnt/disk/documents/.template.docx" out.2 = (Ok d, out.2)
    ∧ template_tools.template_exists Server.env out.2 = (Ok true, out.2)
    ∧ os.read_file "documents/existing.docx" out.2 = (Ok d, out.2).
Proof.
  apply (set_template_keeps_the_source Server.env "documents/existing"
           Sample.stocked_world).
  vm_compute. reflexivity.
Defined.

(** Creating a report in the scratch directory. *)
Lemma create_document_reports_in_text_witness :
  ∃ message w',
    document_tools.create_document Server.env Server.check_file_writeable
      Server.docx_build Server.py_repr
      [("filename", JStr "/tmp/doc_edit_k3x9/report")] Sample.empty_world
    = (Ok message, w')
    ∧ (Str.startswith message "Document " = true →
       ∃ template data,
         Server.docx_build [("filename", JStr "/tmp/doc_edit_k3x9/report")] template
         = Ok data
         ∧ lookup_node w' (key w' (ensure_docx_extension "/tmp/doc_edit_k3x9/report"))
           = Some (File data))
    ∧ (Str.startswith message "Cannot create document: " = true
       → w' = Sample.empty_world).
Proof.
  apply (create_document_reports_in_text Server.env Server.check_file_writeable
           Server.docx_build Server.py_repr
           [("filename", JStr "/tmp/doc_edit_k3x9/report")]
           "/tmp/doc_edit_k3x9/report" Sample.empty_world).
  - reflexivity.
  - reflexivity.
Defined.

(** Creating a report on a machine with a template. *)
Lemma create_document_uses_the_template_witness :
  document_tools.create_document Server.env Server.check_file_writeable
    Server.docx_build Server.py_repr
    [("filename", JStr "/tmp/doc_edit_k3x9/report.docx")] template_world
  = (Ok "Document /tmp/doc_edit_k3x9/report.docx created successfully (using template)",
     set_fs (<[ ["tmp"; "doc_edit_k3x9"; "report.docx"] := File Sample.pk ]>)
       template_world).
Proof.
  apply (create_document_uses_the_template Server.env Server.check_file_writeable
           Server.docx_build Server.py_repr
           [("filename", JStr "/tmp/doc_edit_k3x9/report.docx")]
           "/tmp/doc_edit_k3x9/report.docx" Sample.pk Sample.pk template_world).
  - reflexivity.
  - reflexivity.
  - reflexivity.
  - reflexivity.
  - vm_compute. reflexivity.
  - vm_compute. reflexivity.
  - vm_compute. discriminate.
  - reflexivity.
Defined.

(** A [ping] request on the sample server. *)
Lemma only_calls_change_the_world_witness :
  (Server.handle Server.disk_manager ping Sample.stocked_world).2 = Sample.stocked_world
  ∧ (JStr "ping" ≠ JStr "initialize" → JStr "ping" ≠ JStr "tools/list" →
     (Server.handle Server.disk_manager ping Sample.stocked_world).1
     = JDict [("jsonrpc", JStr "2.0"); ("id", JInt 3);
              ("error", JDict [("code", JInt (-32601));
                               ("message", JStr "Method not found: ping")])]).
Proof.
  apply (only_calls_change_the_world Server.TOOL_REGISTRY "" Server.disk_manager
           Server.py_repr ping Sample.stocked_world).
  discriminate.
Defined.

(** Listing the documents on the sample server. *)
Lemma call_without_document_passes_through_witness :
  Server.handle Server.disk_manager list_documents Sample.stocked_world
  = (JDict [("jsonrpc", JStr "2.0"); ("id", JInt 4);
            ("result",
             (JDict [("content",
                JList [JDict [("type", JStr "text"); ("text", JStr "ok")]])]))],
     Sample.stocked_world).
Proof.
  apply (call_without_document_passes_through Server.TOOL_REGISTRY "" Server.disk_manager
           Server.py_repr list_documents
           [("name", JStr "list_available_documents");
            ("arguments", JDict [("directory", JStr ".")])]
           [("directory", JStr ".")] "list_available_documents"
           (Server.collaborator "document_tools.list_available_documents")
           Sample.stocked_world).
  - split; reflexivity.
  - reflexivity.
  - reflexivity.
  - reflexivity.
  - reflexivity.
  - reflexivity.
Defined.

(** A call that names [existing.docx] through other directories. *)
Lemma only_the_base_name_is_used_witness :
  http_server.tools_call Server.TOOL_REGISTRY "" Server.disk_manager Server.py_repr
    (JInt 1)
    (JDict [("name", JStr "get_document_text");
            ("arguments", JDict [("filename", JStr "/etc/../existing.docx")])])
    Sample.stocked_world
  = http_server.tools_call Server.TOOL_REGISTRY "" Server.disk_manager Server.py_repr
      (JInt 1)
      (JDict [("name", JStr "get_document_text");
              ("arguments", JDict [("filename", JStr "existing.docx")])])
      Sample.stocked_world.
Proof.
  apply (only_the_base_name_is_used Server.TOOL_REGISTRY "" Server.disk_manager
           Server.py_repr (JInt 1) (JStr "get_document_text")
           [("filename", JStr "/etc/../existing.docx")] "/etc/../existing.docx"
           Sample.stocked_world).
  reflexivity.
Defined.

(** Reading an existing document on the sample server stores it back. *)
Lemma changes_are_stored_back_witness :
  ∃ w3,
    Server.handle Server.disk_manager read_existing Sample.stocked_world
    = (JDict [("jsonrpc", JStr "2.0"); ("id", JInt 1);
              ("result",
               (JDict [("content",
                  JList [JDict [("type", JStr "text");
                                ("text",
                                 JStr ("ok" ++ "

Document saved: " ++ saved_as "existing.docx" ++ "
Download URL: "
                                       ++ "https://office-word-mcp.onrender.com"
                                       ++ "/documents/"
                                       ++ urllib.quote (saved_as "existing.docx")))]])]))],
       w3)
    ∧ held Sample.disk_adapter w3 (saved_as "existing.docx") = Some Sample.pk
    ∧ lookup_node w3 (key w3 "/tmp/doc_edit_k3x9/existing.docx") = None.
Proof.
  apply (changes_are_stored_back Server.TOOL_REGISTRY "" Server.disk_manager
           Server.py_repr read_existing
           [("name", JStr "get_document_text");
            ("arguments", JDict [("filename", JStr "existing.docx")])]
           [("filename", JStr "existing.docx")]
           "get_document_text" "existing.docx" "ok"
           (Server.collaborator "document_tools.get_document_text")
           Sample.pk Sample.pk Sample.stocked_world
           (set_fs (<[ ["tmp"; "doc_edit_k3x9"; "existing.docx"] := File Sample.pk ]>)
              Sample.stocked_world)).
  - split; reflexivity.
  - reflexivity.
  - reflexivity.
  - reflexivity.
  - reflexivity.
  - reflexivity.
  - discriminate.
  - reflexivity.
  - vm_compute. reflexivity.
  - split; vm_compute; [reflexivity | discriminate].
  - vm_compute. reflexivity.
  - reflexivity.
  - vm_compute. reflexivity.
  - split; vm_compute; [reflexivity | discriminate].
Defined.

(** Reading an existing document after the scratch directory was removed. *)
Lemma missing_scratch_directory_hides_documents_witness :
  Server.handle Server.disk_manager read_existing wiped_world
  = (JDict [("jsonrpc", JStr "2.0"); ("id", JInt 1);
            ("error", JDict [("code", JInt (-32602));
                             ("message", JStr "Document existing.docx not found")])],
     wiped_world).
Proof.
  apply (missing_scratch_directory_hides_documents Server.TOOL_REGISTRY ""
           Server.disk_manager Server.py_repr read_existing
           [("name", JStr "get_document_text");
            ("arguments", JDict [("filename", JStr "existing.docx")])]
           [("filename", JStr "existing.docx")]
           "get_document_text" "existing.docx"
           (Server.collaborator "document_tools.get_document_text")
           Sample.pk wiped_world).
  - split; reflexivity.
  - reflexivity.
  - reflexivity.
  - reflexivity.
  - reflexivity.
  - reflexivity.
  - reflexivity.
  - reflexivity.
  - vm_compute. reflexivity.
  - vm_compute. reflexivity.
  - vm_compute. reflexivity.
Defined.



(** The input schema of [create_document]. *)
Lemma tool_schema_lists_the_parameters_witness :
  ∃ properties,
    http_server._get_tool_schema no_description create_document_signature None
    = JDict [("type", JStr "object"); ("properties", JDict properties);
             ("required", JList [JStr "filename"])]
    ∧ properties.*1
      = ["filename"; "title"; "author"; "use_template"; "document_title";
         "document_subtitle"]
    ∧ Forall (λ entry,
                ∃ fields t, entry.2 = JDict fields
                            ∧ py.dict_get fields "type" = Some (JStr t)
                            ∧ t ∈ json_types
                            ∧ is_Some (py.dict_get fields "description"))
        properties.
Proof.
  apply (tool_schema_lists_the_parameters no_description create_document_signature None).
  apply (@bool_decide_unpack _ (NoDup_dec _)). vm_compute. exact I.
Defined.
